(** * gr_tools.run_sim: wiring a component between a source and a file sink

    A shallow embedding of [src/gr_tools/run_sim.py].  The module is a thin
    layer over the GNU Radio runtime: it instantiates four runtime nodes,
    connects them around a component supplied by the caller and drives the
    resulting flowgraph.  The two entry points [run_file_source] and
    [run_msg_source] are transcribed statement by statement, as computations
    over a world made of the file system, the graphs that are running, a
    scheduler clock and the trace of what the caller's thread did.

    What they call is GNU Radio's, not this module's.  It is written down in
    the modules [blocks], [gr], [pmt] and [time] as far as the two functions
    depend on it:
    - a node constructor converts its arguments, a failed conversion being a
      [TypeError]; the file source then opens its file, the file sink
      creates its file, or empties it;
    - [connect] reads a bare node as its port 0 and connects consecutive
      points; [msg_connect] connects two message ports;
    - [run] executes the graph until its streams end: the limiter passes its
      first [nitems] elements and ends the stream, the file of a sink
      receives what reaches the sink, and the call does not return while a
      sink still waits for elements;
    - [start] returns at once and the graph proceeds on its own; the
      limiter's counter never exceeds its bound, and the file sink takes
      elements only after the limiter has counted them.
    Whatever else the runtime decides is a field of the record [runtime],
    left open: the theorems hold for every runtime. *)

From Stdlib Require Import ZArith String List Bool Lia.
From Stdlib Require QArith.QArith_base.
From stdpp Require Import gmap strings list fin_maps.

Open Scope string_scope.
Open Scope list_scope.
Open Scope Z_scope.

(** ** Python values *)

(** The values that can sit in a specification dictionary or be passed as the
    [connections] argument. *)
#[warnings="-register-all"]
Inductive pyval : Type :=
| PNone
| PBool (b : bool)
| PInt (z : Z)
| PStr (s : string)
| PTuple (l : list pyval)
| PList (l : list pyval).

Fixpoint pyval_eqb (a b : pyval) {struct a} : bool :=
  let fix all2 (l1 l2 : list pyval) {struct l1} : bool :=
    match l1, l2 with
    | [], [] => true
    | x :: xs, y :: ys => pyval_eqb x y && all2 xs ys
    | _, _ => false
    end in
  match a, b with
  | PNone, PNone => true
  | PBool x, PBool y => Bool.eqb x y
  | PInt x, PInt y => Z.eqb x y
  | PStr x, PStr y => String.eqb x y
  | PTuple x, PTuple y => all2 x y
  | PList x, PList y => all2 x y
  | _, _ => false
  end.

Instance pyval_inhabited : Inhabited pyval := populate PNone.

(** Exceptions a call can end with. *)
Inductive exn : Type :=
| KeyError (key : string)
| TypeError
| IndexError
| ValueError
| RuntimeError.

(** [v[i]] for an integer index: sequences and strings are subscriptable,
    [None], booleans and integers are not. *)
Definition seq_index {A} (l : list A) (i : Z) : option A :=
  if (0 <=? i) && (i <? Z.of_nat (length l)) then l !! Z.to_nat i
  else if (- Z.of_nat (length l) <=? i) && (i <? 0)
       then l !! Z.to_nat (Z.of_nat (length l) + i)
       else None.

Definition subscript (v : pyval) (i : Z) : exn + pyval :=
  match v with
  | PTuple l | PList l =>
      match seq_index l i with
      | Some x => inr x
      | None => inl IndexError
      end
  | PStr s =>
      match seq_index (list_ascii_of_string s) i with
      | Some c => inr (PStr (String c EmptyString))
      | None => inl IndexError
      end
  | PNone | PBool _ | PInt _ => inl TypeError
  end.

(** [sep.join(v)] with the empty separator: [v] must be a string or a
    sequence of strings. *)
Fixpoint concat_strs (l : list pyval) : option string :=
  match l with
  | [] => Some EmptyString
  | PStr s :: rest => option_map (String.append s) (concat_strs rest)
  | _ :: _ => None
  end.

Definition join_empty (v : pyval) : exn + string :=
  match v with
  | PStr s => inr s
  | PTuple l | PList l =>
      match concat_strs l with
      | Some s => inr s
      | None => inl TypeError
      end
  | PNone | PBool _ | PInt _ => inl TypeError
  end.

(** ** Flowgraphs *)

(** One element of a stream.  A raw file is kept as the sequence of its
    elements, at the element type it was written with. *)
Definition item : Type := Z.

(** The nodes this layer handles: the four it instantiates itself and the
    caller's component, known by name only. *)
Inductive block : Type :=
| FileSource (itemsize : pyval) (path : string) (repeat : bool)
| Head (itemsize : pyval) (nitems : Z)
| FileSink (itemsize : pyval) (path : string)
| MessageStrobe (msg : string) (period_ms : Z)
| Component (name : string).

Definition block_eqb (a b : block) : bool :=
  match a, b with
  | FileSource t p r, FileSource t' p' r' =>
      pyval_eqb t t' && String.eqb p p' && Bool.eqb r r'
  | Head t n, Head t' n' => pyval_eqb t t' && Z.eqb n n'
  | FileSink t p, FileSink t' p' => pyval_eqb t t' && String.eqb p p'
  | MessageStrobe m d, MessageStrobe m' d' => String.eqb m m' && Z.eqb d d'
  | Component c, Component c' => String.eqb c c'
  | _, _ => false
  end.

(** A port of a node: an index for stream ports, a name for message ports. *)
Definition endpoint : Type := block * pyval.

Definition endpoint_eqb (a b : endpoint) : bool :=
  block_eqb (fst a) (fst b) && pyval_eqb (snd a) (snd b).

Definition edge : Type := endpoint * endpoint.

Record flowgraph : Type := {
  stream_edges : list edge;
  msg_edges : list edge
}.

Definition edge_eqb (a b : edge) : bool :=
  endpoint_eqb (fst a) (fst b) && endpoint_eqb (snd a) (snd b).

Fixpoint edges_eqb (l1 l2 : list edge) : bool :=
  match l1, l2 with
  | [], [] => true
  | x :: xs, y :: ys => edge_eqb x y && edges_eqb xs ys
  | _, _ => false
  end.

Definition flowgraph_eqb (g h : flowgraph) : bool :=
  edges_eqb (stream_edges g) (stream_edges h)
  && edges_eqb (msg_edges g) (msg_edges h).

Definition blocks_of (g : flowgraph) : list block :=
  flat_map (fun e : edge => [fst (fst e); fst (snd e)])
           (stream_edges g ++ msg_edges g).

Definition has_block (g : flowgraph) (b : block) : bool :=
  existsb (block_eqb b) (blocks_of g).

(** ** What the layer delegates to *)

(** What a node hands downstream at a given position of its output: an
    element, the end of the stream, or nothing ever (the node waits). *)
Inductive cell : Type :=
| Item (x : item)
| Eos
| Never.

Definition stream : Type := nat -> cell.

(** What the caller's thread does that the outside can observe. *)
Inductive event : Type :=
| Ran (g : flowgraph) (max_noutput_items : Z)
| Started (g : flowgraph) (max_noutput_items : Z)
| Stopped (g : flowgraph)
| Polled (b : block) (count : Z)
| Slept (seconds : QArith_base.Q)
| Printed (line : string).

Record world : Type := {
  files : gmap string (list item);
  running : list flowgraph;
  clock : nat;
  trace : list event
}.

(** The external runtime and the caller's component.  Nothing below fixes
    these fields: the size constants, which element sizes the node
    constructors accept, where a file can be created, which connections and
    which graphs the runtime accepts, what the component named [c] puts out
    at a port given the streams at its connected input ports ([work]), and,
    for a graph started asynchronously, which elements have
    reached the limiter and how many the file sink has taken from it at each
    scheduler time. *)
Record runtime : Type := {
  sizeof_char : Z;
  sizeof_float : Z;
  sizeof_gr_complex : Z;
  sizeof_short : Z;
  sizeof_int : Z;
  supported : pyval -> bool;
  writable : string -> bool;
  admits : endpoint -> endpoint -> bool;
  admits_msg : endpoint -> endpoint -> bool;
  runnable : flowgraph -> bool;
  work : string -> list (pyval * stream) -> pyval -> stream;
  produced : flowgraph -> nat -> list item;
  drained : flowgraph -> nat -> nat
}.

(** ** Calls: state, exceptions and calls that do not return *)

Inductive outcome (A : Type) : Type :=
| Done (a : A)
| Raised (e : exn)
| Hung.
Arguments Done {A} a.
Arguments Raised {A} e.
Arguments Hung {A}.

Definition Py (A : Type) : Type := world -> outcome A * world.

Definition py_ret {A} (a : A) : Py A := fun w => (Done a, w).

Definition py_bind {A B} (m : Py A) (k : A -> Py B) : Py B :=
  fun w =>
    match m w with
    | (Done a, w') => k a w'
    | (Raised e, w') => (Raised e, w')
    | (Hung, w') => (Hung, w')
    end.

Definition raise {A} (e : exn) : Py A := fun w => (Raised e, w).
Definition hang {A} : Py A := fun w => (Hung, w).

Definition lift {A} (r : exn + A) : Py A :=
  match r with
  | inr a => py_ret a
  | inl e => raise e
  end.

Definition emit (e : event) : Py unit :=
  fun w => (Done tt,
            {| files := files w; running := running w; clock := clock w;
               trace := trace w ++ [e] |}).

Notation "x <- m ;; k" := (py_bind m (fun x => k))
  (at level 100, m at next level, k at level 200, right associativity).
Notation "m ;;; k" := (py_bind m (fun _ => k))
  (at level 100, k at level 200, right associativity).

(** [d[k]] on a dictionary. *)
Definition getitem (d : gmap string pyval) (k : string) : Py pyval :=
  match d !! k with
  | Some v => py_ret v
  | None => raise (KeyError k)
  end.

(** [a < b] on integers. *)
Definition py_lt (a : Z) (b : pyval) : Py bool :=
  match b with
  | PInt z => py_ret (a <? z)
  | PBool c => py_ret (a <? (if c then 1 else 0))
  | _ => raise TypeError
  end.

(** [while cond: body]; [fuel] bounds the number of evaluations of [cond]. *)
Fixpoint while (fuel : nat) (cond : Py bool) (body : Py unit) : Py unit :=
  match fuel with
  | O => hang
  | S fuel' =>
      c <- cond ;;
      if c then body ;;; while fuel' cond body else py_ret tt
  end.

Definition print (line : string) : Py unit := emit (Printed line).

(** ** The runtime's nodes *)

(** Streams in a graph that is run to completion. *)
Definition file_stream (contents : list item) (repeat : bool) : stream :=
  fun i =>
    if repeat then
      match contents !! (i mod length contents)%nat with
      | Some x => Item x
      | None => Never
      end
    else
      match contents !! i with
      | Some x => Item x
      | None => Eos
      end.

(** The limiter passes the first [n] elements and then ends the stream. *)
Definition limit (n : Z) (s : stream) : stream :=
  fun i => if Z.of_nat i <? n then s i else Eos.

Definition ended : stream := fun _ => Eos.
Definition stalled : stream := fun _ => Never.

(** What a file source reads from the file system. *)
Definition source_stream (fs : gmap string (list item)) (path : string)
    (repeat : bool) : stream :=
  match fs !! path with
  | Some contents => file_stream contents repeat
  | None => ended
  end.

Module blocks.
Section with_runtime.
Variable rt : runtime.

Definition as_bool (v : pyval) : option bool :=
  match v with
  | PBool b => Some b
  | PInt z => Some (negb (z =? 0))
  | _ => None
  end.

(** [blocks.file_source(itemsize, filename, repeat)]: the arguments are
    converted, then the file is opened for reading. *)
Definition file_source (itemsize filename repeat : pyval) : Py block :=
  match filename, as_bool repeat with
  | PStr path, Some r =>
      if supported rt itemsize then
        fun w =>
          match files w !! path with
          | Some _ => (Done (FileSource itemsize path r), w)
          | None => (Raised RuntimeError, w)
          end
      else raise TypeError
  | _, _ => raise TypeError
  end.

(** [blocks.head(itemsize, nitems)]. *)
Definition head (itemsize nitems : pyval) : Py block :=
  match nitems with
  | PInt n =>
      if supported rt itemsize && (0 <=? n) then py_ret (Head itemsize n)
      else raise TypeError
  | _ => raise TypeError
  end.

(** [blocks.file_sink(itemsize, filename)]: the arguments are converted,
    then the file is created, or emptied when it exists. *)
Definition file_sink (itemsize filename : pyval) : Py block :=
  match filename with
  | PStr path =>
      if supported rt itemsize then
        if writable rt path then
          fun w =>
            (Done (FileSink itemsize path),
             {| files := <[path := []]> (files w); running := running w;
                clock := clock w; trace := trace w |})
        else raise RuntimeError
      else raise TypeError
  | _ => raise TypeError
  end.

(** [blocks.message_strobe(msg, period_ms)]. *)
Definition message_strobe (msg : string) (period_ms : pyval) : Py block :=
  match period_ms with
  | PInt p => py_ret (MessageStrobe msg p)
  | _ => raise TypeError
  end.
End with_runtime.
End blocks.

Module pmt.
(** [pmt.intern(s)]: the symbol named [s]. *)
Definition intern (s : string) : string := s.
End pmt.

Module gr.
Section with_runtime.
Variable rt : runtime.

(** An argument of [connect]: a node, standing for its port 0, or a pair
    of a node and a port. *)
Inductive point : Type :=
| Blk (b : block)
| At (b : block) (port : pyval).

Definition coerce_endpoint (p : point) : endpoint :=
  match p with
  | Blk b => (b, PInt 0)
  | At b port => (b, port)
  end.

(** [gr.top_block()]: a graph without connections. *)
Definition top_block : flowgraph :=
  {| stream_edges := []; msg_edges := [] |}.

Definition connect1 (top : flowgraph) (src dst : endpoint) : Py flowgraph :=
  if admits rt src dst then
    py_ret {| stream_edges := stream_edges top ++ [(src, dst)];
              msg_edges := msg_edges top |}
  else raise RuntimeError.

Fixpoint connect_from (top : flowgraph) (prev : point) (rest : list point)
  : Py flowgraph :=
  match rest with
  | [] => py_ret top
  | p :: rest' =>
      top' <- connect1 top (coerce_endpoint prev) (coerce_endpoint p) ;;
      connect_from top' p rest'
  end.

(** [top.connect(p0, p1, ...)]: consecutive points are connected pairwise. *)
Definition connect (top : flowgraph) (points : list point) : Py flowgraph :=
  match points with
  | [] => raise ValueError
  | p :: rest => connect_from top p rest
  end.

(** [top.msg_connect((src, srcport), (dst, dstport))]. *)
Definition msg_connect (top : flowgraph) (src dst : endpoint) : Py flowgraph :=
  if admits_msg rt src dst then
    py_ret {| stream_edges := stream_edges top;
              msg_edges := msg_edges top ++ [(src, dst)] |}
  else raise RuntimeError.

(** The stream arriving at an input port: what leaves the output port
    connected to it, nothing when the port is not connected. *)
Definition arriving (leaves : endpoint -> stream) (g : flowgraph)
    (dst : endpoint) : stream :=
  match find (fun e : edge => endpoint_eqb (snd e) dst) (stream_edges g) with
  | Some e => leaves (fst e)
  | None => ended
  end.

(** The connected input ports of the component [c], each with the stream
    arriving at it. *)
Definition inputs (leaves : endpoint -> stream) (g : flowgraph)
    (c : string) : list (pyval * stream) :=
  omap (fun e : edge =>
          match snd e with
          | (Component c', port) =>
              if String.eqb c c' then Some (port, leaves (fst e)) else None
          | _ => None
          end) (stream_edges g).

(** The stream leaving an output port when the graph runs to completion.
    [depth] bounds the number of nodes traversed upstream. *)
Fixpoint leaving (depth : nat) (fs : gmap string (list item))
    (g : flowgraph) (src : endpoint) : stream :=
  match depth with
  | O => stalled
  | S d =>
      match fst src with
      | FileSource _ path repeat => source_stream fs path repeat
      | Head _ n => limit n (arriving (leaving d fs g) g (fst src, PInt 0))
      | Component c => work rt c (inputs (leaving d fs g) g c) (snd src)
      | FileSink _ _ | MessageStrobe _ _ => ended
      end
  end.

(** Taking elements until the stream ends; [None] when it never does. *)
Fixpoint pump (fuel : nat) (s : stream) (i : nat) : option (list item) :=
  match fuel with
  | O => None
  | S fuel' =>
      match s i with
      | Item x => option_map (cons x) (pump fuel' s (S i))
      | Eos => Some []
      | Never => None
      end
  end.

Definition sink_inputs (g : flowgraph) : list (string * endpoint) :=
  omap (fun e : edge =>
          match e with
          | (src, (FileSink _ path, _)) => Some (path, src)
          | _ => None
          end) (stream_edges g).

Fixpoint write_sinks (fuel : nat) (fs0 : gmap string (list item))
    (g : flowgraph) (sinks : list (string * endpoint))
    (fs : gmap string (list item)) : option (gmap string (list item)) :=
  match sinks with
  | [] => Some fs
  | (path, src) :: rest =>
      match pump fuel (leaving (S (length (stream_edges g))) fs0 g src) 0 with
      | Some written => write_sinks fuel fs0 g rest (<[path := written]> fs)
      | None => None
      end
  end.

(** [top.run(max_noutput_items=n)]: the graph is checked, started and
    waited for; every file sink ends up holding what reached it.  [n] only
    bounds what a node produces in one call of its work function; the
    theorem on completed runs takes it positive.  What graphs started
    earlier and left running do in the meantime is not followed here:
    what is said of other files is said with no such graph running. *)
Definition run (fuel : nat) (top : flowgraph) (max_noutput_items : pyval)
  : Py unit :=
  match max_noutput_items with
  | PInt n =>
      if runnable rt top then
        emit (Ran top n) ;;;
        fun w =>
          match write_sinks fuel (files w) top (sink_inputs top) (files w) with
          | Some fs =>
              (Done tt, {| files := fs; running := running w;
                           clock := clock w; trace := trace w |})
          | None => (Hung, w)
          end
      else raise RuntimeError
  | _ => raise TypeError
  end.

(** *** Graphs started asynchronously *)

(** The file sinks of [g] fed by a limiter, with the limiter's bound. *)
Definition limited_sinks (g : flowgraph) : list (string * Z) :=
  omap (fun e : edge =>
          match e with
          | ((Head _ n, _), (FileSink _ path, _)) => Some (path, n)
          | _ => None
          end) (stream_edges g).

(** What a running graph has put in its files at scheduler time [t]: of
    the elements that reached the limiter, those within the limiter's
    bound that the sink has already taken. *)
Definition flush (t : nat) (g : flowgraph) (fs : gmap string (list item))
  : gmap string (list item) :=
  foldr (fun (pn : string * Z) fs' =>
           <[fst pn := take (Nat.min (drained rt g t) (Z.to_nat (snd pn)))
                            (produced rt g t)]> fs')
        fs (limited_sinks g).

(** [top.start(max_noutput_items=n)]: the graph is checked and set running;
    the call returns at once. *)
Definition start (top : flowgraph) (max_noutput_items : pyval) : Py unit :=
  match max_noutput_items with
  | PInt n =>
      if runnable rt top then
        fun w =>
          (Done tt,
           {| files := flush (clock w) top (files w);
              running := top :: running w;
              clock := clock w;
              trace := trace w ++ [Started top n] |})
      else raise RuntimeError
  | _ => raise TypeError
  end.

(** [top.stop()]. *)
Definition stop (top : flowgraph) : Py unit :=
  fun w =>
    (Done tt,
     {| files := files w;
        running := List.filter (fun g => negb (flowgraph_eqb top g))
                             (running w);
        clock := clock w;
        trace := trace w ++ [Stopped top] |}).

(** The limiter's counter at scheduler time [t]: it never exceeds the
    limiter's bound, and it is 0 while the limiter is in no running
    graph. *)
Definition written (b : block) (gs : list flowgraph) (t : nat) : Z :=
  match b, find (fun g => has_block g b) gs with
  | Head _ n, Some g => Z.min n (Z.of_nat (length (produced rt g t)))
  | _, _ => 0
  end.

(** [b.nitems_written(which_output)]. *)
Definition nitems_written (b : block) (which_output : Z) : Py Z :=
  if which_output =? 0 then
    fun w =>
      let c := written b (running w) (clock w) in
      (Done c,
       {| files := files w; running := running w; clock := clock w;
          trace := trace w ++ [Polled b c] |})
  else raise ValueError.

End with_runtime.
End gr.

Module time.
Section with_runtime.
Variable rt : runtime.

(** [time.sleep(seconds)]: the scheduler moves on while the caller
    sleeps. *)
Definition sleep (seconds : QArith_base.Q) : Py unit :=
  fun w =>
    let t := S (clock w) in
    (Done tt,
     {| files := foldr (gr.flush rt t) (files w) (running w);
        running := running w;
        clock := t;
        trace := trace w ++ [Slept seconds] |}).
End with_runtime.
End time.

(** ** The module [run_sim] *)

Section run_sim.
Variable rt : runtime.

Definition DTYPE : gmap string pyval :=
  {[ "BYTE" := PInt (sizeof_char rt * 1);
     "FLOAT" := PInt (sizeof_float rt);
     "COMPLEX" := PInt (sizeof_gr_complex rt);
     "SHORT" := PInt (sizeof_short rt);
     "INT" := PInt (sizeof_int rt) ]}.

Definition DEFAULT_FILE_SPEC : gmap string pyval :=
  {[ "path" := PStr "";
     "type" := PInt (sizeof_char rt * 1);
     "repeat" := PBool true ]}.

Definition DEFAULT_MESSAGE_SPEC : gmap string pyval :=
  {[ "message" := PStr "hello world";
     "period(ms)" := PInt 300 ]}.

Definition DEFAULT_OUT_SPEC : gmap string pyval :=
  {[ "path" := PStr "";
     "type" := DTYPE !!! "BYTE";
     "n_items" := PInt 10000 ]}.

Definition FILE_EXT : gmap string string :=
  {[ "COMPLEX" := ".32cf";
     "BYTE" := ".byte";
     "FLOAT" := ".32rf";
     "INT" := ".32i";
     "SHORT" := ".16i" ]}.

(** The literal [1e-3]. *)
Definition one_millisecond : QArith_base.Q := QArith_base.Qmake 1 1000.

(** [run_file_source(component, file_spec, out_spec, connections)]; an
    argument left out is [None] here and takes the default of the
    signature.  [fuel] bounds how long the call is followed: a call that has
    not returned by then is [Hung]. *)
Definition run_file_source (fuel : nat) (component : string)
    (file_spec out_spec : option (gmap string pyval))
    (connections : option pyval) : Py unit :=
  let file_spec := default DEFAULT_FILE_SPEC file_spec in
  let out_spec := default DEFAULT_OUT_SPEC out_spec in
  let connections := default PNone connections in
  let component := Component component in
  let top := gr.top_block in
  (* setup scenario *)
  t <- getitem file_spec "type" ;;
  p <- getitem file_spec "path" ;;
  r <- getitem file_spec "repeat" ;;
  file_src <- blocks.file_source rt t p r ;;
  t <- getitem out_spec "type" ;;
  n <- getitem out_spec "n_items" ;;
  head <- blocks.head rt t n ;;
  t <- getitem out_spec "type" ;;
  p <- getitem out_spec "path" ;;
  file_sink <- blocks.file_sink rt t p ;;
  (* add connections *)
  top <- match connections with
         | PNone =>
             gr.connect rt top
               [gr.Blk file_src; gr.Blk component; gr.Blk head;
                gr.Blk file_sink]
         | _ =>
             c0 <- lift (subscript connections 0) ;;
             top <- gr.connect rt top
                      [gr.Blk file_src; gr.At component c0] ;;
             c1 <- lift (subscript connections 1) ;;
             top <- gr.connect rt top [gr.At component c1; gr.Blk head] ;;
             gr.connect rt top [gr.Blk head; gr.Blk file_sink]
         end ;;
  (* run simulation *)
  n <- getitem out_spec "n_items" ;;
  gr.run rt fuel top n.

(** [run_msg_source(component, msg_spec, out_spec, connections)]. *)
Definition run_msg_source (fuel : nat) (component : string)
    (msg_spec out_spec : option (gmap string pyval))
    (connections : option pyval) : Py unit :=
  let msg_spec := default DEFAULT_MESSAGE_SPEC msg_spec in
  let out_spec := default DEFAULT_OUT_SPEC out_spec in
  let connections := default PNone connections in
  let component := Component component in
  let top := gr.top_block in
  (* setup scenario *)
  m <- getitem msg_spec "message" ;;
  s <- lift (join_empty m) ;;
  d <- getitem msg_spec "period(ms)" ;;
  source <- blocks.message_strobe (pmt.intern s) d ;;
  t <- getitem out_spec "type" ;;
  n <- getitem out_spec "n_items" ;;
  head <- blocks.head rt t n ;;
  t <- getitem out_spec "type" ;;
  p <- getitem out_spec "path" ;;
  file_sink <- blocks.file_sink rt t p ;;
  c0 <- lift (subscript connections 0) ;;
  top <- gr.msg_connect rt top (source, PStr "strobe") (component, c0) ;;
  c1 <- lift (subscript connections 1) ;;
  top <- gr.connect rt top [gr.At component c1; gr.At head (PInt 0)] ;;
  top <- gr.connect rt top [gr.Blk head; gr.Blk file_sink] ;;
  (* run simulation *)
  n <- getitem out_spec "n_items" ;;
  gr.start rt top n ;;;
  while fuel
    (c <- gr.nitems_written rt head 0 ;;
     n <- getitem out_spec "n_items" ;;
     py_lt c n)
    (time.sleep rt one_millisecond) ;;;
  print "Completed simulation".
End run_sim.

(** ** The graphs the two entry points are meant to build *)

(** source -> component -> limiter -> sink, the component entered at
    [p_in] and left at [p_out]. *)
Definition file_pipeline (src : block) (c : string) (p_in p_out : pyval)
    (head sink : block) : flowgraph :=
  {| stream_edges :=
       [((src, PInt 0), (Component c, p_in));
        ((Component c, p_out), (head, PInt 0));
        ((head, PInt 0), (sink, PInt 0))];
     msg_edges := [] |}.

(** The strobe reaches the component over a message connection; the
    component's output goes to the limiter and on to the sink. *)
Definition msg_pipeline (strobe : block) (c : string) (p_in p_out : pyval)
    (head sink : block) : flowgraph :=
  {| stream_edges :=
       [((Component c, p_out), (head, PInt 0));
        ((head, PInt 0), (sink, PInt 0))];
     msg_edges := [((strobe, PStr "strobe"), (Component c, p_in))] |}.

(** The ports a connection descriptor selects: port 0 on both sides when
    there is none, its first two entries otherwise. *)
Definition ports_of (connections p_in p_out : pyval) : Prop :=
  match connections with
  | PNone => p_in = PInt 0 /\ p_out = PInt 0
  | _ => subscript connections 0 = inr p_in
         /\ subscript connections 1 = inr p_out
  end.

(** The world once the file sink has created its file. *)
Definition created (path : string) (w : world) : world :=
  {| files := <[path := []]> (files w); running := running w;
     clock := clock w; trace := trace w |}.

(** [content] is what a stream delivers before it ends, cut after [n]
    elements. *)
Definition holds_prefix (content : list item) (s : stream) (n : Z) : Prop :=
  (forall j x, content !! j = Some x -> s j = Item x)
  /\ Z.of_nat (length content) <= n
  /\ (Z.of_nat (length content) = n \/ s (length content) = Eos).

(** The stream the component hands to the limiter in a file-driven run: its
    only connected input is [p_in], fed by the file source. *)
Definition component_output (rt : runtime) (fs : gmap string (list item))
    (path : string) (repeat : bool) (c : string) (p_in p_out : pyval)
  : stream :=
  work rt c [(p_in, source_stream fs path repeat)] p_out.

(** ** Valid arguments *)

Definition file_spec_ready (rt : runtime) (w : world)
    (file_spec : gmap string pyval) (t : pyval) (path : string)
    (repeat : bool) : Prop :=
  file_spec !! "type" = Some t
  /\ file_spec !! "path" = Some (PStr path)
  /\ file_spec !! "repeat" = Some (PBool repeat)
  /\ supported rt t = true
  /\ is_Some (files w !! path).

Definition msg_spec_ready (msg_spec : gmap string pyval) (m : pyval)
    (msg : string) (period : Z) : Prop :=
  msg_spec !! "message" = Some m
  /\ join_empty m = inr msg
  /\ msg_spec !! "period(ms)" = Some (PInt period).

Definition out_spec_ready (rt : runtime) (out_spec : gmap string pyval)
    (t : pyval) (n : Z) (path : string) : Prop :=
  out_spec !! "type" = Some t
  /\ out_spec !! "n_items" = Some (PInt n)
  /\ out_spec !! "path" = Some (PStr path)
  /\ supported rt t = true
  /\ 0 <= n
  /\ writable rt path = true.

(** The runtime accepts every connection of [g] and [g] itself. *)
Definition graph_ready (rt : runtime) (g : flowgraph) : Prop :=
  Forall (fun e : edge => admits rt (fst e) (snd e) = true) (stream_edges g)
  /\ Forall (fun e : edge => admits_msg rt (fst e) (snd e) = true)
            (msg_edges g)
  /\ runnable rt g = true.

(** ** A runtime to compute with *)

(** Every positive integer is an element size, every path but the empty one
    can be created, every connection is accepted; a component copies its
    first connected input to each of its outputs; a graph started
    asynchronously has produced the elements 0 .. t-1 at time t, of which
    the file sink has taken all but the last. *)
Definition copying_runtime : runtime :=
  {| sizeof_char := 1;
     sizeof_float := 4;
     sizeof_gr_complex := 8;
     sizeof_short := 2;
     sizeof_int := 4;
     supported := fun v => match v with PInt z => 0 <? z | _ => false end;
     writable := fun p => negb (String.eqb p "");
     admits := fun _ _ => true;
     admits_msg := fun _ _ => true;
     runnable := fun _ => true;
     work := fun _ ins _ =>
               match ins with
               | (_, s) :: _ => s
               | [] => ended
               end;
     produced := fun _ t => map Z.of_nat (seq 0 t);
     drained := fun _ t => Nat.pred t |}.

Definition three_elements : world :=
  {| files := {[ "/tmp/input.byte" := [7; 8; 9] ]};
     running := []; clock := 0%nat; trace := [] |}.

Definition in_sig (repeat : bool) : gmap string pyval :=
  {[ "path" := PStr "/tmp/input.byte";
     "type" := PInt 1;
     "repeat" := PBool repeat ]}.

Definition out_sig (t : pyval) (n : Z) : gmap string pyval :=
  {[ "path" := PStr "/tmp/output.byte";
     "type" := t;
     "n_items" := PInt n ]}.

(** ** The polling loop, seen from outside *)

(** One round of the loop of [run_msg_source] that does not leave it: the
    counter is read, the caller sleeps. *)
Definition poll_then_sleep (rt : runtime) (head : block) (w : world) : world :=
  snd (time.sleep rt one_millisecond (snd (gr.nitems_written rt head 0 w))).

(** The world after [k] such rounds. *)
Definition napped (rt : runtime) (head : block) (k : nat) (w : world) : world :=
  Nat.iter k (poll_then_sleep rt head) w.

(** What [k] such rounds add to the trace when they begin at scheduler time
    [t0] with the graphs [gs] running. *)
Definition waiting (rt : runtime) (head : block) (gs : list flowgraph)
    (t0 k : nat) : list event :=
  flat_map (fun j => [Polled head (gr.written rt head gs (t0 + j));
                      Slept one_millisecond])
           (seq 0 k).

(** What the file sink of a started graph has put in its file at scheduler
    time [t], the limiter being bounded by [n]. *)
Definition sink_contents (rt : runtime) (g : flowgraph) (n : Z) (t : nat)
  : list item :=
  take (Nat.min (drained rt g t) (Z.to_nat n)) (produced rt g t).

Definition is_stop (e : event) : bool :=
  match e with
  | Stopped _ => true
  | _ => false
  end.

(** The world once [top.start] has set [g] running. *)
Definition started (rt : runtime) (g : flowgraph) (n : Z) (w : world)
  : world :=
  {| files := gr.flush rt (clock w) g (files w);
     running := g :: running w;
     clock := clock w;
     trace := trace w ++ [Started g n] |}.

(** The world once the counter of [head] has been read. *)
Definition polled (rt : runtime) (head : block) (w : world) : world :=
  snd (gr.nitems_written rt head 0 w).

(** ** Steps that cannot start anything *)

(** [m] returns a value satisfying [P] or raises, and what it does to the
    world stays within [R]. *)
Definition keeps (R : world -> world -> Prop) {A} (m : Py A)
    (P : A -> Prop) : Prop :=
  forall w, exists w',
    R w w'
    /\ ((exists a, P a /\ m w = (Done a, w'))
        \/ (exists e, m w = (Raised e, w'))).

(** [m] raises, and what it does to the world stays within [R]. *)
Definition fails (R : world -> world -> Prop) {A} (m : Py A) : Prop :=
  forall w, exists e w', R w w' /\ m w = (Raised e, w').

(** Nothing was started, polled or printed, and no time has passed. *)
Definition quiet (w w' : world) : Prop :=
  trace w' = trace w /\ running w' = running w /\ clock w' = clock w.

(** The same runtime with a component that never emits anything once the
    graph is started asynchronously. *)
Definition silent_runtime : runtime :=
  {| sizeof_char := sizeof_char copying_runtime;
     sizeof_float := sizeof_float copying_runtime;
     sizeof_gr_complex := sizeof_gr_complex copying_runtime;
     sizeof_short := sizeof_short copying_runtime;
     sizeof_int := sizeof_int copying_runtime;
     supported := supported copying_runtime;
     writable := writable copying_runtime;
     admits := admits copying_runtime;
     admits_msg := admits_msg copying_runtime;
     runnable := runnable copying_runtime;
     work := work copying_runtime;
     produced := fun _ _ => [];
     drained := fun _ _ => 0%nat |}.

(** A descriptor naming the message port "in" and the stream port 0. *)
Definition in_0 : pyval := PTuple [PStr "in"; PInt 0].

(** ** What a call leaves alone *)

(** Whatever [m] does, what it has done to the world stays within [R], and
    a value it returns satisfies [P]. *)
Definition stays_within (R : world -> world -> Prop) {A} (m : Py A)
    (P : A -> Prop) : Prop :=
  forall w r w', m w = (r, w') -> R w w' /\ forall a, r = Done a -> P a.

(** Whenever [m] raises, what it has done to the world stays within [R]. *)
Definition raises_within (R : world -> world -> Prop) {A} (m : Py A) : Prop :=
  forall w e w', m w = (Raised e, w') -> R w w'.

(** Between [w] and [w'] no graph was started or stopped, no time has
    passed, and no file but the one [out_spec] names has changed. *)
Definition only_output (out_spec : gmap string pyval) (w w' : world) : Prop :=
  running w' = running w
  /\ clock w' = clock w
  /\ forall p, out_spec !! "path" <> Some (PStr p) ->
               files w' !! p = files w !! p.

Definition is_ran (e : event) : bool :=
  match e with
  | Ran _ _ => true
  | _ => false
  end.

(** Between [w] and [w'] the trace has only grown, by executions of graphs
    at most. *)
Definition only_ran (w w' : world) : Prop :=
  exists evs,
    trace w' = trace w ++ evs /\ Forall (fun e => is_ran e = true) evs.

(** The same runtime with a component that never hands anything on. *)
Definition idle_runtime : runtime :=
  {| sizeof_char := sizeof_char copying_runtime;
     sizeof_float := sizeof_float copying_runtime;
     sizeof_gr_complex := sizeof_gr_complex copying_runtime;
     sizeof_short := sizeof_short copying_runtime;
     sizeof_int := sizeof_int copying_runtime;
     supported := supported copying_runtime;
     writable := writable copying_runtime;
     admits := admits copying_runtime;
     admits_msg := admits_msg copying_runtime;
     runnable := runnable copying_runtime;
     work := fun _ _ _ => stalled;
     produced := produced copying_runtime;
     drained := drained copying_runtime |}.

(** The same runtime, with a component that has one stream input, port 0,
    and one message input, port "in". *)
Definition strict_runtime : runtime :=
  {| sizeof_char := sizeof_char copying_runtime;
     sizeof_float := sizeof_float copying_runtime;
     sizeof_gr_complex := sizeof_gr_complex copying_runtime;
     sizeof_short := sizeof_short copying_runtime;
     sizeof_int := sizeof_int copying_runtime;
     supported := supported copying_runtime;
     writable := writable copying_runtime;
     admits := fun _ dst => pyval_eqb (snd dst) (PInt 0);
     admits_msg := fun _ dst => pyval_eqb (snd dst) (PStr "in");
     runnable := runnable copying_runtime;
     work := work copying_runtime;
     produced := produced copying_runtime;
     drained := drained copying_runtime |}.

(** * Properties *)

(** ** Equality tests *)

Lemma pyval_eqb_refl : forall v, pyval_eqb v v = true.
Proof.
  fix IH 1. intros [ | b | z | s | l | l]; simpl.
  - reflexivity.
  - apply Bool.eqb_reflx.
  - apply Z.eqb_refl.
  - apply String.eqb_refl.
  - induction l as [ | x xs IHxs]; [reflexivity | ].
    rewrite (IH x). exact IHxs.
  - induction l as [ | x xs IHxs]; [reflexivity | ].
    rewrite (IH x). exact IHxs.
Qed.

Lemma block_eqb_refl b : block_eqb b b = true.
Proof.
  destruct b; simpl;
    rewrite ?pyval_eqb_refl, ?String.eqb_refl, ?Z.eqb_refl, ?Bool.eqb_reflx;
    reflexivity.
Qed.

Lemma endpoint_eqb_refl e : endpoint_eqb e e = true.
Proof.
  unfold endpoint_eqb. now rewrite block_eqb_refl, pyval_eqb_refl.
Qed.

Lemma edges_eqb_refl l : edges_eqb l l = true.
Proof.
  induction l as [ | e l IH]; [reflexivity | ].
  simpl. unfold edge_eqb. now rewrite !endpoint_eqb_refl, IH.
Qed.

Lemma flowgraph_eqb_refl g : flowgraph_eqb g g = true.
Proof. unfold flowgraph_eqb. now rewrite !edges_eqb_refl. Qed.

(** ** The tables of the module *)

Section tables.
Variable rt : runtime.

(** C9.  [DTYPE] has exactly the five keys BYTE, FLOAT, COMPLEX, SHORT and
    INT, each bound to the runtime's size of that element type, and
    [FILE_EXT] binds the same five keys to the extensions .byte, .32rf,
    .32cf, .16i and .32i. *)
Theorem DTYPE_FILE_EXT_tables :
  dom (DTYPE rt)
    = ({["BYTE"; "FLOAT"; "COMPLEX"; "SHORT"; "INT"]} : gset string)
  /\ DTYPE rt !! "BYTE" = Some (PInt (sizeof_char rt))
  /\ DTYPE rt !! "FLOAT" = Some (PInt (sizeof_float rt))
  /\ DTYPE rt !! "COMPLEX" = Some (PInt (sizeof_gr_complex rt))
  /\ DTYPE rt !! "SHORT" = Some (PInt (sizeof_short rt))
  /\ DTYPE rt !! "INT" = Some (PInt (sizeof_int rt))
  /\ dom FILE_EXT
    = ({["BYTE"; "FLOAT"; "COMPLEX"; "SHORT"; "INT"]} : gset string)
  /\ FILE_EXT !! "COMPLEX" = Some ".32cf"
  /\ FILE_EXT !! "BYTE" = Some ".byte"
  /\ FILE_EXT !! "FLOAT" = Some ".32rf"
  /\ FILE_EXT !! "INT" = Some ".32i"
  /\ FILE_EXT !! "SHORT" = Some ".16i".
Proof.
  unfold DTYPE, FILE_EXT. rewrite Z.mul_1_r.
  repeat split; reflexivity.
Qed.
End tables.

(** ** Sequencing *)

Lemma py_bind_ext {A B} (m : Py A) (k1 k2 : A -> Py B) w :
  (forall a w', k1 a w' = k2 a w') -> py_bind m k1 w = py_bind m k2 w.
Proof.
  intros H. unfold py_bind. destruct (m w) as [[a | e | ] w']; auto.
Qed.

Lemma py_bind_ext_l {A B} (m1 m2 : Py A) (k : A -> Py B) w :
  m1 w = m2 w -> py_bind m1 k w = py_bind m2 k w.
Proof. intros H. unfold py_bind. now rewrite H. Qed.

Lemma py_bind_done {A B} (m : Py A) (k : A -> Py B) w a w1 :
  m w = (Done a, w1) -> py_bind m k w = k a w1.
Proof. intros H. unfold py_bind. now rewrite H. Qed.

(** A call that does not raise has got past its first step, or that step
    did not return. *)
Lemma py_bind_inv {A B} (m : Py A) (k : A -> Py B) w r w' :
  py_bind m k w = (r, w') -> (forall e, r <> Raised e) ->
  (exists a w1, m w = (Done a, w1) /\ k a w1 = (r, w'))
  \/ (m w = (Hung, w') /\ r = Hung).
Proof.
  unfold py_bind. destruct (m w) as [[a | e | ] w1]; intros H Hr.
  - left. eauto.
  - inversion H; subst. now destruct (Hr e).
  - right. now inversion H.
Qed.

Lemma getitem_inv (d : gmap string pyval) k w r w' :
  getitem d k w = (r, w') -> (forall e, r <> Raised e) ->
  exists v, d !! k = Some v /\ r = Done v /\ w' = w.
Proof.
  unfold getitem. destruct (d !! k) as [v | ]; intros H Hr.
  - inversion H; subst. eauto.
  - inversion H; subst. now destruct (Hr (KeyError k)).
Qed.

Lemma getitem_some (d : gmap string pyval) k v w :
  d !! k = Some v -> getitem d k w = (Done v, w).
Proof. intros H. unfold getitem. now rewrite H. Qed.

Lemma lift_inv {A} (x : exn + A) w r w' :
  lift x w = (r, w') -> (forall e, r <> Raised e) ->
  exists a, x = inr a /\ r = Done a /\ w' = w.
Proof.
  destruct x as [e | a]; intros H Hr; inversion H; subst.
  - now destruct (Hr e).
  - eauto.
Qed.

(** ** What the node constructors do *)

Section nodes.
Variable rt : runtime.

Lemma file_source_inv t p r w res w' :
  blocks.file_source rt t p r w = (res, w') -> (forall e, res <> Raised e) ->
  exists path rep,
    p = PStr path /\ blocks.as_bool r = Some rep /\ supported rt t = true
    /\ is_Some (files w !! path)
    /\ res = Done (FileSource t path rep) /\ w' = w.
Proof.
  unfold blocks.file_source, raise. intros H Hr.
  destruct p as [ | | | path | | ];
    try (inversion H; subst; now destruct (Hr TypeError)).
  destruct (blocks.as_bool r) as [rep | ];
    [ | inversion H; subst; now destruct (Hr TypeError)].
  destruct (supported rt t);
    [ | inversion H; subst; now destruct (Hr TypeError)].
  destruct (files w !! path) as [l | ] eqn:Hf;
    inversion H; subst; [ | now destruct (Hr RuntimeError)].
  exists path, rep. rewrite Hf. eauto 10.
Qed.

Lemma file_source_unsupported t p r w :
  supported rt t = false ->
  blocks.file_source rt t p r w = (Raised TypeError, w).
Proof.
  intros H. unfold blocks.file_source, raise.
  destruct p; try reflexivity.
  destruct (blocks.as_bool r); [ | reflexivity]. now rewrite H.
Qed.

Lemma head_inv t n w res w' :
  blocks.head rt t n w = (res, w') -> (forall e, res <> Raised e) ->
  exists N,
    n = PInt N /\ supported rt t = true /\ 0 <= N
    /\ res = Done (Head t N) /\ w' = w.
Proof.
  unfold blocks.head, raise, py_ret. intros H Hr.
  destruct n as [ | | N | | | ];
    try (inversion H; subst; now destruct (Hr TypeError)).
  destruct (supported rt t); simpl in H;
    [ | inversion H; subst; now destruct (Hr TypeError)].
  destruct (0 <=? N) eqn:HN;
    inversion H; subst; [ | now destruct (Hr TypeError)].
  exists N. apply Z.leb_le in HN. eauto 10.
Qed.

Lemma head_unsupported t n w :
  supported rt t = false -> blocks.head rt t n w = (Raised TypeError, w).
Proof.
  intros H. unfold blocks.head, raise. destruct n; try reflexivity.
  now rewrite H.
Qed.

Lemma file_sink_inv t p w res w' :
  blocks.file_sink rt t p w = (res, w') -> (forall e, res <> Raised e) ->
  exists path,
    p = PStr path /\ supported rt t = true /\ writable rt path = true
    /\ res = Done (FileSink t path)
    /\ w' = {| files := <[path := []]> (files w); running := running w;
               clock := clock w; trace := trace w |}.
Proof.
  unfold blocks.file_sink, raise. intros H Hr.
  destruct p as [ | | | path | | ];
    try (inversion H; subst; now destruct (Hr TypeError)).
  destruct (supported rt t) eqn:Hs;
    [ | inversion H; subst; now destruct (Hr TypeError)].
  destruct (writable rt path) eqn:Hw;
    [ | injection H as <- <-; now destruct (Hr RuntimeError)].
  injection H as <- <-. exists path.
  repeat split; first [assumption | reflexivity].
Qed.

Lemma message_strobe_inv msg d w res w' :
  blocks.message_strobe msg d w = (res, w') -> (forall e, res <> Raised e) ->
  exists p, d = PInt p /\ res = Done (MessageStrobe msg p) /\ w' = w.
Proof.
  unfold blocks.message_strobe, raise, py_ret. intros H Hr.
  destruct d as [ | | p | | | ];
    try (inversion H; subst; now destruct (Hr TypeError)).
  inversion H; subst. eauto.
Qed.

Lemma connect1_inv top src dst w res w' :
  gr.connect1 rt top src dst w = (res, w') -> (forall e, res <> Raised e) ->
  admits rt src dst = true
  /\ res = Done {| stream_edges := stream_edges top ++ [(src, dst)];
                   msg_edges := msg_edges top |}
  /\ w' = w.
Proof.
  unfold gr.connect1, raise, py_ret. intros H Hr.
  destruct (admits rt src dst); inversion H; subst; auto.
  now destruct (Hr RuntimeError).
Qed.

Lemma msg_connect_inv top src dst w res w' :
  gr.msg_connect rt top src dst w = (res, w') ->
  (forall e, res <> Raised e) ->
  admits_msg rt src dst = true
  /\ res = Done {| stream_edges := stream_edges top;
                   msg_edges := msg_edges top ++ [(src, dst)] |}
  /\ w' = w.
Proof.
  unfold gr.msg_connect, raise, py_ret. intros H Hr.
  destruct (admits_msg rt src dst); inversion H; subst; auto.
  now destruct (Hr RuntimeError).
Qed.
End nodes.

Ltac not_raised := intros ? ?; discriminate.

Ltac break H :=
  repeat match type of H with
         | ex _ => let x := fresh "x" in destruct H as [x H]
         | _ /\ _ => let H1 := fresh "H" in destruct H as [H1 H]
         end.

(** One step of a call that did not raise: the step returned. *)
Ltac bind_step H inv :=
  let a := fresh "a" in
  let w1 := fresh "w" in
  let Hm := fresh "Hm" in
  apply py_bind_inv in H; [ | assumption];
  destruct H as [(a & w1 & Hm & H) | (Hm & ?)];
  [ apply inv in Hm; [ | not_raised]; break Hm; simplify_eq
  | apply inv in Hm; [ | not_raised]; break Hm; simplify_eq ].

Section wiring.
Variable rt : runtime.

Lemma default_wiring_inv src c head sink w r w' :
  gr.connect rt gr.top_block
    [gr.Blk src; gr.Blk (Component c); gr.Blk head; gr.Blk sink] w = (r, w') ->
  (forall e, r <> Raised e) ->
  r = Done (file_pipeline src c (PInt 0) (PInt 0) head sink) /\ w' = w.
Proof.
  intros H Hr. simpl in H.
  bind_step H connect1_inv.
  bind_step H connect1_inv.
  bind_step H connect1_inv.
  injection H as <- <-. split; reflexivity.
Qed.

Lemma connect2_inv top p q w r w' :
  gr.connect rt top [p; q] w = (r, w') -> (forall e, r <> Raised e) ->
  r = Done {| stream_edges :=
                stream_edges top
                ++ [(gr.coerce_endpoint p, gr.coerce_endpoint q)];
              msg_edges := msg_edges top |}
  /\ w' = w.
Proof.
  intros H Hr. simpl in H.
  bind_step H connect1_inv.
  injection H as <- <-. split; reflexivity.
Qed.

Lemma explicit_wiring_inv src c head sink conn w r w' :
  (c0 <- lift (subscript conn 0) ;;
   top <- gr.connect rt gr.top_block
            [gr.Blk src; gr.At (Component c) c0] ;;
   c1 <- lift (subscript conn 1) ;;
   top <- gr.connect rt top [gr.At (Component c) c1; gr.Blk head] ;;
   gr.connect rt top [gr.Blk head; gr.Blk sink]) w = (r, w') ->
  (forall e, r <> Raised e) ->
  exists p_in p_out,
    subscript conn 0 = inr p_in /\ subscript conn 1 = inr p_out
    /\ r = Done (file_pipeline src c p_in p_out head sink) /\ w' = w.
Proof.
  intros H Hr.
  bind_step H (@lift_inv pyval).
  bind_step H connect2_inv.
  bind_step H (@lift_inv pyval).
  bind_step H connect2_inv.
  apply connect2_inv in H; [ | assumption]. destruct H as [-> ->].
  exists x, x0. repeat split; assumption.
Qed.

Lemma file_wiring_inv src c head sink conn w r w' :
  match conn with
  | PNone =>
      gr.connect rt gr.top_block
        [gr.Blk src; gr.Blk (Component c); gr.Blk head; gr.Blk sink]
  | _ =>
      c0 <- lift (subscript conn 0) ;;
      top <- gr.connect rt gr.top_block
               [gr.Blk src; gr.At (Component c) c0] ;;
      c1 <- lift (subscript conn 1) ;;
      top <- gr.connect rt top [gr.At (Component c) c1; gr.Blk head] ;;
      gr.connect rt top [gr.Blk head; gr.Blk sink]
  end w = (r, w') ->
  (forall e, r <> Raised e) ->
  exists p_in p_out,
    ports_of conn p_in p_out
    /\ r = Done (file_pipeline src c p_in p_out head sink) /\ w' = w.
Proof.
  intros H Hr.
  destruct conn;
    try (apply explicit_wiring_inv in H; [ | assumption];
         destruct H as (p_in & p_out & H0 & H1 & -> & ->);
         exists p_in, p_out; repeat split; assumption).
  apply default_wiring_inv in H; [ | assumption]. destruct H as [-> ->].
  exists (PInt 0), (PInt 0). repeat split; reflexivity.
Qed.

Lemma run_inv fuel g n w r w' :
  gr.run rt fuel g (PInt n) w = (r, w') -> (forall e, r <> Raised e) ->
  runnable rt g = true
  /\ trace w' = trace w ++ [Ran g n]
  /\ running w' = running w
  /\ clock w' = clock w
  /\ match gr.write_sinks rt fuel (files w) g (gr.sink_inputs g) (files w) with
     | Some fs => r = Done tt /\ files w' = fs
     | None => r = Hung
     end.
Proof.
  unfold gr.run, raise. intros H Hr.
  destruct (runnable rt g);
    [ | injection H as <- <-; now destruct (Hr RuntimeError)].
  unfold py_bind, emit in H. simpl in H.
  destruct (gr.write_sinks rt fuel (files w) g (gr.sink_inputs g) (files w));
    injection H as <- <-; simpl; repeat split; reflexivity.
Qed.

Lemma run_file_source_inv fuel c fs os conn w r w' :
  run_file_source rt fuel c fs os conn w = (r, w') ->
  (forall e, r <> Raised e) ->
  exists t path rv rep t' N opath p_in p_out,
    default (DEFAULT_FILE_SPEC rt) fs !! "type" = Some t
    /\ default (DEFAULT_FILE_SPEC rt) fs !! "path" = Some (PStr path)
    /\ default (DEFAULT_FILE_SPEC rt) fs !! "repeat" = Some rv
    /\ blocks.as_bool rv = Some rep
    /\ is_Some (files w !! path)
    /\ default (DEFAULT_OUT_SPEC rt) os !! "type" = Some t'
    /\ default (DEFAULT_OUT_SPEC rt) os !! "n_items" = Some (PInt N)
    /\ default (DEFAULT_OUT_SPEC rt) os !! "path" = Some (PStr opath)
    /\ 0 <= N
    /\ ports_of (default PNone conn) p_in p_out
    /\ gr.run rt fuel
         (file_pipeline (FileSource t path rep) c p_in p_out
                        (Head t' N) (FileSink t' opath))
         (PInt N) (created opath w) = (r, w').
Proof.
  unfold run_file_source. intros H Hr.
  bind_step H getitem_inv.
  bind_step H getitem_inv.
  bind_step H getitem_inv.
  bind_step H file_source_inv.
  bind_step H getitem_inv.
  bind_step H getitem_inv.
  bind_step H head_inv.
  bind_step H getitem_inv.
  bind_step H getitem_inv.
  bind_step H file_sink_inv.
  bind_step H file_wiring_inv.
  bind_step H getitem_inv.
  eexists _, _, _, _, _, _, _, _, _.
  repeat split; eassumption.
Qed.
End wiring.

(** ** Streams of a file-driven pipeline *)

Lemma pump_spec fuel : forall (s : stream) i l,
  gr.pump fuel s i = Some l ->
  (forall j x, l !! j = Some x -> s (i + j)%nat = Item x)
  /\ s (i + length l)%nat = Eos.
Proof.
  induction fuel as [ | fuel IH]; intros s i l H; [discriminate | ].
  simpl in H. destruct (s i) as [x | | ] eqn:Hs; [ | | discriminate].
  - destruct (gr.pump fuel s (S i)) as [l' | ] eqn:Hp; [ | discriminate].
    injection H as <-. destruct (IH _ _ _ Hp) as [Hitems Hend]. split.
    + intros [ | j] y Hj.
      * injection Hj as <-. now rewrite Nat.add_0_r.
      * rewrite Nat.add_succ_r. now apply Hitems.
    + simpl. rewrite Nat.add_succ_r. exact Hend.
  - injection H as <-. split.
    + intros j x Hj. destruct j; discriminate.
    + simpl. now rewrite Nat.add_0_r.
Qed.

Lemma pump_enough fuel : forall (s : stream) i n,
  (forall j, (j < n)%nat -> exists x, s (i + j)%nat = Item x) ->
  s (i + n)%nat = Eos -> (n < fuel)%nat ->
  exists l, gr.pump fuel s i = Some l /\ length l = n.
Proof.
  induction fuel as [ | fuel IH]; intros s i n Hitems Hend Hfuel; [lia | ].
  simpl. destruct n as [ | n].
  - rewrite Nat.add_0_r in Hend. rewrite Hend. now exists [].
  - destruct (Hitems 0%nat) as [x Hx]; [lia | ].
    rewrite Nat.add_0_r in Hx. rewrite Hx.
    destruct (IH s (S i) n) as (l & Hl & Hlen).
    + intros j Hj. destruct (Hitems (S j)) as [y Hy]; [lia | ].
      exists y. now rewrite Nat.add_succ_r in Hy.
    + now rewrite Nat.add_succ_r in Hend.
    + lia.
    + rewrite Hl. exists (x :: l). simpl. now rewrite Hlen.
Qed.

Lemma pump_limit_prefix fuel s n l :
  gr.pump fuel (limit n s) 0 = Some l -> 0 <= n -> holds_prefix l s n.
Proof.
  intros H Hn. apply pump_spec in H. destruct H as [Hitems Hend].
  simpl in Hitems, Hend. unfold limit in Hitems, Hend.
  assert (Hlen : Z.of_nat (length l) <= n).
  { destruct l as [ | x l'] using rev_ind; [simpl; lia | ].
    clear IHl'.
    specialize (Hitems (length l') x).
    rewrite lookup_app_r, Nat.sub_diag in Hitems by lia.
    specialize (Hitems eq_refl).
    destruct (Z.of_nat (length l') <? n) eqn:Hlt; [ | discriminate].
    apply Z.ltb_lt in Hlt. rewrite length_app. simpl. lia. }
  repeat split.
  - intros j x Hj. specialize (Hitems j x Hj).
    destruct (Z.of_nat j <? n); [assumption | discriminate].
  - exact Hlen.
  - destruct (Z.of_nat (length l) <? n) eqn:Hlt; [now right | left].
    apply Z.ltb_ge in Hlt. lia.
Qed.

Lemma holds_prefix_full l s n :
  holds_prefix l s n ->
  (Z.of_nat (length l) = n
   <-> forall j, Z.of_nat j < n -> exists x, s j = Item x).
Proof.
  intros (Hitems & Hlen & Hend). split.
  - intros Hn j Hj.
    destruct (l !! j) as [x | ] eqn:Hl.
    + exists x. now apply Hitems.
    + apply lookup_ge_None in Hl. lia.
  - intros Hall. destruct Hend as [ | Hend]; [assumption | ].
    destruct (Z.eq_dec (Z.of_nat (length l)) n) as [ | Hne]; [assumption | ].
    destruct (Hall (length l)) as [x Hx]; [lia | congruence].
Qed.

Section file_pipelines.
Variable rt : runtime.
Variables (t : pyval) (path : string) (rep : bool) (c : string).
Variables (p_in p_out t' : pyval) (n : Z) (opath : string).

Let g : flowgraph :=
  file_pipeline (FileSource t path rep) c p_in p_out
                (Head t' n) (FileSink t' opath).

Lemma file_pipeline_sinks :
  gr.sink_inputs g = [(opath, (Head t' n, PInt 0))].
Proof. reflexivity. Qed.

Lemma file_pipeline_leaving fs :
  gr.leaving rt (S (length (stream_edges g))) fs g (Head t' n, PInt 0)
  = limit n (component_output rt fs path rep c p_in p_out).
Proof.
  unfold component_output. simpl. unfold gr.arriving. simpl.
  unfold endpoint_eqb. simpl.
  rewrite !pyval_eqb_refl, Z.eqb_refl. simpl.
  unfold gr.inputs. simpl. rewrite String.eqb_refl. reflexivity.
Qed.

Lemma file_pipeline_written fuel fs :
  gr.write_sinks rt fuel fs g (gr.sink_inputs g) fs
  = option_map (fun l => <[opath := l]> fs)
      (gr.pump fuel
         (limit n (component_output rt fs path rep c p_in p_out)) 0).
Proof.
  rewrite file_pipeline_sinks. cbn [gr.write_sinks].
  rewrite file_pipeline_leaving.
  destruct (gr.pump _ _ _); reflexivity.
Qed.
End file_pipelines.

(** ** Calls on valid arguments *)

Ltac fwd lem :=
  erewrite py_bind_done; [ | solve [apply lem; eauto] ].

Section ready.
Variable rt : runtime.

Lemma file_source_ready t path rep w :
  supported rt t = true -> is_Some (files w !! path) ->
  blocks.file_source rt t (PStr path) (PBool rep) w
  = (Done (FileSource t path rep), w).
Proof.
  intros Hs [l Hl]. unfold blocks.file_source. simpl. now rewrite Hs, Hl.
Qed.

Lemma head_ready t n w :
  supported rt t = true -> 0 <= n ->
  blocks.head rt t (PInt n) w = (Done (Head t n), w).
Proof.
  intros Hs Hn. unfold blocks.head. rewrite Hs.
  apply Z.leb_le in Hn. now rewrite Hn.
Qed.

Lemma file_sink_ready t path w :
  supported rt t = true -> writable rt path = true ->
  blocks.file_sink rt t (PStr path) w
  = (Done (FileSink t path), created path w).
Proof. intros Hs Hw. unfold blocks.file_sink. now rewrite Hs, Hw. Qed.

Lemma connect1_ready top src dst w :
  admits rt src dst = true ->
  gr.connect1 rt top src dst w
  = (Done {| stream_edges := stream_edges top ++ [(src, dst)];
             msg_edges := msg_edges top |}, w).
Proof. intros H. unfold gr.connect1. now rewrite H. Qed.

Lemma msg_connect_ready top src dst w :
  admits_msg rt src dst = true ->
  gr.msg_connect rt top src dst w
  = (Done {| stream_edges := stream_edges top;
             msg_edges := msg_edges top ++ [(src, dst)] |}, w).
Proof. intros H. unfold gr.msg_connect. now rewrite H. Qed.

Lemma file_wiring_ready src c head sink conn p_in p_out w :
  ports_of conn p_in p_out ->
  graph_ready rt (file_pipeline src c p_in p_out head sink) ->
  match conn with
  | PNone =>
      gr.connect rt gr.top_block
        [gr.Blk src; gr.Blk (Component c); gr.Blk head; gr.Blk sink]
  | _ =>
      c0 <- lift (subscript conn 0) ;;
      top <- gr.connect rt gr.top_block
               [gr.Blk src; gr.At (Component c) c0] ;;
      c1 <- lift (subscript conn 1) ;;
      top <- gr.connect rt top [gr.At (Component c) c1; gr.Blk head] ;;
      gr.connect rt top [gr.Blk head; gr.Blk sink]
  end w = (Done (file_pipeline src c p_in p_out head sink), w).
Proof.
  intros Hp (He & _ & _). simpl in He.
  apply Forall_cons in He as [H1 He].
  apply Forall_cons in He as [H2 He].
  apply Forall_cons in He as [H3 _]. simpl in H1, H2, H3.
  assert (Hexplicit :
    subscript conn 0 = inr p_in -> subscript conn 1 = inr p_out ->
    (c0 <- lift (subscript conn 0) ;;
     top <- gr.connect rt gr.top_block
              [gr.Blk src; gr.At (Component c) c0] ;;
     c1 <- lift (subscript conn 1) ;;
     top <- gr.connect rt top [gr.At (Component c) c1; gr.Blk head] ;;
     gr.connect rt top [gr.Blk head; gr.Blk sink]) w
    = (Done (file_pipeline src c p_in p_out head sink), w)).
  { intros H0 H0'. rewrite H0, H0'. simpl.
    unfold py_bind at 1. simpl.
    unfold py_bind at 1. unfold py_bind at 1.
    rewrite (connect1_ready _ _ _ _ H1). simpl.
    unfold py_bind at 1. simpl.
    unfold py_bind at 1. unfold py_bind at 1.
    rewrite (connect1_ready _ _ _ _ H2). simpl.
    unfold py_bind at 1.
    rewrite (connect1_ready _ _ _ _ H3). reflexivity. }
  destruct conn; try (destruct Hp as [H0 H0']; now apply Hexplicit).
  destruct Hp as [-> ->]. simpl.
  fwd connect1_ready. fwd connect1_ready. fwd connect1_ready.
  reflexivity.
Qed.
End ready.

Section file_runs.
Variable rt : runtime.

Lemma run_file_source_ready fuel c fs os conn w
    t path rep t' n opath p_in p_out :
  file_spec_ready rt w (default (DEFAULT_FILE_SPEC rt) fs) t path rep ->
  out_spec_ready rt (default (DEFAULT_OUT_SPEC rt) os) t' n opath ->
  ports_of (default PNone conn) p_in p_out ->
  graph_ready rt (file_pipeline (FileSource t path rep) c p_in p_out
                                (Head t' n) (FileSink t' opath)) ->
  run_file_source rt fuel c fs os conn w
  = gr.run rt fuel
      (file_pipeline (FileSource t path rep) c p_in p_out
                     (Head t' n) (FileSink t' opath))
      (PInt n) (created opath w).
Proof.
  intros (Ht & Hp & Hr & Hs & Hf) (Ht' & Hn & Hp' & Hs' & Hn0 & Hw) Hc Hg.
  unfold run_file_source.
  fwd getitem_some. fwd getitem_some. fwd getitem_some.
  fwd file_source_ready.
  fwd getitem_some. fwd getitem_some. fwd head_ready.
  fwd getitem_some. fwd getitem_some. fwd file_sink_ready.
  fwd file_wiring_ready.
  fwd getitem_some. reflexivity.
Qed.

Lemma run_not_raised fuel g n w r w' :
  runnable rt g = true -> gr.run rt fuel g (PInt n) w = (r, w') ->
  forall e, r <> Raised e.
Proof.
  intros Hg H e ->. unfold gr.run in H. rewrite Hg in H.
  unfold py_bind, emit in H.
  destruct (gr.write_sinks rt fuel _ g _ _); discriminate.
Qed.

Lemma file_run_done fuel t path rep c p_in p_out t' n opath w r w' :
  gr.run rt fuel
    (file_pipeline (FileSource t path rep) c p_in p_out
                   (Head t' n) (FileSink t' opath))
    (PInt n) (created opath w) = (r, w') ->
  (forall e, r <> Raised e) ->
  trace w'
  = trace w ++ [Ran (file_pipeline (FileSource t path rep) c p_in p_out
                                   (Head t' n) (FileSink t' opath)) n]
  /\ match gr.pump fuel
             (limit n (component_output rt (<[opath := []]> (files w))
                                        path rep c p_in p_out)) 0 with
     | Some l => r = Done tt
                 /\ files w' = <[opath := l]> (<[opath := []]> (files w))
     | None => r = Hung
     end.
Proof.
  intros H Hr. apply run_inv in H; [ | assumption].
  destruct H as (_ & Htr & _ & _ & H). split; [exact Htr | ].
  rewrite file_pipeline_written in H. simpl in H.
  destruct (gr.pump _ _ _); exact H.
Qed.

(** C1, amended.  A file-driven run that returns has run the graph file
    source -> component -> limiter -> file sink, the limiter bounded by
    [n_items]; the file at the output path then holds the elements the
    component delivered to the limiter, cut after [n_items]: exactly
    [n_items] of them when, and only when, the component delivered that
    many.  On valid arguments, a positive [n_items] and a component that
    delivers [n_items] elements, the run does return and the file holds
    exactly [n_items] elements. *)
Theorem file_run_output c fs os conn w :
  (forall fuel w',
     run_file_source rt fuel c fs os conn w = (Done tt, w') ->
     exists t path rep t' n opath p_in p_out content,
       default (DEFAULT_FILE_SPEC rt) fs !! "type" = Some t
       /\ default (DEFAULT_FILE_SPEC rt) fs !! "path" = Some (PStr path)
       /\ default (DEFAULT_OUT_SPEC rt) os !! "n_items" = Some (PInt n)
       /\ default (DEFAULT_OUT_SPEC rt) os !! "path" = Some (PStr opath)
       /\ default (DEFAULT_OUT_SPEC rt) os !! "type" = Some t'
       /\ ports_of (default PNone conn) p_in p_out
       /\ trace w'
          = trace w
            ++ [Ran (file_pipeline (FileSource t path rep) c p_in p_out
                                   (Head t' n) (FileSink t' opath)) n]
       /\ files w' !! opath = Some content
       /\ let s := component_output rt (<[opath := []]> (files w))
                                    path rep c p_in p_out in
          holds_prefix content s n
          /\ (Z.of_nat (length content) = n
              <-> forall j, Z.of_nat j < n -> exists x, s j = Item x))
  /\ (forall t path rep t' n opath p_in p_out,
        file_spec_ready rt w (default (DEFAULT_FILE_SPEC rt) fs)
                        t path rep ->
        out_spec_ready rt (default (DEFAULT_OUT_SPEC rt) os) t' n opath ->
        ports_of (default PNone conn) p_in p_out ->
        graph_ready rt (file_pipeline (FileSource t path rep) c p_in p_out
                                      (Head t' n) (FileSink t' opath)) ->
        0 < n ->
        (forall j, Z.of_nat j < n ->
           exists x, component_output rt (<[opath := []]> (files w))
                                      path rep c p_in p_out j = Item x) ->
        forall fuel, (Z.to_nat n < fuel)%nat ->
        exists w' content,
          run_file_source rt fuel c fs os conn w = (Done tt, w')
          /\ files w' !! opath = Some content
          /\ Z.of_nat (length content) = n).
Proof.
  split.
  - intros fuel w' H.
    apply run_file_source_inv in H; [ | not_raised].
    destruct H as (t & path & rv & rep & t' & n & opath & p_in & p_out & H).
    destruct H as (Ht & Hpath & _ & _ & _ & Ht' & Hn & Hp & Hn0 & Hc & H).
    apply file_run_done in H; [ | not_raised]. destruct H as [Htr H].
    destruct (gr.pump _ _ _) as [l | ] eqn:Hl; [ | discriminate].
    destruct H as [_ Hfs].
    exists t, path, rep, t', n, opath, p_in, p_out, l.
    repeat split; try assumption.
    + rewrite Hfs. apply lookup_insert_eq.
    + apply (pump_limit_prefix _ _ _ _ Hl Hn0).
    + apply (pump_limit_prefix _ _ _ _ Hl Hn0).
    + apply (pump_limit_prefix _ _ _ _ Hl Hn0).
    + apply holds_prefix_full, (pump_limit_prefix _ _ _ _ Hl Hn0).
    + apply holds_prefix_full, (pump_limit_prefix _ _ _ _ Hl Hn0).
  - intros t path rep t' n opath p_in p_out Hfs Hos Hc Hg _ Hall fuel Hfuel.
    rewrite (run_file_source_ready _ _ _ _ _ _ _ _ _ _ _ _ _ _
               Hfs Hos Hc Hg).
    destruct Hos as (_ & _ & _ & _ & Hn0 & _).
    destruct (pump_enough fuel
                (limit n (component_output rt (<[opath := []]> (files w))
                                           path rep c p_in p_out))
                0 (Z.to_nat n)) as (l & Hl & Hlen).
    + intros j Hj. simpl. unfold limit.
      destruct (Z.ltb_spec (Z.of_nat j) n); [apply Hall | ]; lia.
    + simpl. unfold limit.
      destruct (Z.ltb_spec (Z.of_nat (Z.to_nat n)) n); [lia | reflexivity].
    + exact Hfuel.
    + destruct (gr.run rt fuel _ (PInt n) (created opath w))
        as [r w'] eqn:Hrun.
      assert (Hr : forall e, r <> Raised e).
      { destruct Hg as (_ & _ & Hg). exact (run_not_raised _ _ _ _ _ _ Hg Hrun). }
      apply file_run_done in Hrun; [ | assumption].
      destruct Hrun as [_ Hrun]. rewrite Hl in Hrun.
      destruct Hrun as [-> Hfiles].
      exists w', l. repeat split.
      * rewrite Hfiles. apply lookup_insert_eq.
      * lia.
Qed.
End file_runs.

(** ** The polling loop *)

Section polling.
Variable rt : runtime.
Variable head : block.
Variable out_spec : gmap string pyval.
Variable n : Z.
Hypothesis n_items : out_spec !! "n_items" = Some (PInt n).

Let cond : Py bool :=
  c <- gr.nitems_written rt head 0 ;;
  n <- getitem out_spec "n_items" ;;
  py_lt c n.

Let body : Py unit := time.sleep rt one_millisecond.

Lemma napped_succ k w :
  napped rt head (S k) w = napped rt head k (poll_then_sleep rt head w).
Proof. unfold napped. apply Nat.iter_succ_r. Qed.

Lemma napped_running k w : running (napped rt head k w) = running w.
Proof. induction k as [ | k IH]; [reflexivity | exact IH]. Qed.

Lemma napped_clock k w : clock (napped rt head k w) = (clock w + k)%nat.
Proof.
  induction k as [ | k IH]; simpl; [lia | ].
  unfold poll_then_sleep. simpl. fold (napped rt head k w). rewrite IH. lia.
Qed.

Lemma napped_trace k w :
  trace (napped rt head k w)
  = trace w ++ waiting rt head (running w) (clock w) k.
Proof.
  induction k as [ | k IH].
  - simpl. unfold waiting. simpl. now rewrite app_nil_r.
  - unfold waiting. rewrite seq_S, flat_map_app. simpl.
    fold (waiting rt head (running w) (clock w) k).
    unfold poll_then_sleep. simpl. fold (napped rt head k w).
    rewrite IH, napped_running, napped_clock.
    rewrite <- !app_assoc. reflexivity.
Qed.

Lemma cond_polls w :
  cond w
  = (Done (gr.written rt head (running w) (clock w) <? n),
     polled rt head w).
Proof.
  unfold cond, py_bind. simpl. unfold getitem. rewrite n_items. reflexivity.
Qed.

Lemma while_poll_step fuel w :
  while (S fuel) cond body w
  = if gr.written rt head (running w) (clock w) <? n
    then while fuel cond body (poll_then_sleep rt head w)
    else (Done tt, polled rt head w).
Proof.
  cbn [while]. unfold py_bind at 1. rewrite cond_polls.
  destruct (gr.written rt head (running w) (clock w) <? n); reflexivity.
Qed.

(** The loop leaves at the first poll that reads [n] or more, and is still
    polling when the fuel runs out before that. *)
Lemma while_poll_cases fuel : forall w,
  (exists k, (k < fuel)%nat
     /\ (forall j, (j < k)%nat ->
           gr.written rt head (running w) (clock w + j) < n)
     /\ n <= gr.written rt head (running w) (clock w + k)
     /\ while fuel cond body w
        = (Done tt, polled rt head (napped rt head k w)))
  \/ ((forall j, (j < fuel)%nat ->
         gr.written rt head (running w) (clock w + j) < n)
      /\ while fuel cond body w = (Hung, napped rt head fuel w)).
Proof.
  induction fuel as [ | fuel IH]; intros w.
  - right. split; [lia | reflexivity].
  - rewrite while_poll_step.
    destruct (Z.ltb_spec (gr.written rt head (running w) (clock w)) n)
      as [Hlt | Hge].
    + destruct (IH (poll_then_sleep rt head w))
        as [(k & Hk & Hbefore & Hat & Hrun) | (Hbefore & Hrun)].
      * left. exists (S k). rewrite napped_succ.
        change (running (poll_then_sleep rt head w)) with (running w)
          in Hbefore, Hat.
        change (clock (poll_then_sleep rt head w)) with (S (clock w))
          in Hbefore, Hat.
        repeat split; [lia | | | exact Hrun].
        -- intros [ | j] Hj; [now rewrite Nat.add_0_r | ].
           rewrite Nat.add_succ_r. apply Hbefore. lia.
        -- now rewrite Nat.add_succ_r.
      * right. rewrite napped_succ.
        change (running (poll_then_sleep rt head w)) with (running w)
          in Hbefore.
        change (clock (poll_then_sleep rt head w)) with (S (clock w))
          in Hbefore.
        split; [ | exact Hrun].
        intros [ | j] Hj; [now rewrite Nat.add_0_r | ].
        rewrite Nat.add_succ_r. apply Hbefore. lia.
    + left. exists 0%nat. rewrite Nat.add_0_r.
      repeat split; [lia | intros j Hj; lia | exact Hge].
Qed.
End polling.

(** ** Message-driven runs *)

Section msg_runs.
Variable rt : runtime.

Lemma start_inv g n w r w' :
  gr.start rt g (PInt n) w = (r, w') -> (forall e, r <> Raised e) ->
  runnable rt g = true /\ r = Done tt /\ w' = started rt g n w.
Proof.
  unfold gr.start, raise. intros H Hr.
  destruct (runnable rt g);
    [ | injection H as <- <-; now destruct (Hr RuntimeError)].
  injection H as <- <-. repeat split; reflexivity.
Qed.

Lemma start_ready g n w :
  runnable rt g = true ->
  gr.start rt g (PInt n) w = (Done tt, started rt g n w).
Proof. intros H. unfold gr.start. now rewrite H. Qed.

Lemma connect_head_inv top c p head w r w' :
  gr.connect rt top [gr.At (Component c) p; gr.At head (PInt 0)] w
  = (r, w') ->
  (forall e, r <> Raised e) ->
  r = Done {| stream_edges :=
                stream_edges top ++ [((Component c, p), (head, PInt 0))];
              msg_edges := msg_edges top |}
  /\ w' = w.
Proof. apply connect2_inv. Qed.

Lemma run_msg_source_inv fuel c ms os conn w r w' :
  run_msg_source rt fuel c ms os conn w = (r, w') ->
  (forall e, r <> Raised e) ->
  exists m msg period t' n opath p_in p_out,
    msg_spec_ready (default DEFAULT_MESSAGE_SPEC ms) m msg period
    /\ out_spec_ready rt (default (DEFAULT_OUT_SPEC rt) os) t' n opath
    /\ subscript (default PNone conn) 0 = inr p_in
    /\ subscript (default PNone conn) 1 = inr p_out
    /\ runnable rt (msg_pipeline (MessageStrobe msg period) c p_in p_out
                                 (Head t' n) (FileSink t' opath)) = true
    /\ (while fuel
          (c <- gr.nitems_written rt (Head t' n) 0 ;;
           n <- getitem (default (DEFAULT_OUT_SPEC rt) os) "n_items" ;;
           py_lt c n)
          (time.sleep rt one_millisecond) ;;;
        print "Completed simulation")
         (started rt (msg_pipeline (MessageStrobe msg period) c p_in p_out
                                   (Head t' n) (FileSink t' opath))
                  n (created opath w))
       = (r, w').
Proof.
  unfold run_msg_source. intros H Hr.
  bind_step H getitem_inv.
  bind_step H (@lift_inv string).
  bind_step H getitem_inv.
  bind_step H message_strobe_inv.
  bind_step H getitem_inv.
  bind_step H getitem_inv.
  bind_step H head_inv.
  bind_step H getitem_inv.
  bind_step H getitem_inv.
  bind_step H file_sink_inv.
  bind_step H (@lift_inv pyval).
  bind_step H msg_connect_inv.
  bind_step H (@lift_inv pyval).
  bind_step H connect_head_inv.
  bind_step H connect2_inv.
  bind_step H getitem_inv.
  bind_step H start_inv.
  eexists _, _, _, _, _, _, _, _.
  unfold msg_spec_ready, out_spec_ready.
  repeat split; try eassumption.
Qed.

Section pipeline.
Variables (msg : string) (period : Z) (c : string).
Variables (p_in p_out t' : pyval) (n : Z) (opath : string).

Let head : block := Head t' n.
Let g : flowgraph :=
  msg_pipeline (MessageStrobe msg period) c p_in p_out
               head (FileSink t' opath).

Lemma msg_pipeline_flush t fs :
  gr.flush rt t g fs = <[opath := sink_contents rt g n t]> fs.
Proof. reflexivity. Qed.

Lemma msg_pipeline_written gs t :
  gr.written rt head (g :: gs) t
  = Z.min n (Z.of_nat (length (produced rt g t))).
Proof.
  assert (Hg : has_block g (Head t' n) = true).
  { unfold has_block, g, head. simpl.
    now rewrite pyval_eqb_refl, Z.eqb_refl. }
  unfold gr.written, head. cbn [find]. now rewrite Hg.
Qed.

Lemma started_file w :
  files (started rt g n w) !! opath
  = Some (sink_contents rt g n (clock w)).
Proof.
  unfold started. cbn [files]. rewrite msg_pipeline_flush.
  apply lookup_insert_eq.
Qed.

Lemma napped_file k w :
  files w !! opath = Some (sink_contents rt g n (clock w)) ->
  (exists gs, running w = g :: gs) ->
  files (napped rt head k w) !! opath
  = Some (sink_contents rt g n (clock w + k)).
Proof.
  intros Hw [gs Hgs]. induction k as [ | k IH].
  - simpl. now rewrite Nat.add_0_r.
  - simpl. unfold poll_then_sleep. simpl.
    fold (napped rt head k w).
    rewrite napped_running, Hgs. cbn [foldr].
    rewrite msg_pipeline_flush, napped_clock, Nat.add_succ_r.
    apply lookup_insert_eq.
Qed.

Lemma sink_contents_length t :
  n <= gr.written rt head (g :: nil) t -> 0 <= n ->
  length (sink_contents rt g n t)
  = Nat.min (drained rt g t) (Z.to_nat n).
Proof.
  rewrite msg_pipeline_written. intros Hn Hn0.
  unfold sink_contents. rewrite length_take. lia.
Qed.

Lemma poll_phase_cases fuel os w :
  os !! "n_items" = Some (PInt n) ->
  let w1 := started rt g n (created opath w) in
  let phase :=
    (while fuel
       (c <- gr.nitems_written rt head 0 ;;
        n <- getitem os "n_items" ;;
        py_lt c n)
       (time.sleep rt one_millisecond) ;;;
     print "Completed simulation") w1 in
  (exists k, (k < fuel)%nat
     /\ (forall j, (j < k)%nat ->
           gr.written rt head (g :: running w) (clock w + j) < n)
     /\ n <= gr.written rt head (g :: running w) (clock w + k)
     /\ fst phase = Done tt
     /\ trace (snd phase)
        = trace w ++ [Started g n]
          ++ waiting rt head (g :: running w) (clock w) k
          ++ [Polled head (gr.written rt head (g :: running w)
                                     (clock w + k));
              Printed "Completed simulation"]
     /\ running (snd phase) = g :: running w
     /\ clock (snd phase) = (clock w + k)%nat
     /\ files (snd phase) !! opath
        = Some (sink_contents rt g n (clock w + k)))
  \/ ((forall j, (j < fuel)%nat ->
         gr.written rt head (g :: running w) (clock w + j) < n)
      /\ fst phase = Hung
      /\ trace (snd phase)
         = trace w ++ [Started g n]
           ++ waiting rt head (g :: running w) (clock w) fuel
      /\ running (snd phase) = g :: running w
      /\ clock (snd phase) = (clock w + fuel)%nat).
Proof.
  intros Hn w1 phase.
  destruct (while_poll_cases rt head os n Hn fuel w1)
    as [(k & Hk & Hbefore & Hat & Hrun) | (Hbefore & Hrun)].
  - assert (E : phase = print "Completed simulation"
                          (polled rt head (napped rt head k w1))).
    { unfold phase. unfold py_bind at 1. now rewrite Hrun. }
    left. exists k. rewrite E. unfold print, emit, polled.
    cbn [fst snd trace running clock files gr.nitems_written Z.eqb].
    rewrite napped_trace, napped_running, napped_clock.
    repeat split; try assumption.
    + unfold w1, started, created. cbn [trace running clock].
      rewrite <- !app_assoc. reflexivity.
    + apply (napped_file k w1).
      * exact (started_file (created opath w)).
      * now exists (running w).
  - assert (E : phase = (Hung, napped rt head fuel w1)).
    { unfold phase. unfold py_bind at 1. now rewrite Hrun. }
    right. rewrite E. cbn [fst snd].
    rewrite napped_trace, napped_running, napped_clock.
    repeat split; try assumption.
    unfold w1, started, created. cbn [trace running clock].
    rewrite <- !app_assoc. reflexivity.
Qed.
End pipeline.
End msg_runs.

Section msg_claims.
Variable rt : runtime.

Lemma run_msg_source_ready fuel c ms os conn w
    m msg period t' n opath p_in p_out :
  msg_spec_ready (default DEFAULT_MESSAGE_SPEC ms) m msg period ->
  out_spec_ready rt (default (DEFAULT_OUT_SPEC rt) os) t' n opath ->
  subscript (default PNone conn) 0 = inr p_in ->
  subscript (default PNone conn) 1 = inr p_out ->
  graph_ready rt (msg_pipeline (MessageStrobe msg period) c p_in p_out
                               (Head t' n) (FileSink t' opath)) ->
  run_msg_source rt fuel c ms os conn w
  = (while fuel
       (c <- gr.nitems_written rt (Head t' n) 0 ;;
        n <- getitem (default (DEFAULT_OUT_SPEC rt) os) "n_items" ;;
        py_lt c n)
       (time.sleep rt one_millisecond) ;;;
     print "Completed simulation")
      (started rt (msg_pipeline (MessageStrobe msg period) c p_in p_out
                                (Head t' n) (FileSink t' opath))
               n (created opath w)).
Proof.
  intros (Hm & Hj & Hd) (Ht' & Hn & Hp' & Hs' & Hn0 & Hw) H0 H1
         (He & Hme & Hg).
  simpl in He, Hme.
  apply Forall_cons in He as [He1 He]. apply Forall_cons in He as [He2 _].
  apply Forall_cons in Hme as [Hme _]. simpl in He1, He2, Hme.
  unfold run_msg_source.
  fwd getitem_some. rewrite Hj. unfold lift at 1.
  unfold py_bind at 1. unfold py_ret at 1.
  fwd getitem_some.
  unfold py_bind at 1. unfold blocks.message_strobe at 1.
  unfold py_ret at 1. unfold pmt.intern.
  fwd getitem_some. fwd getitem_some. fwd head_ready.
  fwd getitem_some. fwd getitem_some. fwd file_sink_ready.
  rewrite H0, H1. unfold lift.
  unfold py_bind at 1. unfold py_ret at 1.
  fwd msg_connect_ready.
  unfold py_bind at 1. unfold py_ret at 1.
  unfold gr.connect, gr.connect_from, gr.coerce_endpoint.
  unfold py_bind at 1. unfold py_bind at 1.
  rewrite (connect1_ready rt _ _ _ _ He1). unfold py_ret at 1.
  unfold py_bind at 1. unfold py_bind at 1.
  rewrite (connect1_ready rt _ _ _ _ He2). unfold py_ret at 1.
  fwd getitem_some. fwd start_ready. reflexivity.
Qed.

(** C2, amended.  A message-driven run that returns has started the
    graph, then read the limiter's counter again and again, sleeping one
    millisecond after every reading below [n_items], and has returned
    after the first reading that reached [n_items]; at that moment the
    limiter has written exactly [n_items] elements, while the file holds
    those of them that the file sink has taken so far, which can be
    fewer.  On valid arguments the run does return once the limiter's
    counter reaches [n_items]. *)
Theorem msg_run_returns c ms os conn w :
  (forall fuel w',
     run_msg_source rt fuel c ms os conn w = (Done tt, w') ->
     exists msg period t' n opath p_in p_out k content,
       default (DEFAULT_OUT_SPEC rt) os !! "n_items" = Some (PInt n)
       /\ default (DEFAULT_OUT_SPEC rt) os !! "path" = Some (PStr opath)
       /\ let head := Head t' n in
          let g := msg_pipeline (MessageStrobe msg period) c p_in p_out
                                head (FileSink t' opath) in
          trace w'
          = trace w ++ [Started g n]
            ++ waiting rt head (g :: running w) (clock w) k
            ++ [Polled head n; Printed "Completed simulation"]
          /\ (forall j, (j < k)%nat ->
                gr.written rt head (g :: running w) (clock w + j) < n)
          /\ gr.written rt head (running w') (clock w') = n
          /\ files w' !! opath = Some content
          /\ content = sink_contents rt g n (clock w')
          /\ length content
             = Nat.min (drained rt g (clock w')) (Z.to_nat n))
  /\ (forall m msg period t' n opath p_in p_out k,
        msg_spec_ready (default DEFAULT_MESSAGE_SPEC ms) m msg period ->
        out_spec_ready rt (default (DEFAULT_OUT_SPEC rt) os) t' n opath ->
        subscript (default PNone conn) 0 = inr p_in ->
        subscript (default PNone conn) 1 = inr p_out ->
        let g := msg_pipeline (MessageStrobe msg period) c p_in p_out
                              (Head t' n) (FileSink t' opath) in
        graph_ready rt g ->
        n <= gr.written rt (Head t' n) (g :: running w) (clock w + k) ->
        forall fuel, (k < fuel)%nat ->
        exists w', run_msg_source rt fuel c ms os conn w = (Done tt, w')).
Proof.
  split.
  - intros fuel w' H.
    apply run_msg_source_inv in H; [ | not_raised].
    destruct H as (m & msg & period & t' & n & opath & p_in & p_out & H).
    destruct H as (_ & Hos & _ & _ & _ & H).
    destruct Hos as (_ & Hn & Hp & _ & Hn0 & _).
    destruct (poll_phase_cases rt msg period c p_in p_out t' n opath
                fuel _ w Hn)
      as [(k & _ & Hbefore & Hat & _ & Htr & Hrun & Hcl & Hf)
         | (_ & Hhung & _)];
      rewrite H in *; cbn [fst snd] in *; [ | discriminate].
    rewrite msg_pipeline_written in Hat.
    exists msg, period, t', n, opath, p_in, p_out, k.
    exists (sink_contents rt
              (msg_pipeline (MessageStrobe msg period) c p_in p_out
                            (Head t' n) (FileSink t' opath))
              n (clock w + k)).
    cbv zeta. rewrite Hrun, Hcl, msg_pipeline_written.
    repeat split; try assumption.
    + rewrite Htr, msg_pipeline_written.
      now replace (Z.min n _) with n by lia.
    + lia.
    + apply sink_contents_length; [rewrite msg_pipeline_written | ]; lia.
  - intros m msg period t' n opath p_in p_out k Hms Hos H0 H1 g Hg Hk
           fuel Hfuel.
    rewrite (run_msg_source_ready _ _ _ _ _ _ _ _ _ _ _ _ _ _
               Hms Hos H0 H1 Hg).
    destruct Hos as (_ & Hn & _).
    destruct (poll_phase_cases rt msg period c p_in p_out t' n opath
                fuel _ w Hn)
      as [(k' & _ & _ & _ & Hdone & _) | (Hbefore & _)].
    + eexists. apply injective_projections; [exact Hdone | reflexivity].
    + specialize (Hbefore k Hfuel). unfold g in Hk. lia.
Qed.

(** C5.  On valid arguments, when the limiter's counter never reaches
    [n_items], the loop is still polling after any number of
    rounds: with fuel for [fuel] rounds the call has not returned and the
    trace shows [fuel] readings of the counter, each below [n_items] and
    each followed by a sleep.  Whatever the arguments, the call then
    never returns normally. *)
Theorem polling_never_ends c ms os conn w :
  (forall m msg period t' n opath p_in p_out,
     msg_spec_ready (default DEFAULT_MESSAGE_SPEC ms) m msg period ->
     out_spec_ready rt (default (DEFAULT_OUT_SPEC rt) os) t' n opath ->
     subscript (default PNone conn) 0 = inr p_in ->
     subscript (default PNone conn) 1 = inr p_out ->
     let head := Head t' n in
     let g := msg_pipeline (MessageStrobe msg period) c p_in p_out
                           head (FileSink t' opath) in
     graph_ready rt g ->
     (forall t, gr.written rt head (g :: running w) t < n) ->
     forall fuel,
     exists w',
       run_msg_source rt fuel c ms os conn w = (Hung, w')
       /\ trace w'
          = trace w ++ [Started g n]
            ++ waiting rt head (g :: running w) (clock w) fuel
       /\ (forall j, (j < fuel)%nat ->
             gr.written rt head (g :: running w) (clock w + j) < n)
       /\ clock w' = (clock w + fuel)%nat
       /\ running w' = g :: running w)
  /\ (forall n,
        default (DEFAULT_OUT_SPEC rt) os !! "n_items" = Some (PInt n) ->
        (forall b gs t, gr.written rt b gs t < n) ->
        forall fuel,
        fst (run_msg_source rt fuel c ms os conn w) <> Done tt).
Proof.
  split.
  - intros m msg period t' n opath p_in p_out Hms Hos H0 H1 head g Hg
           Hnever fuel.
    rewrite (run_msg_source_ready _ _ _ _ _ _ _ _ _ _ _ _ _ _
               Hms Hos H0 H1 Hg).
    destruct Hos as (_ & Hn & _).
    destruct (poll_phase_cases rt msg period c p_in p_out t' n opath
                fuel _ w Hn)
      as [(k & _ & _ & Hat & _) | (Hbefore & Hhung & Htr & Hrun & Hcl)].
    + specialize (Hnever (clock w + k)%nat). unfold g, head in Hnever.
      lia.
    + eexists. split.
      * apply injective_projections; [exact Hhung | reflexivity].
      * cbn [snd]. repeat split; assumption.
  - intros n Hn Hnever fuel Hdone.
    destruct (run_msg_source rt fuel c ms os conn w) as [r w'] eqn:Hrun.
    cbn [fst] in Hdone. subst r.
    apply run_msg_source_inv in Hrun; [ | not_raised].
    destruct Hrun as (m & msg & period & t' & n' & opath & p_in & p_out & H).
    destruct H as (_ & Hos & _ & _ & _ & H).
    destruct Hos as (_ & Hn' & _).
    assert (n' = n) by congruence. subst n'.
    destruct (poll_phase_cases rt msg period c p_in p_out t' n opath
                fuel _ w Hn)
      as [(k & _ & _ & Hat & _) | (_ & Hhung & _)];
      [ | rewrite H in Hhung; discriminate].
    specialize (Hnever (Head t' n)
                  (msg_pipeline (MessageStrobe msg period) c p_in p_out
                                (Head t' n) (FileSink t' opath)
                   :: running w)
                  (clock w + k)%nat).
    lia.
Qed.

Lemma waiting_no_stop head gs t0 k :
  Forall (fun e => is_stop e = false) (waiting rt head gs t0 k).
Proof.
  unfold waiting. apply Forall_forall. intros e He.
  apply list_elem_of_In, in_flat_map in He. destruct He as (j & _ & [<- | [<- | []]]);
    reflexivity.
Qed.

Lemma stop_removes g w : ~ In g (running (snd (gr.stop g w))).
Proof.
  unfold gr.stop. cbn [snd running]. intros H.
  apply filter_In in H. destruct H as [_ H].
  now rewrite flowgraph_eqb_refl in H.
Qed.

(** C7.  When a message-driven run returns, whatever it did after
    starting the graph was reading the counter, sleeping, and in the end
    printing; it did not stop the graph, which is still among the running
    ones, where a call of [top.stop()] would have taken it out. *)
Theorem graph_left_running fuel c ms os conn w w' :
  run_msg_source rt fuel c ms os conn w = (Done tt, w') ->
  exists g n evs,
    trace w'
    = trace w ++ Started g n :: evs ++ [Printed "Completed simulation"]
    /\ Forall (fun e => is_stop e = false) evs
    /\ running w' = g :: running w
    /\ In g (running w')
    /\ ~ In g (running (snd (gr.stop g w'))).
Proof.
  intros H.
  apply run_msg_source_inv in H; [ | not_raised].
  destruct H as (m & msg & period & t' & n & opath & p_in & p_out & H).
  destruct H as (_ & Hos & _ & _ & _ & H).
  destruct Hos as (_ & Hn & _).
  destruct (poll_phase_cases rt msg period c p_in p_out t' n opath
              fuel _ w Hn)
    as [(k & _ & _ & _ & _ & Htr & Hrun & _) | (_ & Hhung & _)];
    rewrite H in *; cbn [fst snd] in *; [ | discriminate].
  exists (msg_pipeline (MessageStrobe msg period) c p_in p_out
                       (Head t' n) (FileSink t' opath)), n.
  exists (waiting rt (Head t' n)
            (msg_pipeline (MessageStrobe msg period) c p_in p_out
                          (Head t' n) (FileSink t' opath) :: running w)
            (clock w) k
          ++ [Polled (Head t' n)
                (gr.written rt (Head t' n)
                   (msg_pipeline (MessageStrobe msg period) c p_in p_out
                                 (Head t' n) (FileSink t' opath)
                    :: running w) (clock w + k))]).
  split; [ | split; [ | split; [exact Hrun | split]]].
  - rewrite Htr. cbn [app]. rewrite <- !app_assoc. reflexivity.
  - apply Forall_app. split; [apply waiting_no_stop | ].
    repeat constructor.
  - rewrite Hrun. now left.
  - apply stop_removes.
Qed.
End msg_claims.

(** ** Calls that fail before anything runs *)

Section failing.
Variable rt : runtime.
Variable R : world -> world -> Prop.
Hypothesis R_refl : forall w, R w w.
Hypothesis R_trans : forall w1 w2 w3, R w1 w2 -> R w2 w3 -> R w1 w3.

Lemma fails_bind {A B} (m : Py A) (k : A -> Py B) :
  fails R m -> fails R (py_bind m k).
Proof.
  intros Hm w. destruct (Hm w) as (e & w' & HR & Hw).
  exists e, w'. split; [exact HR | ]. unfold py_bind. now rewrite Hw.
Qed.

Lemma fails_after {A B} (m : Py A) (P : A -> Prop) (k : A -> Py B) :
  keeps R m P -> (forall a, P a -> fails R (k a)) -> fails R (py_bind m k).
Proof.
  intros Hm Hk w.
  destruct (Hm w) as (w1 & HR & [(a & Ha & Hw) | (e & Hw)]).
  - destruct (Hk a Ha w1) as (e & w' & HR' & Hw').
    exists e, w'. split; [now apply R_trans with w1 | ].
    unfold py_bind. now rewrite Hw.
  - exists e, w1. split; [exact HR | ]. unfold py_bind. now rewrite Hw.
Qed.

Lemma fails_raise {A} e : fails R (@raise A e).
Proof. intros w. exists e, w. split; [apply R_refl | reflexivity]. Qed.

Lemma keeps_getitem_some (d : gmap string pyval) k v :
  d !! k = Some v -> keeps R (getitem d k) (eq v).
Proof.
  intros H w. exists w. split; [apply R_refl | left].
  exists v. split; [reflexivity | now apply getitem_some].
Qed.

Lemma keeps_getitem (d : gmap string pyval) k :
  keeps R (getitem d k) (fun _ => True).
Proof.
  intros w. exists w. split; [apply R_refl | ]. unfold getitem.
  destruct (d !! k) as [v | ]; [left | right]; eauto.
Qed.

Lemma keeps_lift {A} (x : exn + A) :
  keeps R (lift x) (fun a => x = inr a).
Proof.
  intros w. exists w. split; [apply R_refl | ].
  destruct x as [e | a]; [right | left]; eauto.
Qed.

Lemma keeps_file_source t p r :
  keeps R (blocks.file_source rt t p r) (fun _ => True).
Proof.
  intros w. exists w. split; [apply R_refl | ].
  unfold blocks.file_source, raise.
  destruct p; eauto. destruct (blocks.as_bool r); eauto.
  destruct (supported rt t); eauto. destruct (files w !! s); eauto.
Qed.

Lemma keeps_head t n : keeps R (blocks.head rt t n) (fun _ => True).
Proof.
  intros w. exists w. split; [apply R_refl | ].
  unfold blocks.head, raise, py_ret. destruct n; eauto.
  destruct (supported rt t && (0 <=? z)); eauto.
Qed.

Lemma keeps_message_strobe msg d :
  keeps R (blocks.message_strobe msg d) (fun _ => True).
Proof.
  intros w. exists w. split; [apply R_refl | ].
  unfold blocks.message_strobe, raise, py_ret. destruct d; eauto.
Qed.

Lemma fails_file_source t p r :
  supported rt t = false -> fails R (blocks.file_source rt t p r).
Proof.
  intros H w. exists TypeError, w. split; [apply R_refl | ].
  now apply file_source_unsupported.
Qed.

Lemma fails_head t n :
  supported rt t = false -> fails R (blocks.head rt t n).
Proof.
  intros H w. exists TypeError, w. split; [apply R_refl | ].
  now apply head_unsupported.
Qed.
End failing.

Lemma quiet_refl w : quiet w w.
Proof. repeat split. Qed.

Lemma quiet_trans w1 w2 w3 : quiet w1 w2 -> quiet w2 w3 -> quiet w1 w3.
Proof.
  intros (H1 & H2 & H3) (H1' & H2' & H3').
  repeat split; congruence.
Qed.

Lemma keeps_file_sink rt t p :
  keeps quiet (blocks.file_sink rt t p) (fun _ => True).
Proof.
  intros w. unfold blocks.file_sink, raise.
  assert (Hraise : forall e, exists w',
            quiet w w'
            /\ ((exists a : block, True /\ (Raised e, w) = (Done a, w'))
                \/ (exists e', (@Raised block e, w) = (Raised e', w')))).
  { intros e. exists w. split; [apply quiet_refl | right; now exists e]. }
  destruct p; try apply Hraise.
  destruct (supported rt t); [ | apply Hraise].
  destruct (writable rt s); [ | apply Hraise].
  exists (created s w). split; [repeat split | left].
  exists (FileSink t s). split; [exact I | reflexivity].
Qed.

(** One step of a call that is bound to fail: the step returns or raises,
    and the rest is looked at for what it returns. *)
Ltac after_step R_refl R_trans lem :=
  eapply (fails_after _ R_trans);
  [ apply lem; try apply R_refl; eassumption | ];
  intros ? ?.

Section early_failures.
Variable rt : runtime.

(** C8.  Called without a connection descriptor, [run_msg_source] always
    raises, and it has then started nothing, read no counter, printed
    nothing and let no time pass.  On otherwise valid arguments the three
    nodes have been built (the output file exists, empty) and the
    exception is the type error of subscripting [None] when the strobe is
    about to be connected. *)
Theorem msg_run_needs_connections fuel c ms os conn w :
  default PNone conn = PNone ->
  (exists e w',
     run_msg_source rt fuel c ms os conn w = (Raised e, w') /\ quiet w w')
  /\ (forall m msg period t' n opath,
        msg_spec_ready (default DEFAULT_MESSAGE_SPEC ms) m msg period ->
        out_spec_ready rt (default (DEFAULT_OUT_SPEC rt) os) t' n opath ->
        run_msg_source rt fuel c ms os conn w
        = (Raised TypeError, created opath w)).
Proof.
  intros Hconn. split.
  - assert (H : fails quiet (run_msg_source rt fuel c ms os conn)).
    { unfold run_msg_source. rewrite Hconn.
      after_step quiet_refl quiet_trans keeps_getitem.
      after_step quiet_refl quiet_trans (@keeps_lift quiet quiet_refl string).
      after_step quiet_refl quiet_trans keeps_getitem.
      after_step quiet_refl quiet_trans keeps_message_strobe.
      after_step quiet_refl quiet_trans keeps_getitem.
      after_step quiet_refl quiet_trans keeps_getitem.
      after_step quiet_refl quiet_trans keeps_head.
      after_step quiet_refl quiet_trans keeps_getitem.
      after_step quiet_refl quiet_trans keeps_getitem.
      eapply (fails_after _ quiet_trans); [apply keeps_file_sink | ].
      intros ? ?.
      apply fails_bind. apply (fails_raise _ quiet_refl). }
    destruct (H w) as (e & w' & HR & Hw). now exists e, w'.
  - intros m msg period t' n opath (Hm & Hj & Hd)
           (Ht' & Hn & Hp' & Hs' & Hn0 & Hw).
    unfold run_msg_source. rewrite Hconn.
    fwd getitem_some. rewrite Hj. unfold lift at 1.
    unfold py_bind at 1. unfold py_ret at 1.
    fwd getitem_some.
    unfold py_bind at 1. unfold blocks.message_strobe at 1.
    unfold py_ret at 1.
    fwd getitem_some. fwd getitem_some. fwd head_ready.
    fwd getitem_some. fwd getitem_some. fwd file_sink_ready.
    reflexivity.
Qed.

Let eq_world_refl : forall w : world, w = w := @eq_refl world.
Let eq_world_trans : forall w1 w2 w3 : world, w1 = w2 -> w2 = w3 -> w1 = w3
  := @eq_trans world.

(** C6, amended.  Which element types are accepted is for the runtime's
    node constructors to say, not for this layer or its table [DTYPE].
    When the element type of the file specification or of the output
    specification is one the constructors do not accept, the run raises
    while the nodes are being built and the world is as before: no file
    has been created or written and nothing has run.  The exception is
    the type error of the constructor given that type whenever the
    specification holds its other fields and the nodes built before that
    one were built.  On otherwise valid arguments an element type the
    constructors accept, whether [DTYPE] lists it or not, makes neither
    entry point raise. *)
Theorem unsupported_type_fails_first fuel c w :
  (forall fs os conn t,
     default (DEFAULT_FILE_SPEC rt) fs !! "type" = Some t ->
     supported rt t = false ->
     (exists e, run_file_source rt fuel c fs os conn w = (Raised e, w))
     /\ (is_Some (default (DEFAULT_FILE_SPEC rt) fs !! "path") ->
         is_Some (default (DEFAULT_FILE_SPEC rt) fs !! "repeat") ->
         run_file_source rt fuel c fs os conn w = (Raised TypeError, w)))
  /\ (forall fs os conn t',
        default (DEFAULT_OUT_SPEC rt) os !! "type" = Some t' ->
        supported rt t' = false ->
        (exists e, run_file_source rt fuel c fs os conn w = (Raised e, w))
        /\ (forall t path rep,
              file_spec_ready rt w (default (DEFAULT_FILE_SPEC rt) fs)
                              t path rep ->
              is_Some (default (DEFAULT_OUT_SPEC rt) os !! "n_items") ->
              run_file_source rt fuel c fs os conn w
              = (Raised TypeError, w)))
  /\ (forall ms os conn t',
        default (DEFAULT_OUT_SPEC rt) os !! "type" = Some t' ->
        supported rt t' = false ->
        (exists e, run_msg_source rt fuel c ms os conn w = (Raised e, w))
        /\ (forall m msg period,
              msg_spec_ready (default DEFAULT_MESSAGE_SPEC ms)
                             m msg period ->
              is_Some (default (DEFAULT_OUT_SPEC rt) os !! "n_items") ->
              run_msg_source rt fuel c ms os conn w
              = (Raised TypeError, w)))
  /\ (forall fs os conn t path rep t' n opath p_in p_out,
        file_spec_ready rt w (default (DEFAULT_FILE_SPEC rt) fs)
                        t path rep ->
        out_spec_ready rt (default (DEFAULT_OUT_SPEC rt) os) t' n opath ->
        ports_of (default PNone conn) p_in p_out ->
        graph_ready rt (file_pipeline (FileSource t path rep) c p_in p_out
                                      (Head t' n) (FileSink t' opath)) ->
        forall e, fst (run_file_source rt fuel c fs os conn w) <> Raised e)
  /\ (forall ms os conn m msg period t' n opath p_in p_out,
        msg_spec_ready (default DEFAULT_MESSAGE_SPEC ms) m msg period ->
        out_spec_ready rt (default (DEFAULT_OUT_SPEC rt) os) t' n opath ->
        subscript (default PNone conn) 0 = inr p_in ->
        subscript (default PNone conn) 1 = inr p_out ->
        graph_ready rt (msg_pipeline (MessageStrobe msg period) c
                                     p_in p_out
                                     (Head t' n) (FileSink t' opath)) ->
        forall e, fst (run_msg_source rt fuel c ms os conn w) <> Raised e).
Proof.
  split; [ | split; [ | split; [ | split]]].
  - intros fs os conn t Ht Hs. split.
    + assert (H : fails eq (run_file_source rt fuel c fs os conn)).
      { unfold run_file_source.
        after_step eq_world_refl eq_world_trans keeps_getitem_some.
        subst.
        after_step eq_world_refl eq_world_trans keeps_getitem.
        after_step eq_world_refl eq_world_trans keeps_getitem.
        apply fails_bind. now apply fails_file_source. }
      destruct (H w) as (e & w' & <- & Hw). now exists e.
    + intros [p Hp] [r Hr]. unfold run_file_source.
      fwd getitem_some. fwd getitem_some. fwd getitem_some.
      unfold py_bind. now rewrite file_source_unsupported.
  - intros fs os conn t' Ht' Hs. split.
    + assert (H : fails eq (run_file_source rt fuel c fs os conn)).
      { unfold run_file_source.
        after_step eq_world_refl eq_world_trans keeps_getitem.
        after_step eq_world_refl eq_world_trans keeps_getitem.
        after_step eq_world_refl eq_world_trans keeps_getitem.
        after_step eq_world_refl eq_world_trans keeps_file_source.
        after_step eq_world_refl eq_world_trans keeps_getitem_some.
        subst.
        after_step eq_world_refl eq_world_trans keeps_getitem.
        apply fails_bind. now apply fails_head. }
      destruct (H w) as (e & w' & <- & Hw). now exists e.
    + intros t path rep (Ht & Hp & Hr & Hst & Hf) [n Hn].
      unfold run_file_source.
      fwd getitem_some. fwd getitem_some. fwd getitem_some.
      fwd file_source_ready.
      fwd getitem_some. fwd getitem_some.
      unfold py_bind. now rewrite head_unsupported.
  - intros ms os conn t' Ht' Hs. split.
    + assert (H : fails eq (run_msg_source rt fuel c ms os conn)).
      { unfold run_msg_source.
        after_step eq_world_refl eq_world_trans keeps_getitem.
        after_step eq_world_refl eq_world_trans
                   (@keeps_lift eq eq_world_refl string).
        after_step eq_world_refl eq_world_trans keeps_getitem.
        after_step eq_world_refl eq_world_trans keeps_message_strobe.
        after_step eq_world_refl eq_world_trans keeps_getitem_some.
        subst.
        after_step eq_world_refl eq_world_trans keeps_getitem.
        apply fails_bind. now apply fails_head. }
      destruct (H w) as (e & w' & <- & Hw). now exists e.
    + intros m msg period (Hm & Hj & Hd) [n Hn].
      unfold run_msg_source.
      fwd getitem_some. rewrite Hj. unfold lift at 1.
      unfold py_bind at 1. unfold py_ret at 1.
      fwd getitem_some.
      unfold py_bind at 1. unfold blocks.message_strobe at 1.
      unfold py_ret at 1.
      fwd getitem_some. fwd getitem_some.
      unfold py_bind. now rewrite head_unsupported.
  - intros fs os conn t path rep t' n opath p_in p_out Hfs Hos Hc Hg.
    rewrite (run_file_source_ready rt fuel c fs os conn w _ _ _ _ _ _ _ _
               Hfs Hos Hc Hg).
    destruct Hg as (_ & _ & Hg).
    destruct (gr.run rt fuel _ (PInt n) (created opath w))
      as [r w'] eqn:Hrun.
    exact (run_not_raised rt _ _ _ _ _ _ Hg Hrun).
  - intros ms os conn m msg period t' n opath p_in p_out
           Hms Hos H0 H1 Hg.
    rewrite (run_msg_source_ready rt fuel c ms os conn w _ _ _ _ _ _ _ _
               Hms Hos H0 H1 Hg).
    destruct Hos as (_ & Hn & _).
    destruct (poll_phase_cases rt msg period c p_in p_out t' n opath
                fuel _ w Hn)
      as [(k & _ & _ & _ & Hdone & _) | (_ & Hhung & _)];
      intros e He; [rewrite Hdone in He | rewrite Hhung in He];
      discriminate He.
Qed.
End early_failures.


(** ** Connections *)

Section connections.
Variable rt : runtime.

Lemma file_run_graph fuel c fs os conn w r w' :
  run_file_source rt fuel c fs os conn w = (r, w') ->
  (forall e, r <> Raised e) ->
  exists t path rep t' n opath p_in p_out,
    ports_of (default PNone conn) p_in p_out
    /\ trace w'
       = trace w ++ [Ran (file_pipeline (FileSource t path rep) c p_in p_out
                                        (Head t' n) (FileSink t' opath)) n].
Proof.
  intros H Hr. apply run_file_source_inv in H; [ | assumption].
  destruct H as (t & path & rv & rep & t' & n & opath & p_in & p_out & H).
  destruct H as (_ & _ & _ & _ & _ & _ & _ & _ & _ & Hc & H).
  apply file_run_done in H; [ | assumption]. destruct H as [Htr _].
  now exists t, path, rep, t', n, opath, p_in, p_out.
Qed.

(** C3.  Without a connection descriptor a file-driven run does exactly
    what it does with the descriptor (0, 0), whether it returns, raises or
    does not return; when it gets to run the graph, that graph connects the
    file source to port 0 of the component, port 0 of the component to the
    limiter, and the limiter to the file sink. *)
Theorem default_connection_is_0_0 fuel c fs os w :
  run_file_source rt fuel c fs os None w
  = run_file_source rt fuel c fs os (Some (PTuple [PInt 0; PInt 0])) w
  /\ run_file_source rt fuel c fs os (Some PNone) w
     = run_file_source rt fuel c fs os (Some (PTuple [PInt 0; PInt 0])) w
  /\ forall r w',
       run_file_source rt fuel c fs os None w = (r, w') ->
       (forall e, r <> Raised e) ->
       exists src head sink n,
         trace w'
         = trace w
           ++ [Ran {| stream_edges :=
                        [((src, PInt 0), (Component c, PInt 0));
                         ((Component c, PInt 0), (head, PInt 0));
                         ((head, PInt 0), (sink, PInt 0))];
                      msg_edges := [] |} n].
Proof.
  assert (Hsame :
    run_file_source rt fuel c fs os None w
    = run_file_source rt fuel c fs os (Some (PTuple [PInt 0; PInt 0])) w).
  { unfold run_file_source.
    do 10 (apply py_bind_ext; intros). apply py_bind_ext_l.
    simpl. unfold py_bind, gr.connect1, py_ret, raise.
    repeat match goal with
           | |- context [admits rt ?a ?b] => destruct (admits rt a b)
           end; reflexivity. }
  split; [exact Hsame | split; [exact Hsame | ]].
  intros r w' H Hr. apply file_run_graph in H; [ | assumption].
  destruct H as (t & path & rep & t' & n & opath & p_in & p_out & Hp & Htr).
  destruct Hp as [-> ->].
  now exists (FileSource t path rep), (Head t' n), (FileSink t' opath), n.
Qed.

(** C4.  With the connection descriptor (p_in, p_out), a run that gets to
    execute its graph has connected the source to port p_in of the
    component (the file source by a stream connection, the strobe's port
    "strobe" by a message connection), port p_out of the component to the
    limiter, and the limiter to the file sink. *)
Theorem explicit_connection_is_used fuel c os p_in p_out w :
  (forall fs r w',
     run_file_source rt fuel c fs os (Some (PTuple [p_in; p_out])) w
     = (r, w') ->
     (forall e, r <> Raised e) ->
     exists t path rep t' n opath g,
       trace w' = trace w ++ [Ran g n]
       /\ stream_edges g
          = [((FileSource t path rep, PInt 0), (Component c, p_in));
             ((Component c, p_out), (Head t' n, PInt 0));
             ((Head t' n, PInt 0), (FileSink t' opath, PInt 0))]
       /\ msg_edges g = [])
  /\ (forall ms r w',
        run_msg_source rt fuel c ms os (Some (PTuple [p_in; p_out])) w
        = (r, w') ->
        (forall e, r <> Raised e) ->
        exists msg period t' n opath g evs,
          trace w' = trace w ++ Started g n :: evs
          /\ msg_edges g
             = [((MessageStrobe msg period, PStr "strobe"),
                 (Component c, p_in))]
          /\ stream_edges g
             = [((Component c, p_out), (Head t' n, PInt 0));
                ((Head t' n, PInt 0), (FileSink t' opath, PInt 0))]).
Proof.
  split.
  - intros fs r w' H Hr. apply file_run_graph in H; [ | assumption].
    destruct H as (t & path & rep & t' & n & opath & q_in & q_out & Hp & Htr).
    destruct Hp as [Hin Hout]. injection Hin as <-. injection Hout as <-.
    exists t, path, rep, t', n, opath. eexists. split; [exact Htr | ].
    split; reflexivity.
  - intros ms r w' H Hr. apply run_msg_source_inv in H; [ | assumption].
    destruct H as (m & msg & period & t' & n & opath & q_in & q_out & H).
    destruct H as (_ & Hos & Hin & Hout & _ & H).
    injection Hin as <-. injection Hout as <-.
    destruct Hos as (_ & Hn & _).
    exists msg, period, t', n, opath. eexists.
    destruct (poll_phase_cases rt msg period c p_in p_out t' n opath
                fuel _ w Hn)
      as [(k & _ & _ & _ & _ & Htr & _) | (_ & _ & Htr & _)];
      rewrite H in Htr; cbn [snd] in Htr;
      (eexists; split; [rewrite Htr; reflexivity | split; reflexivity]).
Qed.

(** C10.  The default file specification is path "", type byte, repeat
    true; the default output specification is path "", type byte, 10000
    items; the default message specification is the message "hello world"
    every 300 ms; and an entry point called without a specification behaves
    as when called with the default one. *)
Theorem default_specifications :
  (DEFAULT_FILE_SPEC rt !! "path" = Some (PStr "")
   /\ DEFAULT_FILE_SPEC rt !! "type" = DTYPE rt !! "BYTE"
   /\ DEFAULT_FILE_SPEC rt !! "repeat" = Some (PBool true)
   /\ dom (DEFAULT_FILE_SPEC rt)
      = ({["path"; "type"; "repeat"]} : gset string))
  /\ (DEFAULT_OUT_SPEC rt !! "path" = Some (PStr "")
      /\ DEFAULT_OUT_SPEC rt !! "type" = DTYPE rt !! "BYTE"
      /\ DEFAULT_OUT_SPEC rt !! "n_items" = Some (PInt 10000)
      /\ dom (DEFAULT_OUT_SPEC rt)
         = ({["path"; "type"; "n_items"]} : gset string))
  /\ (DEFAULT_MESSAGE_SPEC !! "message" = Some (PStr "hello world")
      /\ DEFAULT_MESSAGE_SPEC !! "period(ms)" = Some (PInt 300)
      /\ dom DEFAULT_MESSAGE_SPEC
         = ({["message"; "period(ms)"]} : gset string))
  /\ (forall fuel c os conn,
        run_file_source rt fuel c None os conn
        = run_file_source rt fuel c (Some (DEFAULT_FILE_SPEC rt)) os conn)
  /\ (forall fuel c fs conn,
        run_file_source rt fuel c fs None conn
        = run_file_source rt fuel c fs (Some (DEFAULT_OUT_SPEC rt)) conn)
  /\ (forall fuel c os conn,
        run_msg_source rt fuel c None os conn
        = run_msg_source rt fuel c (Some DEFAULT_MESSAGE_SPEC) os conn)
  /\ (forall fuel c ms conn,
        run_msg_source rt fuel c ms None conn
        = run_msg_source rt fuel c ms (Some (DEFAULT_OUT_SPEC rt)) conn).
Proof.
  repeat split; reflexivity.
Qed.
End connections.


(** ** The theorems at work on concrete runs *)

(** C1, as stated, fails: the input file holds three elements and is not
    repeated, five are requested, the run returns and the output file holds
    three. *)
Lemma short_input_short_output :
  let r := run_file_source copying_runtime 10 "multiply_const"
             (Some (in_sig false)) (Some (out_sig (PInt 1) 5)) None
             three_elements in
  fst r = Done tt
  /\ files (snd r) !! "/tmp/output.byte" = Some [7; 8; 9]
  /\ Z.of_nat (length [7; 8; 9]) <> 5.
Proof. vm_compute. repeat split; discriminate. Qed.

(** A run of C1's theorem: the input is repeated, five elements are
    requested, the file holds five. *)
Lemma file_run_output_witness :
  (exists opath n content,
     files (snd (run_file_source copying_runtime 6 "multiply_const"
                   (Some (in_sig true)) (Some (out_sig (PInt 1) 5)) None
                   three_elements)) !! opath = Some content
     /\ Z.of_nat (length content) <= n)
  /\ (exists w' content,
        run_file_source copying_runtime 6 "multiply_const"
          (Some (in_sig true)) (Some (out_sig (PInt 1) 5)) None three_elements
        = (Done tt, w')
        /\ files w' !! "/tmp/output.byte" = Some content
        /\ Z.of_nat (length content) = 5).
Proof.
  split.
  - assert (H : run_file_source copying_runtime 6 "multiply_const"
                  (Some (in_sig true)) (Some (out_sig (PInt 1) 5)) None
                  three_elements
                = (Done tt,
                   snd (run_file_source copying_runtime 6 "multiply_const"
                          (Some (in_sig true)) (Some (out_sig (PInt 1) 5))
                          None three_elements)))
      by (vm_compute; reflexivity).
    destruct (proj1 (file_run_output copying_runtime "multiply_const"
                       (Some (in_sig true)) (Some (out_sig (PInt 1) 5)) None
                       three_elements) _ _ H)
      as (t & path & rep & t' & n & opath & p_in & p_out & content & H').
    destruct H' as (_ & _ & _ & _ & _ & _ & _ & Hf & Hp & _).
    exists opath, n, content. split; [exact Hf | apply Hp].
  - apply (proj2 (file_run_output copying_runtime "multiply_const"
                    (Some (in_sig true)) (Some (out_sig (PInt 1) 5)) None
                    three_elements)
                 (PInt 1) "/tmp/input.byte" true (PInt 1) 5
                 "/tmp/output.byte" (PInt 0) (PInt 0)).
    + repeat split; try reflexivity. now exists [7; 8; 9].
    + repeat split; try reflexivity. lia.
    + split; reflexivity.
    + repeat split; try reflexivity; repeat constructor.
    + lia.
    + intros j Hj.
      destruct j as [ | [ | [ | [ | [ | j]]]]];
        [eexists; reflexivity .. | lia].
    + vm_compute. lia.
Defined.

(** C2, as stated, fails: three elements are requested; when the counter
    reads 3 the call returns, and the file sink has taken only two of the
    three elements by then, so the file holds two. *)
Lemma file_lags_behind_counter :
  let r := run_msg_source copying_runtime 10 "wifi" None
             (Some (out_sig (PInt 1) 3)) (Some in_0) three_elements in
  fst r = Done tt
  /\ files (snd r) !! "/tmp/output.byte" = Some [0; 1]
  /\ Z.of_nat (length [0; 1]) <> 3.
Proof. vm_compute. repeat split; discriminate. Qed.

(** A run of C2's theorem: the counter reads 3 at time 3 and the call
    returns. *)
Lemma msg_run_returns_witness :
  (exists opath content,
     files (snd (run_msg_source copying_runtime 10 "wifi" None
                   (Some (out_sig (PInt 1) 3)) (Some in_0) three_elements))
       !! opath = Some content)
  /\ (exists w',
        run_msg_source copying_runtime 10 "wifi" None
          (Some (out_sig (PInt 1) 3)) (Some in_0) three_elements
        = (Done tt, w')).
Proof.
  split.
  - assert (H : run_msg_source copying_runtime 10 "wifi" None
                  (Some (out_sig (PInt 1) 3)) (Some in_0) three_elements
                = (Done tt,
                   snd (run_msg_source copying_runtime 10 "wifi" None
                          (Some (out_sig (PInt 1) 3)) (Some in_0)
                          three_elements)))
      by (vm_compute; reflexivity).
    destruct (proj1 (msg_run_returns copying_runtime "wifi" None
                       (Some (out_sig (PInt 1) 3)) (Some in_0)
                       three_elements) _ _ H)
      as (msg & period & t' & n & opath & p_in & p_out & k & content & H').
    destruct H' as (_ & _ & _ & _ & _ & Hf & _).
    now exists opath, content.
  - apply (proj2 (msg_run_returns copying_runtime "wifi" None
                    (Some (out_sig (PInt 1) 3)) (Some in_0) three_elements)
                 (PStr "hello world") "hello world" 300 (PInt 1) 3
                 "/tmp/output.byte" (PStr "in") (PInt 0) 3%nat).
    + repeat split; reflexivity.
    + repeat split; try reflexivity. lia.
    + reflexivity.
    + reflexivity.
    + repeat split; try reflexivity; repeat constructor.
    + vm_compute. discriminate.
    + lia.
Defined.

(** A run of C3's theorem. *)
Lemma default_connection_is_0_0_witness :
  exists src head sink n,
    trace (snd (run_file_source copying_runtime 6 "multiply_const"
                  (Some (in_sig true)) (Some (out_sig (PInt 1) 5)) None
                  three_elements))
    = trace three_elements
      ++ [Ran {| stream_edges :=
                   [((src, PInt 0), (Component "multiply_const", PInt 0));
                    ((Component "multiply_const", PInt 0), (head, PInt 0));
                    ((head, PInt 0), (sink, PInt 0))];
                 msg_edges := [] |} n].
Proof.
  assert (H : run_file_source copying_runtime 6 "multiply_const"
                (Some (in_sig true)) (Some (out_sig (PInt 1) 5)) None
                three_elements
              = (Done tt,
                 snd (run_file_source copying_runtime 6 "multiply_const"
                        (Some (in_sig true)) (Some (out_sig (PInt 1) 5)) None
                        three_elements)))
    by (vm_compute; reflexivity).
  apply (proj2 (proj2 (default_connection_is_0_0 copying_runtime 6
                         "multiply_const" (Some (in_sig true))
                         (Some (out_sig (PInt 1) 5)) three_elements))
               (Done tt) _ H).
  intros e He. discriminate He.
Defined.

(** Runs of C4's theorem: a file-driven one entering the component at
    port 1 and leaving it at port 2, a message-driven one entering it at
    the message port "in". *)
Lemma explicit_connection_is_used_witness :
  (exists t path rep t' n opath g,
     trace (snd (run_file_source copying_runtime 6 "adder"
                   (Some (in_sig true)) (Some (out_sig (PInt 1) 5))
                   (Some (PTuple [PInt 1; PInt 2])) three_elements))
     = trace three_elements ++ [Ran g n]
     /\ stream_edges g
        = [((FileSource t path rep, PInt 0), (Component "adder", PInt 1));
           ((Component "adder", PInt 2), (Head t' n, PInt 0));
           ((Head t' n, PInt 0), (FileSink t' opath, PInt 0))]
     /\ msg_edges g = [])
  /\ (exists msg period t' n opath g evs,
        trace (snd (run_msg_source copying_runtime 10 "wifi" None
                      (Some (out_sig (PInt 1) 3)) (Some in_0)
                      three_elements))
        = trace three_elements ++ Started g n :: evs
        /\ msg_edges g
           = [((MessageStrobe msg period, PStr "strobe"),
               (Component "wifi", PStr "in"))]
        /\ stream_edges g
           = [((Component "wifi", PInt 0), (Head t' n, PInt 0));
              ((Head t' n, PInt 0), (FileSink t' opath, PInt 0))]).
Proof.
  split.
  - assert (H : run_file_source copying_runtime 6 "adder"
                  (Some (in_sig true)) (Some (out_sig (PInt 1) 5))
                  (Some (PTuple [PInt 1; PInt 2])) three_elements
                = (Done tt,
                   snd (run_file_source copying_runtime 6 "adder"
                          (Some (in_sig true)) (Some (out_sig (PInt 1) 5))
                          (Some (PTuple [PInt 1; PInt 2])) three_elements)))
      by (vm_compute; reflexivity).
    apply (proj1 (explicit_connection_is_used copying_runtime 6 "adder"
                    (Some (out_sig (PInt 1) 5)) (PInt 1) (PInt 2)
                    three_elements)
                 (Some (in_sig true)) (Done tt) _ H).
    intros e He. discriminate He.
  - assert (H : run_msg_source copying_runtime 10 "wifi" None
                  (Some (out_sig (PInt 1) 3)) (Some in_0) three_elements
                = (Done tt,
                   snd (run_msg_source copying_runtime 10 "wifi" None
                          (Some (out_sig (PInt 1) 3)) (Some in_0)
                          three_elements)))
      by (vm_compute; reflexivity).
    apply (proj2 (explicit_connection_is_used copying_runtime 10 "wifi"
                    (Some (out_sig (PInt 1) 3)) (PStr "in") (PInt 0)
                    three_elements)
                 None (Done tt) _ H).
    intros e He. discriminate He.
Defined.

(** A run of C5's theorem: the component stays silent, and after four
    rounds the call is still polling. *)
Lemma polling_never_ends_witness :
  (exists w',
     run_msg_source silent_runtime 4 "wifi" None
       (Some (out_sig (PInt 1) 3)) (Some in_0) three_elements = (Hung, w')
     /\ clock w' = 4%nat)
  /\ fst (run_msg_source silent_runtime 4 "wifi" None
            (Some (out_sig (PInt 1) 3)) (Some in_0) three_elements)
     <> Done tt.
Proof.
  split.
  - destruct (proj1 (polling_never_ends silent_runtime "wifi" None
                       (Some (out_sig (PInt 1) 3)) (Some in_0)
                       three_elements)
                    (PStr "hello world") "hello world" 300 (PInt 1) 3
                    "/tmp/output.byte" (PStr "in") (PInt 0))
      with (fuel := 4%nat) as (w' & Hrun & _ & _ & Hclock & _).
    + repeat split; reflexivity.
    + repeat split; try reflexivity. lia.
    + reflexivity.
    + reflexivity.
    + repeat split; try reflexivity; repeat constructor.
    + intros t. vm_compute. reflexivity.
    + exists w'. split; [exact Hrun | exact Hclock].
  - apply (proj2 (polling_never_ends silent_runtime "wifi" None
                    (Some (out_sig (PInt 1) 3)) (Some in_0) three_elements)
                 3).
    + reflexivity.
    + intros b gs t. unfold gr.written. simpl.
      destruct b; try reflexivity.
      destruct (find _ gs); [ | reflexivity].
      apply Z.min_lt_iff. right. reflexivity.
Defined.

(** A run of C7's theorem. *)
Lemma graph_left_running_witness :
  exists g,
    In g (running (snd (run_msg_source copying_runtime 10 "wifi" None
                          (Some (out_sig (PInt 1) 3)) (Some in_0)
                          three_elements)))
    /\ ~ In g (running
                 (snd (gr.stop g
                         (snd (run_msg_source copying_runtime 10 "wifi" None
                                 (Some (out_sig (PInt 1) 3)) (Some in_0)
                                 three_elements))))).
Proof.
  assert (H : run_msg_source copying_runtime 10 "wifi" None
                (Some (out_sig (PInt 1) 3)) (Some in_0) three_elements
              = (Done tt,
                 snd (run_msg_source copying_runtime 10 "wifi" None
                        (Some (out_sig (PInt 1) 3)) (Some in_0)
                        three_elements)))
    by (vm_compute; reflexivity).
  destruct (graph_left_running copying_runtime 10 "wifi" None
              (Some (out_sig (PInt 1) 3)) (Some in_0) three_elements _ H)
    as (g & n & evs & _ & _ & _ & Hin & Hout).
  exists g. split; [exact Hin | exact Hout].
Defined.

(** A run of C8's theorem: the output file has been created when the type
    error is raised. *)
Lemma msg_run_needs_connections_witness :
  (exists e w',
     run_msg_source copying_runtime 10 "wifi" None
       (Some (out_sig (PInt 1) 3)) None three_elements = (Raised e, w')
     /\ quiet three_elements w')
  /\ run_msg_source copying_runtime 10 "wifi" None
       (Some (out_sig (PInt 1) 3)) None three_elements
     = (Raised TypeError, created "/tmp/output.byte" three_elements).
Proof.
  destruct (msg_run_needs_connections copying_runtime 10 "wifi" None
              (Some (out_sig (PInt 1) 3)) None three_elements eq_refl)
    as [Hfails Htype].
  split; [exact Hfails | ].
  apply (Htype (PStr "hello world") "hello world" 300 (PInt 1) 3).
  - repeat split; reflexivity.
  - repeat split; try reflexivity. lia.
Defined.

(** C6, as stated, fails: 3 is none of the five element sizes of [DTYPE],
    the constructors accept it, and the run returns with the output file
    written. *)
Lemma unlisted_type_runs :
  let r := run_file_source copying_runtime 6 "multiply_const"
             (Some (<["type" := PInt 3]> (in_sig true)))
             (Some (out_sig (PInt 3) 5)) None three_elements in
  (forall k, DTYPE copying_runtime !! k <> Some (PInt 3))
  /\ fst r = Done tt
  /\ files (snd r) !! "/tmp/output.byte" = Some [7; 8; 9; 7; 8].
Proof.
  split; [ | vm_compute; split; reflexivity].
  assert (H : map_Forall (fun _ v => v <> PInt 3) (DTYPE copying_runtime)).
  { unfold DTYPE.
    repeat (apply map_Forall_insert_2;
            [intros E; vm_compute in E; discriminate E | ]).
    apply map_Forall_empty. }
  intros k Hk. exact (H k _ Hk eq_refl).
Qed.

(** Runs of C6's theorem: the name of the type is given where its size is
    expected, and the element size 3 is given. *)
Lemma unsupported_type_fails_first_witness :
  run_file_source copying_runtime 6 "multiply_const"
    (Some (<["type" := PStr "COMPLEX"]> (in_sig true)))
    (Some (out_sig (PInt 1) 5)) None three_elements
  = (Raised TypeError, three_elements)
  /\ run_file_source copying_runtime 6 "multiply_const"
       (Some (in_sig true)) (Some (out_sig (PStr "COMPLEX") 5)) None
       three_elements
     = (Raised TypeError, three_elements)
  /\ run_msg_source copying_runtime 10 "wifi" None
       (Some (out_sig (PStr "COMPLEX") 3)) (Some in_0) three_elements
     = (Raised TypeError, three_elements)
  /\ fst (run_file_source copying_runtime 6 "multiply_const"
            (Some (<["type" := PInt 3]> (in_sig true)))
            (Some (out_sig (PInt 3) 5)) None three_elements)
     <> Raised TypeError
  /\ fst (run_msg_source copying_runtime 10 "wifi" None
            (Some (out_sig (PInt 3) 3)) (Some in_0) three_elements)
     <> Raised TypeError.
Proof.
  destruct (unsupported_type_fails_first copying_runtime 6 "multiply_const"
              three_elements) as (Hfile & Hout & _ & Hruns & _).
  destruct (unsupported_type_fails_first copying_runtime 10 "wifi"
              three_elements) as (_ & _ & Hmsg & _ & Hstarts).
  split; [ | split; [ | split; [ | split]]].
  - apply (Hfile _ _ _ (PStr "COMPLEX")); try reflexivity.
    + now exists (PStr "/tmp/input.byte").
    + now exists (PBool true).
  - apply (Hout _ _ _ (PStr "COMPLEX")) with (t := PInt 1)
                                              (path := "/tmp/input.byte")
                                              (rep := true);
      try reflexivity.
    + repeat split; try reflexivity. now exists [7; 8; 9].
    + now exists (PInt 5).
  - apply (Hmsg _ _ _ (PStr "COMPLEX")) with (m := PStr "hello world")
                                              (msg := "hello world")
                                              (period := 300);
      try reflexivity.
    + repeat split; reflexivity.
    + now exists (PInt 3).
  - apply (Hruns _ _ None (PInt 3) "/tmp/input.byte" true (PInt 3) 5
                 "/tmp/output.byte" (PInt 0) (PInt 0)).
    + repeat split; try reflexivity. now exists [7; 8; 9].
    + repeat split; try reflexivity. lia.
    + split; reflexivity.
    + repeat split; try reflexivity; repeat constructor.
  - apply (Hstarts None _ (Some in_0) (PStr "hello world") "hello world"
                   300 (PInt 3) 3 "/tmp/output.byte" (PStr "in") (PInt 0)).
    + repeat split; reflexivity.
    + repeat split; try reflexivity. lia.
    + reflexivity.
    + reflexivity.
    + repeat split; try reflexivity; repeat constructor.
Defined.


(** * Further properties of the two entry points *)

(** ** Specifications that lack a field *)

Lemma getitem_none (d : gmap string pyval) k w :
  d !! k = None -> getitem d k w = (Raised (KeyError k), w).
Proof. intros H. unfold getitem. now rewrite H. Qed.

Ltac fails_here lem :=
  unfold py_bind at 1; rewrite lem by eassumption; reflexivity.

Section missing_fields.
Variable rt : runtime.

(** X1.  A specification given to [run_file_source] is not completed from
    the defaults: the first of its fields that is looked up and missing is
    reported by a [KeyError] naming it, and nothing has been created or
    run. *)
Theorem file_run_missing_field fuel c fs os conn w :
  (default (DEFAULT_FILE_SPEC rt) fs !! "type" = None ->
   run_file_source rt fuel c fs os conn w = (Raised (KeyError "type"), w))
  /\ (is_Some (default (DEFAULT_FILE_SPEC rt) fs !! "type") ->
      default (DEFAULT_FILE_SPEC rt) fs !! "path" = None ->
      run_file_source rt fuel c fs os conn w = (Raised (KeyError "path"), w))
  /\ (is_Some (default (DEFAULT_FILE_SPEC rt) fs !! "type") ->
      is_Some (default (DEFAULT_FILE_SPEC rt) fs !! "path") ->
      default (DEFAULT_FILE_SPEC rt) fs !! "repeat" = None ->
      run_file_source rt fuel c fs os conn w
      = (Raised (KeyError "repeat"), w))
  /\ (forall t path rep,
        file_spec_ready rt w (default (DEFAULT_FILE_SPEC rt) fs) t path rep ->
        (default (DEFAULT_OUT_SPEC rt) os !! "type" = None ->
         run_file_source rt fuel c fs os conn w
         = (Raised (KeyError "type"), w))
        /\ (is_Some (default (DEFAULT_OUT_SPEC rt) os !! "type") ->
            default (DEFAULT_OUT_SPEC rt) os !! "n_items" = None ->
            run_file_source rt fuel c fs os conn w
            = (Raised (KeyError "n_items"), w))
        /\ (forall t' n,
              default (DEFAULT_OUT_SPEC rt) os !! "type" = Some t' ->
              default (DEFAULT_OUT_SPEC rt) os !! "n_items" = Some (PInt n) ->
              supported rt t' = true -> 0 <= n ->
              default (DEFAULT_OUT_SPEC rt) os !! "path" = None ->
              run_file_source rt fuel c fs os conn w
              = (Raised (KeyError "path"), w))).
Proof.
  split; [ | split; [ | split]].
  - intros H. unfold run_file_source. fails_here getitem_none.
  - intros [t Ht] H. unfold run_file_source.
    fwd getitem_some. fails_here getitem_none.
  - intros [t Ht] [p Hp] H. unfold run_file_source.
    fwd getitem_some. fwd getitem_some. fails_here getitem_none.
  - intros t path rep (Ht & Hp & Hr & Hs & Hf).
    split; [ | split].
    + intros H. unfold run_file_source.
      fwd getitem_some. fwd getitem_some. fwd getitem_some.
      fwd file_source_ready. fails_here getitem_none.
    + intros [t' Ht'] H. unfold run_file_source.
      fwd getitem_some. fwd getitem_some. fwd getitem_some.
      fwd file_source_ready. fwd getitem_some. fails_here getitem_none.
    + intros t' n Ht' Hn Hs' Hn0 H. unfold run_file_source.
      fwd getitem_some. fwd getitem_some. fwd getitem_some.
      fwd file_source_ready. fwd getitem_some. fwd getitem_some.
      fwd head_ready. fwd getitem_some. fails_here getitem_none.
Qed.

(** X2.  The same for [run_msg_source]: a missing "message" or "period(ms)"
    in the message specification, then a missing field of the output
    specification, is reported by a [KeyError] naming it, and nothing has
    been created or started. *)
Theorem msg_run_missing_field fuel c ms os conn w :
  (default DEFAULT_MESSAGE_SPEC ms !! "message" = None ->
   run_msg_source rt fuel c ms os conn w = (Raised (KeyError "message"), w))
  /\ (forall m msg,
        default DEFAULT_MESSAGE_SPEC ms !! "message" = Some m ->
        join_empty m = inr msg ->
        default DEFAULT_MESSAGE_SPEC ms !! "period(ms)" = None ->
        run_msg_source rt fuel c ms os conn w
        = (Raised (KeyError "period(ms)"), w))
  /\ (forall m msg period,
        msg_spec_ready (default DEFAULT_MESSAGE_SPEC ms) m msg period ->
        (default (DEFAULT_OUT_SPEC rt) os !! "type" = None ->
         run_msg_source rt fuel c ms os conn w
         = (Raised (KeyError "type"), w))
        /\ (is_Some (default (DEFAULT_OUT_SPEC rt) os !! "type") ->
            default (DEFAULT_OUT_SPEC rt) os !! "n_items" = None ->
            run_msg_source rt fuel c ms os conn w
            = (Raised (KeyError "n_items"), w))
        /\ (forall t' n,
              default (DEFAULT_OUT_SPEC rt) os !! "type" = Some t' ->
              default (DEFAULT_OUT_SPEC rt) os !! "n_items" = Some (PInt n) ->
              supported rt t' = true -> 0 <= n ->
              default (DEFAULT_OUT_SPEC rt) os !! "path" = None ->
              run_msg_source rt fuel c ms os conn w
              = (Raised (KeyError "path"), w))).
Proof.
  assert (Hstrobe : forall m msg period (k : block -> Py unit),
    default DEFAULT_MESSAGE_SPEC ms !! "message" = Some m ->
    join_empty m = inr msg ->
    default DEFAULT_MESSAGE_SPEC ms !! "period(ms)" = Some (PInt period) ->
    (m <- getitem (default DEFAULT_MESSAGE_SPEC ms) "message" ;;
     s <- lift (join_empty m) ;;
     d <- getitem (default DEFAULT_MESSAGE_SPEC ms) "period(ms)" ;;
     source <- blocks.message_strobe (pmt.intern s) d ;;
     k source) w
    = k (MessageStrobe msg period) w).
  { intros m msg period k Hm Hj Hd.
    fwd getitem_some. rewrite Hj. unfold lift at 1.
    unfold py_bind at 1. unfold py_ret at 1.
    fwd getitem_some. reflexivity. }
  split; [ | split].
  - intros H. unfold run_msg_source. fails_here getitem_none.
  - intros m msg Hm Hj H. unfold run_msg_source.
    fwd getitem_some. rewrite Hj. unfold lift at 1.
    unfold py_bind at 1. unfold py_ret at 1.
    fails_here getitem_none.
  - intros m msg period (Hm & Hj & Hd). split; [ | split].
    + intros H. unfold run_msg_source.
      rewrite (Hstrobe m msg period _ Hm Hj Hd).
      fails_here getitem_none.
    + intros [t' Ht'] H. unfold run_msg_source.
      rewrite (Hstrobe m msg period _ Hm Hj Hd).
      fwd getitem_some. fails_here getitem_none.
    + intros t' n Ht' Hn Hs' Hn0 H. unfold run_msg_source.
      rewrite (Hstrobe m msg period _ Hm Hj Hd).
      fwd getitem_some. fwd getitem_some. fwd head_ready.
      fwd getitem_some. fails_here getitem_none.
Qed.
End missing_fields.

(** Runs of X1's theorem: an input specification holding only a path, one
    without "repeat", and output specifications without "type", without
    "n_items" and without "path". *)
Lemma file_run_missing_field_witness :
  run_file_source copying_runtime 6 "adder"
    (Some {[ "path" := PStr "/tmp/input.byte" ]}) None None three_elements
  = (Raised (KeyError "type"), three_elements)
  /\ run_file_source copying_runtime 6 "adder"
       (Some {[ "type" := PInt 1 ]}) None None three_elements
     = (Raised (KeyError "path"), three_elements)
  /\ run_file_source copying_runtime 6 "adder"
       (Some {[ "type" := PInt 1; "path" := PStr "/tmp/input.byte" ]})
       None None three_elements
     = (Raised (KeyError "repeat"), three_elements)
  /\ run_file_source copying_runtime 6 "adder" (Some (in_sig true))
       (Some {[ "n_items" := PInt 5 ]}) None three_elements
     = (Raised (KeyError "type"), three_elements)
  /\ run_file_source copying_runtime 6 "adder" (Some (in_sig true))
       (Some {[ "type" := PInt 1 ]}) None three_elements
     = (Raised (KeyError "n_items"), three_elements)
  /\ run_file_source copying_runtime 6 "adder" (Some (in_sig true))
       (Some {[ "type" := PInt 1; "n_items" := PInt 5 ]}) None three_elements
     = (Raised (KeyError "path"), three_elements).
Proof.
  assert (Hfs : file_spec_ready copying_runtime three_elements
                  (default (DEFAULT_FILE_SPEC copying_runtime)
                           (Some (in_sig true)))
                  (PInt 1) "/tmp/input.byte" true)
    by (repeat split; try reflexivity; now exists [7; 8; 9]).
  repeat apply conj.
  - apply (proj1 (file_run_missing_field copying_runtime 6 "adder"
                    _ None None three_elements)).
    reflexivity.
  - apply (proj1 (proj2 (file_run_missing_field copying_runtime 6 "adder"
                           _ None None three_elements))).
    + now exists (PInt 1).
    + reflexivity.
  - apply (proj1 (proj2 (proj2 (file_run_missing_field copying_runtime 6
                                  "adder" _ None None three_elements)))).
    + now exists (PInt 1).
    + now exists (PStr "/tmp/input.byte").
    + reflexivity.
  - apply (proj1 (proj2 (proj2 (proj2
             (file_run_missing_field copying_runtime 6 "adder"
                _ _ None three_elements))) _ _ _ Hfs)).
    reflexivity.
  - apply (proj1 (proj2 (proj2 (proj2 (proj2
             (file_run_missing_field copying_runtime 6 "adder"
                _ _ None three_elements))) _ _ _ Hfs))).
    + now exists (PInt 1).
    + reflexivity.
  - apply (proj2 (proj2 (proj2 (proj2 (proj2
             (file_run_missing_field copying_runtime 6 "adder"
                _ _ None three_elements))) _ _ _ Hfs)) (PInt 1) 5);
      try reflexivity.
    lia.
Defined.

(** Runs of X2's theorem: message specifications without "message" and
    without "period(ms)", and an output specification without "path". *)
Lemma msg_run_missing_field_witness :
  run_msg_source copying_runtime 10 "wifi"
    (Some {[ "period(ms)" := PInt 300 ]}) None None three_elements
  = (Raised (KeyError "message"), three_elements)
  /\ run_msg_source copying_runtime 10 "wifi"
       (Some {[ "message" := PStr "hello" ]}) None None three_elements
     = (Raised (KeyError "period(ms)"), three_elements)
  /\ run_msg_source copying_runtime 10 "wifi" None
       (Some {[ "n_items" := PInt 3 ]}) None three_elements
     = (Raised (KeyError "type"), three_elements)
  /\ run_msg_source copying_runtime 10 "wifi" None
       (Some {[ "type" := PInt 1 ]}) None three_elements
     = (Raised (KeyError "n_items"), three_elements)
  /\ run_msg_source copying_runtime 10 "wifi" None
       (Some {[ "type" := PInt 1; "n_items" := PInt 3 ]}) None three_elements
     = (Raised (KeyError "path"), three_elements).
Proof.
  assert (Hms : msg_spec_ready (default DEFAULT_MESSAGE_SPEC None)
                  (PStr "hello world") "hello world" 300)
    by (repeat split; reflexivity).
  repeat apply conj.
  - apply (proj1 (msg_run_missing_field copying_runtime 10 "wifi"
                    _ None None three_elements)).
    reflexivity.
  - apply (proj1 (proj2 (msg_run_missing_field copying_runtime 10 "wifi"
                           _ None None three_elements))
             (PStr "hello") "hello"); reflexivity.
  - apply (proj1 (proj2 (proj2
             (msg_run_missing_field copying_runtime 10 "wifi"
                None _ None three_elements)) _ _ _ Hms)).
    reflexivity.
  - apply (proj1 (proj2 (proj2 (proj2
             (msg_run_missing_field copying_runtime 10 "wifi"
                None _ None three_elements)) _ _ _ Hms))).
    + now exists (PInt 1).
    + reflexivity.
  - apply (proj2 (proj2 (proj2 (proj2
             (msg_run_missing_field copying_runtime 10 "wifi"
                None _ None three_elements)) _ _ _ Hms)) (PInt 1) 3);
      try reflexivity.
    lia.
Defined.

(** ** Connection descriptors of other shapes *)

Section descriptors.
Variable rt : runtime.

(** X3.  Only the first two entries of a connection descriptor are read:
    whatever its shape (a tuple or list of any length, a string), a
    descriptor other than [None] whose entries 0 and 1 are [p_in] and
    [p_out] makes either entry point behave exactly as with the pair
    (p_in, p_out). *)
Theorem descriptor_read_at_0_and_1 fuel c conn p_in p_out w :
  subscript conn 0 = inr p_in ->
  subscript conn 1 = inr p_out ->
  (forall fs os,
     run_file_source rt fuel c fs os (Some conn) w
     = run_file_source rt fuel c fs os (Some (PTuple [p_in; p_out])) w)
  /\ (forall ms os,
        run_msg_source rt fuel c ms os (Some conn) w
        = run_msg_source rt fuel c ms os (Some (PTuple [p_in; p_out])) w).
Proof.
  intros H0 H1. split.
  - intros fs os. unfold run_file_source.
    do 10 (apply py_bind_ext; intros). apply py_bind_ext_l.
    change (default PNone (Some conn)) with conn.
    change (default PNone (Some (PTuple [p_in; p_out])))
      with (PTuple [p_in; p_out]).
    cbv beta iota.
    change (subscript (PTuple [p_in; p_out]) 0) with (@inr exn _ p_in).
    change (subscript (PTuple [p_in; p_out]) 1) with (@inr exn _ p_out).
    rewrite <- H0, <- H1.
    destruct conn; try reflexivity. discriminate H0.
  - intros ms os. unfold run_msg_source.
    change (default PNone (Some conn)) with conn.
    change (default PNone (Some (PTuple [p_in; p_out])))
      with (PTuple [p_in; p_out]).
    change (subscript (PTuple [p_in; p_out]) 0) with (@inr exn _ p_in).
    change (subscript (PTuple [p_in; p_out]) 1) with (@inr exn _ p_out).
    now rewrite H0, H1.
Qed.
End descriptors.

(** Runs of X3's theorem: a list with a third entry, and a two-letter
    string naming two ports. *)
Lemma descriptor_read_at_0_and_1_witness :
  run_file_source copying_runtime 6 "adder" (Some (in_sig true))
    (Some (out_sig (PInt 1) 5)) (Some (PList [PInt 1; PInt 2; PInt 3]))
    three_elements
  = run_file_source copying_runtime 6 "adder" (Some (in_sig true))
      (Some (out_sig (PInt 1) 5)) (Some (PTuple [PInt 1; PInt 2]))
      three_elements
  /\ run_msg_source copying_runtime 10 "wifi" None
       (Some (out_sig (PInt 1) 3)) (Some (PStr "ab")) three_elements
     = run_msg_source copying_runtime 10 "wifi" None
         (Some (out_sig (PInt 1) 3)) (Some (PTuple [PStr "a"; PStr "b"]))
         three_elements.
Proof.
  split.
  - apply (proj1 (descriptor_read_at_0_and_1 copying_runtime 6 "adder"
                    (PList [PInt 1; PInt 2; PInt 3]) (PInt 1) (PInt 2)
                    three_elements eq_refl eq_refl)).
  - apply (proj2 (descriptor_read_at_0_and_1 copying_runtime 10 "wifi"
                    (PStr "ab") (PStr "a") (PStr "b")
                    three_elements eq_refl eq_refl)).
Defined.

(** ** Failures between building the nodes and running the graph *)

Section wiring_failures.
Variable rt : runtime.

Lemma file_run_built fuel c fs os conn w t path rep t' n opath :
  file_spec_ready rt w (default (DEFAULT_FILE_SPEC rt) fs) t path rep ->
  out_spec_ready rt (default (DEFAULT_OUT_SPEC rt) os) t' n opath ->
  run_file_source rt fuel c fs os conn w
  = (top <- match default PNone conn with
            | PNone =>
                gr.connect rt gr.top_block
                  [gr.Blk (FileSource t path rep); gr.Blk (Component c);
                   gr.Blk (Head t' n); gr.Blk (FileSink t' opath)]
            | _ =>
                c0 <- lift (subscript (default PNone conn) 0) ;;
                top <- gr.connect rt gr.top_block
                         [gr.Blk (FileSource t path rep);
                          gr.At (Component c) c0] ;;
                c1 <- lift (subscript (default PNone conn) 1) ;;
                top <- gr.connect rt top
                         [gr.At (Component c) c1; gr.Blk (Head t' n)] ;;
                gr.connect rt top
                  [gr.Blk (Head t' n); gr.Blk (FileSink t' opath)]
            end ;;
     k <- getitem (default (DEFAULT_OUT_SPEC rt) os) "n_items" ;;
     gr.run rt fuel top k) (created opath w).
Proof.
  intros (Ht & Hp & Hr & Hs & Hf) (Ht' & Hn & Hp' & Hs' & Hn0 & Hw).
  unfold run_file_source.
  fwd getitem_some. fwd getitem_some. fwd getitem_some.
  fwd file_source_ready.
  fwd getitem_some. fwd getitem_some. fwd head_ready.
  fwd getitem_some. fwd getitem_some. fwd file_sink_ready.
  reflexivity.
Qed.

Lemma msg_run_built fuel c ms os conn w m msg period t' n opath :
  msg_spec_ready (default DEFAULT_MESSAGE_SPEC ms) m msg period ->
  out_spec_ready rt (default (DEFAULT_OUT_SPEC rt) os) t' n opath ->
  run_msg_source rt fuel c ms os conn w
  = (c0 <- lift (subscript (default PNone conn) 0) ;;
     top <- gr.msg_connect rt gr.top_block
              (MessageStrobe msg period, PStr "strobe") (Component c, c0) ;;
     c1 <- lift (subscript (default PNone conn) 1) ;;
     top <- gr.connect rt top
              [gr.At (Component c) c1; gr.At (Head t' n) (PInt 0)] ;;
     top <- gr.connect rt top
              [gr.Blk (Head t' n); gr.Blk (FileSink t' opath)] ;;
     k <- getitem (default (DEFAULT_OUT_SPEC rt) os) "n_items" ;;
     gr.start rt top k ;;;
     while fuel
       (i <- gr.nitems_written rt (Head t' n) 0 ;;
        k <- getitem (default (DEFAULT_OUT_SPEC rt) os) "n_items" ;;
        py_lt i k)
       (time.sleep rt one_millisecond) ;;;
     print "Completed simulation") (created opath w).
Proof.
  intros (Hm & Hj & Hd) (Ht' & Hn & Hp' & Hs' & Hn0 & Hw).
  unfold run_msg_source.
  fwd getitem_some. rewrite Hj. unfold lift at 1.
  unfold py_bind at 1. unfold py_ret at 1.
  fwd getitem_some.
  unfold py_bind at 1. unfold blocks.message_strobe at 1.
  unfold py_ret at 1. unfold pmt.intern.
  fwd getitem_some. fwd getitem_some. fwd head_ready.
  fwd getitem_some. fwd getitem_some. fwd file_sink_ready.
  reflexivity.
Qed.

(** X4.  A connection descriptor that cannot be subscripted at 0 or at 1
    (too short, or not a sequence) makes the call raise the exception of
    that subscript, on otherwise valid arguments, once the nodes are built:
    the output file has been emptied and no graph has run.  An empty tuple
    is a descriptor, not the absence of one. *)
Theorem short_descriptor_fails_at_wiring fuel c os conn w t' n opath e :
  out_spec_ready rt (default (DEFAULT_OUT_SPEC rt) os) t' n opath ->
  (forall fs t path rep,
     file_spec_ready rt w (default (DEFAULT_FILE_SPEC rt) fs) t path rep ->
     (default PNone conn <> PNone ->
      subscript (default PNone conn) 0 = inl e ->
      run_file_source rt fuel c fs os conn w = (Raised e, created opath w))
     /\ (forall p_in,
           subscript (default PNone conn) 0 = inr p_in ->
           admits rt (FileSource t path rep, PInt 0) (Component c, p_in)
           = true ->
           subscript (default PNone conn) 1 = inl e ->
           run_file_source rt fuel c fs os conn w
           = (Raised e, created opath w)))
  /\ (forall ms m msg period,
        msg_spec_ready (default DEFAULT_MESSAGE_SPEC ms) m msg period ->
        (subscript (default PNone conn) 0 = inl e ->
         run_msg_source rt fuel c ms os conn w = (Raised e, created opath w))
        /\ (forall p_in,
              subscript (default PNone conn) 0 = inr p_in ->
              admits_msg rt (MessageStrobe msg period, PStr "strobe")
                         (Component c, p_in) = true ->
              subscript (default PNone conn) 1 = inl e ->
              run_msg_source rt fuel c ms os conn w
              = (Raised e, created opath w))).
Proof.
  intros Hos. split.
  - intros fs t path rep Hfs.
    rewrite (file_run_built _ _ _ _ _ _ _ _ _ _ _ _ Hfs Hos). split.
    + intros Hc H0. unfold py_bind at 1.
      destruct (default PNone conn); try (now destruct Hc);
        unfold py_bind at 1; now rewrite H0.
    + intros p_in H0 Ha H1. unfold py_bind at 1.
      assert (Hc : default PNone conn <> PNone).
      { intros Hc. rewrite Hc in H0. discriminate H0. }
      destruct (default PNone conn); try (now destruct Hc);
        unfold py_bind at 1; rewrite H0; unfold lift at 1;
        unfold py_ret at 1; unfold py_bind at 1;
        unfold gr.connect, gr.connect_from, gr.coerce_endpoint;
        unfold py_bind at 1;
        rewrite (connect1_ready rt _ _ _ _ Ha);
        unfold py_ret at 1; unfold py_ret at 1;
        unfold py_bind at 1; now rewrite H1.
  - intros ms m msg period Hms.
    rewrite (msg_run_built _ _ _ _ _ _ _ _ _ _ _ _ Hms Hos). split.
    + intros H0. unfold py_bind at 1. now rewrite H0.
    + intros p_in H0 Ha H1. rewrite H0. unfold lift at 1.
      unfold py_bind at 1. unfold py_ret at 1.
      fwd msg_connect_ready.
      unfold py_bind at 1. now rewrite H1.
Qed.
End wiring_failures.

(** Runs of X4's theorem: the empty tuple, and a one-element tuple. *)
Lemma short_descriptor_fails_at_wiring_witness :
  run_file_source copying_runtime 6 "adder" (Some (in_sig true))
    (Some (out_sig (PInt 1) 5)) (Some (PTuple [])) three_elements
  = (Raised IndexError, created "/tmp/output.byte" three_elements)
  /\ run_file_source copying_runtime 6 "adder" (Some (in_sig true))
       (Some (out_sig (PInt 1) 5)) (Some (PTuple [PInt 0])) three_elements
     = (Raised IndexError, created "/tmp/output.byte" three_elements)
  /\ run_msg_source copying_runtime 10 "wifi" None
       (Some (out_sig (PInt 1) 3)) (Some (PInt 7)) three_elements
     = (Raised TypeError, created "/tmp/output.byte" three_elements)
  /\ run_msg_source copying_runtime 10 "wifi" None
       (Some (out_sig (PInt 1) 3)) (Some (PTuple [PStr "in"])) three_elements
     = (Raised IndexError, created "/tmp/output.byte" three_elements).
Proof.
  assert (Hos5 : out_spec_ready copying_runtime
                   (default (DEFAULT_OUT_SPEC copying_runtime)
                            (Some (out_sig (PInt 1) 5)))
                   (PInt 1) 5 "/tmp/output.byte")
    by (repeat split; try reflexivity; lia).
  assert (Hos3 : out_spec_ready copying_runtime
                   (default (DEFAULT_OUT_SPEC copying_runtime)
                            (Some (out_sig (PInt 1) 3)))
                   (PInt 1) 3 "/tmp/output.byte")
    by (repeat split; try reflexivity; lia).
  assert (Hfs : file_spec_ready copying_runtime three_elements
                  (default (DEFAULT_FILE_SPEC copying_runtime)
                           (Some (in_sig true)))
                  (PInt 1) "/tmp/input.byte" true)
    by (repeat split; try reflexivity; now exists [7; 8; 9]).
  assert (Hms : msg_spec_ready (default DEFAULT_MESSAGE_SPEC None)
                  (PStr "hello world") "hello world" 300)
    by (repeat split; reflexivity).
  split; [ | split; [ | split]].
  - apply (proj1 (proj1 (short_descriptor_fails_at_wiring copying_runtime
                           6 "adder" _ (Some (PTuple [])) three_elements
                           _ _ _ IndexError Hos5) _ _ _ _ Hfs)).
    + discriminate.
    + reflexivity.
  - apply (proj2 (proj1 (short_descriptor_fails_at_wiring copying_runtime
                           6 "adder" _ (Some (PTuple [PInt 0]))
                           three_elements _ _ _ IndexError Hos5)
                        _ _ _ _ Hfs) (PInt 0)); reflexivity.
  - apply (proj1 (proj2 (short_descriptor_fails_at_wiring copying_runtime
                           10 "wifi" _ (Some (PInt 7)) three_elements
                           _ _ _ TypeError Hos3) _ _ _ _ Hms)).
    reflexivity.
  - apply (proj2 (proj2 (short_descriptor_fails_at_wiring copying_runtime
                           10 "wifi" _ (Some (PTuple [PStr "in"]))
                           three_elements _ _ _ IndexError Hos3)
                        _ _ _ _ Hms) (PStr "in")); reflexivity.
Defined.

(** ** What a call leaves alone *)

Section frames.
Variable R : world -> world -> Prop.
Hypothesis R_refl : forall w, R w w.
Hypothesis R_trans : forall w1 w2 w3, R w1 w2 -> R w2 w3 -> R w1 w3.

Lemma stays_bind {A B} (m : Py A) (P : A -> Prop) (k : A -> Py B)
    (Q : B -> Prop) :
  stays_within R m P -> (forall a, P a -> stays_within R (k a) Q) ->
  stays_within R (py_bind m k) Q.
Proof.
  intros Hm Hk w r w' H. unfold py_bind in H.
  destruct (m w) as [[a | e | ] w1] eqn:E.
  - destruct (Hm _ _ _ E) as [HR HP].
    destruct (Hk a (HP a eq_refl) _ _ _ H) as [HR' HQ].
    split; [now apply R_trans with w1 | exact HQ].
  - injection H as <- <-. destruct (Hm _ _ _ E) as [HR _].
    split; [exact HR | discriminate].
  - injection H as <- <-. destruct (Hm _ _ _ E) as [HR _].
    split; [exact HR | discriminate].
Qed.

Lemma stays_post {A} (m : Py A) (P Q : A -> Prop) :
  stays_within R m P -> (forall a, P a -> Q a) -> stays_within R m Q.
Proof.
  intros Hm HPQ w r w' H. destruct (Hm _ _ _ H) as [HR HP].
  split; [exact HR | ]. intros a Ha. now apply HPQ, HP.
Qed.

(** A step that leaves the world as it is. *)
Lemma stays_pure {A} (m : Py A) (P : A -> Prop) :
  stays_within eq m P -> stays_within R m P.
Proof.
  intros Hm w r w' H. destruct (Hm _ _ _ H) as [<- HP].
  split; [apply R_refl | exact HP].
Qed.

Lemma raises_bind {A B} (m : Py A) (P : A -> Prop) (k : A -> Py B) :
  stays_within R m P -> (forall a, P a -> raises_within R (k a)) ->
  raises_within R (py_bind m k).
Proof.
  intros Hm Hk w e w' H. unfold py_bind in H.
  destruct (m w) as [[a | e' | ] w1] eqn:E.
  - destruct (Hm _ _ _ E) as [HR HP].
    apply R_trans with w1; [exact HR | ].
    now apply (Hk a (HP a eq_refl) _ _ _ H).
  - injection H as <- <-. now destruct (Hm _ _ _ E).
  - discriminate.
Qed.
End frames.

Lemma pure_getitem (d : gmap string pyval) k :
  stays_within eq (getitem d k) (fun v => d !! k = Some v).
Proof.
  intros w r w' H. unfold getitem, py_ret, raise in H.
  destruct (d !! k) as [v | ]; injection H as <- <-;
    (split; [reflexivity | ]); intros a Ha; congruence.
Qed.

Lemma pure_lift {A} (x : exn + A) :
  stays_within eq (lift x) (fun a => x = inr a).
Proof.
  intros w r w' H. unfold lift, py_ret, raise in H.
  destruct x; injection H as <- <-;
    (split; [reflexivity | ]); intros a' Ha; congruence.
Qed.

Lemma pure_ret {A} (a : A) : stays_within eq (py_ret a) (eq a).
Proof.
  intros w r w' H. injection H as <- <-.
  split; [reflexivity | ]. intros a' Ha. congruence.
Qed.

Lemma pure_file_source rt t p r :
  stays_within eq (blocks.file_source rt t p r)
    (fun b => exists path rep, b = FileSource t path rep).
Proof.
  intros w res w' H. unfold blocks.file_source, raise in H.
  destruct p, (blocks.as_bool r), (supported rt t);
    try (injection H as <- <-; split; [reflexivity | discriminate]).
  destruct (files w !! s); injection H as <- <-;
    (split; [reflexivity | ]); intros a Ha; [ | discriminate].
  injection Ha as <-. eauto.
Qed.

Lemma pure_head rt t v :
  stays_within eq (blocks.head rt t v)
    (fun b => exists n, v = PInt n /\ b = Head t n).
Proof.
  intros w res w' H. unfold blocks.head, raise, py_ret in H.
  destruct v; try (injection H as <- <-; split; [reflexivity | discriminate]).
  destruct (supported rt t && (0 <=? z)); injection H as <- <-;
    (split; [reflexivity | ]); intros a Ha; [ | discriminate].
  injection Ha as <-. eauto.
Qed.

Lemma pure_message_strobe msg v :
  stays_within eq (blocks.message_strobe msg v)
    (fun b => exists period, b = MessageStrobe msg period).
Proof.
  intros w res w' H. unfold blocks.message_strobe, raise, py_ret in H.
  destruct v; injection H as <- <-; (split; [reflexivity | ]);
    intros a Ha; try discriminate.
  injection Ha as <-. eauto.
Qed.

Lemma pure_connect1 rt top src dst :
  stays_within eq (gr.connect1 rt top src dst)
    (eq {| stream_edges := stream_edges top ++ [(src, dst)];
           msg_edges := msg_edges top |}).
Proof.
  intros w res w' H. unfold gr.connect1, raise, py_ret in H.
  destruct (admits rt src dst); injection H as <- <-;
    (split; [reflexivity | ]); intros a Ha; congruence.
Qed.

Lemma pure_msg_connect rt top src dst :
  stays_within eq (gr.msg_connect rt top src dst)
    (eq {| stream_edges := stream_edges top;
           msg_edges := msg_edges top ++ [(src, dst)] |}).
Proof.
  intros w res w' H. unfold gr.msg_connect, raise, py_ret in H.
  destruct (admits_msg rt src dst); injection H as <- <-;
    (split; [reflexivity | ]); intros a Ha; congruence.
Qed.

(** The file sink creates its file and nothing else. *)
Lemma stays_file_sink (R : world -> world -> Prop) rt t p :
  (forall w, R w w) ->
  (forall path w, p = PStr path -> R w (created path w)) ->
  stays_within R (blocks.file_sink rt t p)
    (fun b => exists path, p = PStr path /\ b = FileSink t path).
Proof.
  intros R_refl Hc w res w' H. unfold blocks.file_sink, raise in H.
  destruct p; try (injection H as <- <-; split; [apply R_refl | discriminate]).
  destruct (supported rt t), (writable rt s);
    try (injection H as <- <-; split; [apply R_refl | discriminate]).
  injection H as <- <-. split; [now apply Hc | ].
  intros a Ha. injection Ha as <-. eauto.
Qed.

Ltac stay R_trans lem :=
  eapply (stays_bind _ R_trans); [ apply lem | intros ? ? ].

Ltac stay_pure R_refl R_trans lem :=
  eapply (stays_bind _ R_trans);
  [ apply (stays_pure _ R_refl), lem | intros ? ? ].

Lemma pure_connect2 rt top p q :
  stays_within eq (gr.connect rt top [p; q])
    (eq {| stream_edges :=
             stream_edges top
             ++ [(gr.coerce_endpoint p, gr.coerce_endpoint q)];
           msg_edges := msg_edges top |}).
Proof.
  pose proof (@eq_trans world) as Htrans.
  unfold gr.connect, gr.connect_from.
  stay Htrans pure_connect1. subst. apply pure_ret.
Qed.

Lemma pure_file_wiring rt src c head sink conn :
  stays_within eq
    match conn with
    | PNone =>
        gr.connect rt gr.top_block
          [gr.Blk src; gr.Blk (Component c); gr.Blk head; gr.Blk sink]
    | _ =>
        c0 <- lift (subscript conn 0) ;;
        top <- gr.connect rt gr.top_block
                 [gr.Blk src; gr.At (Component c) c0] ;;
        c1 <- lift (subscript conn 1) ;;
        top <- gr.connect rt top [gr.At (Component c) c1; gr.Blk head] ;;
        gr.connect rt top [gr.Blk head; gr.Blk sink]
    end
    (fun g => exists p_in p_out, g = file_pipeline src c p_in p_out head sink).
Proof.
  pose proof (@eq_trans world) as Htrans.
  destruct conn.
  1: { unfold gr.connect, gr.connect_from, gr.coerce_endpoint.
       stay Htrans pure_connect1. stay Htrans pure_connect1.
       stay Htrans pure_connect1. subst.
       eapply stays_post; [apply pure_ret | ].
       intros g <-. now exists (PInt 0), (PInt 0). }
  all: stay Htrans (@pure_lift pyval); stay Htrans pure_connect2;
    stay Htrans (@pure_lift pyval); stay Htrans pure_connect2; subst;
    (eapply stays_post; [apply pure_connect2 | ]);
    intros g <-; eexists _, _; reflexivity.
Qed.

Section file_frame.
Variable rt : runtime.
Variable out_spec : option (gmap string pyval).

Let os : gmap string pyval := default (DEFAULT_OUT_SPEC rt) out_spec.

(** What the steps of a file-driven run keep, one after the other. *)
Let R (w w' : world) : Prop :=
  running w' = running w
  /\ (forall p, os !! "path" <> Some (PStr p) ->
                files w' !! p = files w !! p)
  /\ only_ran w w'.

Lemma file_frame_refl w : R w w.
Proof.
  repeat split. exists []. now rewrite app_nil_r.
Qed.

Lemma file_frame_trans w1 w2 w3 : R w1 w2 -> R w2 w3 -> R w1 w3.
Proof.
  intros (Hr & Hf & evs & Ht & He) (Hr' & Hf' & evs' & Ht' & He').
  split; [congruence | split].
  - intros p Hp. now rewrite Hf', Hf.
  - exists (evs ++ evs'). rewrite Ht', Ht, app_assoc.
    split; [reflexivity | now apply Forall_app].
Qed.

Lemma file_frame_created opath w :
  os !! "path" = Some (PStr opath) -> R w (created opath w).
Proof.
  intros Ho. split; [reflexivity | split].
  - intros p Hp. unfold created. cbn [files].
    apply lookup_insert_ne. intros <-. now destruct Hp.
  - exists []. unfold created. cbn [trace]. now rewrite app_nil_r.
Qed.

Lemma file_frame_run fuel t path rep c p_in p_out t' n opath v :
  os !! "path" = Some (PStr opath) ->
  stays_within R
    (gr.run rt fuel
       (file_pipeline (FileSource t path rep) c p_in p_out
                      (Head t' n) (FileSink t' opath)) v)
    (fun _ => True).
Proof.
  intros Ho w r w' H. split; [ | trivial].
  unfold gr.run, raise in H.
  destruct v; try (injection H as <- <-; apply file_frame_refl).
  destruct (runnable rt _);
    [ | injection H as <- <-; apply file_frame_refl].
  unfold py_bind, emit in H. cbn [files running clock trace] in H.
  rewrite file_pipeline_written in H.
  destruct (gr.pump _ _ _); cbn [option_map] in H; injection H as <- <-.
  - split; [reflexivity | split]; cbn [files running clock trace].
    + intros p Hp. apply lookup_insert_ne. intros <-. now destruct Hp.
    + eexists. split; [reflexivity | ]. now repeat constructor.
  - split; [reflexivity | split]; cbn [files running clock trace].
    + reflexivity.
    + eexists. split; [reflexivity | ]. now repeat constructor.
Qed.

Lemma file_run_frame fuel c fs conn :
  stays_within R (run_file_source rt fuel c fs out_spec conn)
               (fun _ => True).
Proof.
  unfold run_file_source. fold os.
  stay_pure file_frame_refl file_frame_trans pure_getitem.
  stay_pure file_frame_refl file_frame_trans pure_getitem.
  stay_pure file_frame_refl file_frame_trans pure_getitem.
  stay_pure file_frame_refl file_frame_trans pure_file_source.
  stay_pure file_frame_refl file_frame_trans pure_getitem.
  stay_pure file_frame_refl file_frame_trans pure_getitem.
  stay_pure file_frame_refl file_frame_trans pure_head.
  stay_pure file_frame_refl file_frame_trans pure_getitem.
  stay_pure file_frame_refl file_frame_trans pure_getitem.
  eapply (stays_bind _ file_frame_trans).
  { apply stays_file_sink; [apply file_frame_refl | ].
    intros opath w0 ->. now apply file_frame_created. }
  intros ? ?.
  stay_pure file_frame_refl file_frame_trans pure_file_wiring.
  stay_pure file_frame_refl file_frame_trans pure_getitem.
  cbv beta in *.
  repeat match goal with
         | H : exists _, _ |- _ => destruct H
         | H : _ /\ _ |- _ => destruct H
         end.
  simplify_eq. now apply file_frame_run.
Qed.

(** X5.  Called while no other graph is running, a file-driven run
    changes no file but the one at the output path, whatever it ends
    with (a return, an exception, or no end at all), and adds to the trace
    nothing but executions of a graph; once it has returned or raised, no
    graph is running.  The input file, in particular, is as before unless
    it is the output file. *)
Theorem file_run_touches_only_output fuel c fs conn w p :
  running w = [] ->
  default (DEFAULT_OUT_SPEC rt) out_spec !! "path" <> Some (PStr p) ->
  let r := fst (run_file_source rt fuel c fs out_spec conn w) in
  let w' := snd (run_file_source rt fuel c fs out_spec conn w) in
  files w' !! p = files w !! p
  /\ only_ran w w'
  /\ (r <> Hung -> running w' = []).
Proof.
  intros Hrun Hp r w'.
  destruct (file_run_frame fuel c fs conn w r w') as [(Hr & Hf & Ht) _];
    [apply surjective_pairing | ].
  split; [now apply Hf | split; [exact Ht | ]].
  intros _. now rewrite Hr.
Qed.
End file_frame.

(** A run of X5's theorem: the input file is as it was. *)
Lemma file_run_touches_only_output_witness :
  files (snd (run_file_source copying_runtime 6 "multiply_const"
                (Some (in_sig true)) (Some (out_sig (PInt 1) 5)) None
                three_elements))
    !! "/tmp/input.byte"
  = files three_elements !! "/tmp/input.byte".
Proof.
  apply (file_run_touches_only_output copying_runtime
           (Some (out_sig (PInt 1) 5)) 6 "multiply_const"
           (Some (in_sig true)) None three_elements "/tmp/input.byte").
  - reflexivity.
  - vm_compute. discriminate.
Defined.

Ltac raising R_trans lem :=
  eapply (raises_bind _ R_trans); [ apply lem | intros ? ? ].

Ltac raising_pure R_refl R_trans lem :=
  eapply (raises_bind _ R_trans);
  [ apply (stays_pure _ R_refl), lem | intros ? ? ].

Section msg_frame.
Variable rt : runtime.
Variable out_spec : option (gmap string pyval).

Let os : gmap string pyval := default (DEFAULT_OUT_SPEC rt) out_spec.
Let R (w w' : world) : Prop := quiet w w' /\ only_output os w w'.

Lemma msg_frame_refl w : R w w.
Proof. repeat split. Qed.

Lemma msg_frame_trans w1 w2 w3 : R w1 w2 -> R w2 w3 -> R w1 w3.
Proof.
  intros [Hq (Hr & Hc & Hf)] [Hq' (Hr' & Hc' & Hf')].
  split; [now apply quiet_trans with w2 | ].
  repeat split; try congruence.
  intros p Hp. now rewrite Hf', Hf.
Qed.

Lemma msg_frame_created opath w :
  os !! "path" = Some (PStr opath) -> R w (created opath w).
Proof.
  intros Ho. repeat split.
  intros p Hp. unfold created. cbn [files].
  apply lookup_insert_ne. intros <-. now destruct Hp.
Qed.

(** Once the graph is started, nothing raises any more. *)
Lemma start_then_poll_raises fuel g head n v :
  os !! "n_items" = Some (PInt n) ->
  raises_within R
    (gr.start rt g v ;;;
     while fuel
       (i <- gr.nitems_written rt head 0 ;;
        k <- getitem os "n_items" ;;
        py_lt i k)
       (time.sleep rt one_millisecond) ;;;
     print "Completed simulation").
Proof.
  intros Hn w e w' H. unfold py_bind at 1 in H.
  unfold gr.start, raise in H.
  destruct v; try (injection H as <- <-; apply msg_frame_refl).
  destruct (runnable rt g); [ | injection H as <- <-; apply msg_frame_refl].
  unfold py_bind at 1 in H.
  match type of H with
  | context [while fuel _ _ ?w1] =>
      destruct (while_poll_cases rt head os n Hn fuel w1)
        as [(k & _ & _ & _ & Hrun) | (_ & Hrun)]
  end; rewrite Hrun in H; discriminate H.
Qed.

Lemma msg_run_raises_within fuel c ms conn :
  raises_within R (run_msg_source rt fuel c ms out_spec conn).
Proof.
  unfold run_msg_source. fold os.
  raising_pure msg_frame_refl msg_frame_trans pure_getitem.
  raising_pure msg_frame_refl msg_frame_trans (@pure_lift string).
  raising_pure msg_frame_refl msg_frame_trans pure_getitem.
  raising_pure msg_frame_refl msg_frame_trans pure_message_strobe.
  raising_pure msg_frame_refl msg_frame_trans pure_getitem.
  raising_pure msg_frame_refl msg_frame_trans pure_getitem.
  raising_pure msg_frame_refl msg_frame_trans pure_head.
  raising_pure msg_frame_refl msg_frame_trans pure_getitem.
  raising_pure msg_frame_refl msg_frame_trans pure_getitem.
  eapply (raises_bind _ msg_frame_trans).
  { apply stays_file_sink; [apply msg_frame_refl | ].
    intros opath w0 ->. now apply msg_frame_created. }
  intros ? ?.
  raising_pure msg_frame_refl msg_frame_trans (@pure_lift pyval).
  raising_pure msg_frame_refl msg_frame_trans pure_msg_connect.
  raising_pure msg_frame_refl msg_frame_trans (@pure_lift pyval).
  raising_pure msg_frame_refl msg_frame_trans pure_connect2.
  raising_pure msg_frame_refl msg_frame_trans pure_connect2.
  raising_pure msg_frame_refl msg_frame_trans pure_getitem.
  cbv beta in *.
  repeat match goal with
         | H : exists _, _ |- _ => destruct H
         | H : _ /\ _ |- _ => destruct H
         end.
  simplify_eq. eapply start_then_poll_raises. eassumption.
Qed.

(** X6.  An exception from a message-driven run always comes from before
    the graph is started: nothing is running that was not, nothing was
    polled or printed, no time has passed, and no file but the one at the
    output path has changed.  A call that does not end with an exception,
    whether it returns or is still polling, has started its graph, has
    stopped nothing since, and the graph is at the head of the running
    ones. *)
Theorem msg_run_raises_before_start fuel c ms conn w :
  let r := fst (run_msg_source rt fuel c ms out_spec conn w) in
  let w' := snd (run_msg_source rt fuel c ms out_spec conn w) in
  (forall e, r = Raised e ->
     quiet w w' /\ only_output (default (DEFAULT_OUT_SPEC rt) out_spec) w w')
  /\ ((forall e, r <> Raised e) ->
      exists g n evs,
        trace w' = trace w ++ Started g n :: evs
        /\ Forall (fun ev => is_stop ev = false) evs
        /\ running w' = g :: running w).
Proof.
  intros r w'. split.
  - intros e He.
    apply (msg_run_raises_within fuel c ms conn w e w').
    rewrite <- He. apply surjective_pairing.
  - intros Hr.
    assert (H : run_msg_source rt fuel c ms out_spec conn w = (r, w'))
      by apply surjective_pairing.
    apply run_msg_source_inv in H; [ | assumption].
    destruct H as (m & msg & period & t' & n & opath & p_in & p_out & H).
    destruct H as (_ & Hos & _ & _ & _ & H).
    destruct Hos as (_ & Hn & _).
    destruct (poll_phase_cases rt msg period c p_in p_out t' n opath
                fuel _ w Hn)
      as [(k & _ & _ & _ & _ & Htr & Hrun & _) | (_ & _ & Htr & Hrun & _)];
      rewrite H in Htr, Hrun; cbn [fst snd] in Htr, Hrun;
      eexists _, _, _; (split; [exact Htr | split; [ | exact Hrun]]).
    + apply Forall_app. split; [apply waiting_no_stop | ].
      now repeat constructor.
    + apply waiting_no_stop.
Qed.

Lemma napped_other msg period c p_in p_out t' n opath k : forall w p,
  running w = [msg_pipeline (MessageStrobe msg period) c p_in p_out
                            (Head t' n) (FileSink t' opath)] ->
  p <> opath ->
  files (napped rt (Head t' n) k w) !! p = files w !! p.
Proof.
  induction k as [ | k IH]; intros w p Hrun Hp; [reflexivity | ].
  rewrite napped_succ. rewrite IH; [ | exact Hrun | exact Hp].
  unfold poll_then_sleep. cbn [snd files running time.sleep].
  cbn [gr.nitems_written Z.eqb snd files running].
  rewrite Hrun. cbn [foldr].
  rewrite (msg_pipeline_flush rt msg period c p_in p_out t' n opath).
  apply lookup_insert_ne. congruence.
Qed.

(** X7.  Called while no other graph is running, a message-driven run
    changes no file but the one at the output path, whatever it ends
    with and however long it polls. *)
Theorem msg_run_touches_only_output fuel c ms conn w p :
  running w = [] ->
  default (DEFAULT_OUT_SPEC rt) out_spec !! "path" <> Some (PStr p) ->
  files (snd (run_msg_source rt fuel c ms out_spec conn w)) !! p
  = files w !! p.
Proof.
  intros Hrun Hp.
  destruct (run_msg_source rt fuel c ms out_spec conn w) as [r w'] eqn:H.
  cbn [snd].
  assert (Hcases : (exists e, r = Raised e) \/ forall e, r <> Raised e).
  { destruct r; [right | left | right]; try (intros ?; discriminate).
    eauto. }
  destruct Hcases as [[e ->] | Hr].
  - apply (msg_run_raises_within fuel c ms conn w e w' H). exact Hp.
  - apply run_msg_source_inv in H; [ | assumption].
    destruct H as (m & msg & period & t' & n & opath & p_in & p_out & H).
    destruct H as (_ & Hos & _ & _ & _ & H).
    destruct Hos as (_ & Hn & Hpath & _).
    assert (Hne : p <> opath) by (intros ->; now destruct Hp).
    set (g := msg_pipeline (MessageStrobe msg period) c p_in p_out
                           (Head t' n) (FileSink t' opath)) in *.
    assert (Hw1 : forall k,
              files (napped rt (Head t' n) k
                       (started rt g n (created opath w))) !! p
              = files w !! p).
    { intros k. unfold g.
      rewrite (napped_other msg period c p_in p_out t' n opath);
        [ | | exact Hne].
      - unfold started, created. cbn [files clock].
        rewrite (msg_pipeline_flush rt msg period c p_in p_out t' n opath).
        rewrite !lookup_insert_ne by congruence. reflexivity.
      - unfold started, created. cbn [running]. now rewrite Hrun. }
    unfold py_bind at 1 in H.
    destruct (while_poll_cases rt (Head t' n)
                (default (DEFAULT_OUT_SPEC rt) out_spec) n Hn fuel
                (started rt g n (created opath w)))
      as [(k & _ & _ & _ & Hw) | (_ & Hw)];
      rewrite Hw in H; injection H as <- <-.
    + unfold print, emit, polled. cbn [snd files gr.nitems_written Z.eqb].
      apply Hw1.
    + apply Hw1.
Qed.
End msg_frame.

(** Runs of X6's theorem: a descriptor that is an integer, and the
    descriptor ("in", 0). *)
Lemma msg_run_raises_before_start_witness :
  quiet three_elements
    (snd (run_msg_source copying_runtime 10 "wifi" None
            (Some (out_sig (PInt 1) 3)) (Some (PInt 7)) three_elements))
  /\ exists g,
       running (snd (run_msg_source copying_runtime 10 "wifi" None
                       (Some (out_sig (PInt 1) 3)) (Some in_0)
                       three_elements))
       = g :: running three_elements.
Proof.
  split.
  - apply (proj1 (msg_run_raises_before_start copying_runtime
                    (Some (out_sig (PInt 1) 3)) 10 "wifi" None
                    (Some (PInt 7)) three_elements) TypeError).
    vm_compute. reflexivity.
  - destruct (proj2 (msg_run_raises_before_start copying_runtime
                       (Some (out_sig (PInt 1) 3)) 10 "wifi" None
                       (Some in_0) three_elements))
      as (g & n & evs & _ & _ & Hrun).
    + intros e. vm_compute. discriminate.
    + now exists g.
Defined.

(** A run of X7's theorem: the input file of another run is left as it
    is. *)
Lemma msg_run_touches_only_output_witness :
  files (snd (run_msg_source copying_runtime 10 "wifi" None
                (Some (out_sig (PInt 1) 3)) (Some in_0) three_elements))
    !! "/tmp/input.byte"
  = files three_elements !! "/tmp/input.byte".
Proof.
  apply (msg_run_touches_only_output copying_runtime
           (Some (out_sig (PInt 1) 3)) 10 "wifi" None (Some in_0)
           three_elements "/tmp/input.byte").
  - reflexivity.
  - vm_compute. discriminate.
Defined.

(** ** When a file-driven run ends *)

Lemma pump_stalls fuel : forall (s : stream) i j,
  (forall k, (k < j)%nat -> exists x, s (i + k)%nat = Item x) ->
  s (i + j)%nat = Never ->
  gr.pump fuel s i = None.
Proof.
  induction fuel as [ | fuel IH]; intros s i j Hitems Hstall; [reflexivity | ].
  simpl. destruct j as [ | j].
  - rewrite Nat.add_0_r in Hstall. now rewrite Hstall.
  - destruct (Hitems 0%nat) as [x Hx]; [lia | ].
    rewrite Nat.add_0_r in Hx. rewrite Hx.
    rewrite (IH s (S i) j); [reflexivity | | ].
    + intros k Hk. destruct (Hitems (S k)) as [y Hy]; [lia | ].
      exists y. now rewrite Nat.add_succ_r in Hy.
    + now rewrite Nat.add_succ_r in Hstall.
Qed.

Section file_run_end.
Variable rt : runtime.
Variables (c : string) (fs os : option (gmap string pyval)).
Variables (conn : option pyval) (w : world).
Variables (t : pyval) (path : string) (rep : bool).
Variables (t' : pyval) (n : Z) (opath : string) (p_in p_out : pyval).
Hypothesis fs_ready :
  file_spec_ready rt w (default (DEFAULT_FILE_SPEC rt) fs) t path rep.
Hypothesis os_ready :
  out_spec_ready rt (default (DEFAULT_OUT_SPEC rt) os) t' n opath.
Hypothesis ports : ports_of (default PNone conn) p_in p_out.
Hypothesis g_ready :
  graph_ready rt (file_pipeline (FileSource t path rep) c p_in p_out
                                (Head t' n) (FileSink t' opath)).

Let s : stream :=
  component_output rt (<[opath := []]> (files w)) path rep c p_in p_out.

(** X8.  On valid arguments, when the component ends its stream after
    [j] elements, fewer than [n_items], the run returns as soon as
    it is followed for more than [j] steps, and the output file holds
    exactly those [j] elements. *)
Theorem file_run_ends_with_component (j : nat) :
  Z.of_nat j < n ->
  (forall i, (i < j)%nat -> exists x, s i = Item x) ->
  s j = Eos ->
  forall fuel, (j < fuel)%nat ->
  exists w' content,
    run_file_source rt fuel c fs os conn w = (Done tt, w')
    /\ files w' !! opath = Some content
    /\ length content = j
    /\ forall i x, content !! i = Some x -> s i = Item x.
Proof.
  intros Hj Hitems Hend fuel Hfuel.
  rewrite (run_file_source_ready rt fuel c fs os conn w _ _ _ _ _ _ _ _
             fs_ready os_ready ports g_ready).
  destruct (pump_enough fuel (limit n s) 0 j) as (l & Hl & Hlen).
  - intros i Hi. simpl. unfold limit.
    destruct (Z.ltb_spec (Z.of_nat i) n); [now apply Hitems | lia].
  - simpl. unfold limit.
    destruct (Z.ltb_spec (Z.of_nat j) n); [exact Hend | reflexivity].
  - exact Hfuel.
  - destruct (gr.run rt fuel _ (PInt n) (created opath w))
      as [r w'] eqn:Hrun.
    assert (Hr : forall e, r <> Raised e).
    { destruct g_ready as (_ & _ & Hg).
      eapply run_not_raised; eassumption. }
    apply file_run_done in Hrun; [ | assumption].
    destruct Hrun as [_ Hrun]. fold s in Hrun. rewrite Hl in Hrun.
    destruct Hrun as [-> Hfiles].
    exists w', l. repeat split.
    + rewrite Hfiles. apply lookup_insert_eq.
    + exact Hlen.
    + intros i x Hi. destruct os_ready as (_ & _ & _ & _ & Hn0 & _).
      now apply (proj1 (pump_limit_prefix _ _ _ _ Hl Hn0)).
Qed.

(** X9.  On valid arguments, when the component hands on [j] elements,
    fewer than [n_items], and then neither a further one nor the end of its
    stream, the run does not return and does not raise, however long it is
    followed. *)
Theorem file_run_waits_for_component (j : nat) :
  Z.of_nat j < n ->
  (forall i, (i < j)%nat -> exists x, s i = Item x) ->
  s j = Never ->
  forall fuel, fst (run_file_source rt fuel c fs os conn w) = Hung.
Proof.
  intros Hj Hitems Hstall fuel.
  rewrite (run_file_source_ready rt fuel c fs os conn w _ _ _ _ _ _ _ _
             fs_ready os_ready ports g_ready).
  assert (Hp : gr.pump fuel (limit n s) 0 = None).
  { apply (pump_stalls fuel (limit n s) 0 j).
    - intros i Hi. simpl. unfold limit.
      destruct (Z.ltb_spec (Z.of_nat i) n); [now apply Hitems | lia].
    - simpl. unfold limit.
      destruct (Z.ltb_spec (Z.of_nat j) n); [exact Hstall | lia]. }
  destruct (gr.run rt fuel _ (PInt n) (created opath w))
    as [r w'] eqn:Hrun.
  assert (Hr : forall e, r <> Raised e).
  { destruct g_ready as (_ & _ & Hg).
    eapply run_not_raised; eassumption. }
  apply file_run_done in Hrun; [ | assumption].
  destruct Hrun as [_ Hrun]. fold s in Hrun. rewrite Hp in Hrun.
  exact Hrun.
Qed.
End file_run_end.

(** A run of X8's theorem: three elements, not repeated, five requested. *)
Lemma file_run_ends_with_component_witness :
  exists w' content,
    run_file_source copying_runtime 10 "multiply_const"
      (Some (in_sig false)) (Some (out_sig (PInt 1) 5)) None three_elements
    = (Done tt, w')
    /\ files w' !! "/tmp/output.byte" = Some content
    /\ length content = 3%nat.
Proof.
  destruct (file_run_ends_with_component copying_runtime "multiply_const"
              (Some (in_sig false)) (Some (out_sig (PInt 1) 5)) None
              three_elements (PInt 1) "/tmp/input.byte" false (PInt 1) 5
              "/tmp/output.byte" (PInt 0) (PInt 0))
    with (j := 3%nat) (fuel := 10%nat)
    as (w' & content & Hrun & Hf & Hlen & _).
  - repeat split; try reflexivity. now exists [7; 8; 9].
  - repeat split; try reflexivity. lia.
  - split; reflexivity.
  - repeat split; try reflexivity; repeat constructor.
  - lia.
  - intros i Hi.
    destruct i as [ | [ | [ | i]]]; [eexists; reflexivity .. | lia].
  - reflexivity.
  - lia.
  - now exists w', content.
Defined.

(** A run of X9's theorem: a component that never hands anything on. *)
Lemma file_run_waits_for_component_witness :
  fst (run_file_source idle_runtime 50 "sleeper"
         (Some (in_sig true)) (Some (out_sig (PInt 1) 5)) None
         three_elements) = Hung.
Proof.
  apply (file_run_waits_for_component idle_runtime "sleeper"
           (Some (in_sig true)) (Some (out_sig (PInt 1) 5)) None
           three_elements (PInt 1) "/tmp/input.byte" true (PInt 1) 5
           "/tmp/output.byte" (PInt 0) (PInt 0)) with (j := 0%nat).
  - repeat split; try reflexivity. now exists [7; 8; 9].
  - repeat split; try reflexivity. lia.
  - split; reflexivity.
  - repeat split; try reflexivity; repeat constructor.
  - lia.
  - intros i Hi. lia.
  - reflexivity.
Defined.

(** ** Files that cannot be opened *)

Section unopenable.
Variable rt : runtime.

Lemma file_source_missing t path rep w :
  supported rt t = true -> files w !! path = None ->
  blocks.file_source rt t (PStr path) (PBool rep) w
  = (Raised RuntimeError, w).
Proof.
  intros Hs Hf. unfold blocks.file_source. simpl. now rewrite Hs, Hf.
Qed.

Lemma file_sink_unwritable t path w :
  supported rt t = true -> writable rt path = false ->
  blocks.file_sink rt t (PStr path) w = (Raised RuntimeError, w).
Proof. intros Hs Hw. unfold blocks.file_sink. now rewrite Hs, Hw. Qed.

(** X10.  When there is no file at the input path, a file-driven run
    raises the runtime's error before it touches the output file; when the
    file at the output path cannot be created, either run raises the
    runtime's error.  In both cases the world is as before: nothing was
    created, emptied or run. *)
Theorem unopenable_file_fails_first fuel c w :
  (forall fs os conn t path rep,
     default (DEFAULT_FILE_SPEC rt) fs !! "type" = Some t ->
     default (DEFAULT_FILE_SPEC rt) fs !! "path" = Some (PStr path) ->
     default (DEFAULT_FILE_SPEC rt) fs !! "repeat" = Some (PBool rep) ->
     supported rt t = true ->
     files w !! path = None ->
     run_file_source rt fuel c fs os conn w = (Raised RuntimeError, w))
  /\ (forall os t' n opath,
        default (DEFAULT_OUT_SPEC rt) os !! "type" = Some t' ->
        default (DEFAULT_OUT_SPEC rt) os !! "n_items" = Some (PInt n) ->
        default (DEFAULT_OUT_SPEC rt) os !! "path" = Some (PStr opath) ->
        supported rt t' = true ->
        0 <= n ->
        writable rt opath = false ->
        (forall fs conn t path rep,
           file_spec_ready rt w (default (DEFAULT_FILE_SPEC rt) fs)
                           t path rep ->
           run_file_source rt fuel c fs os conn w
           = (Raised RuntimeError, w))
        /\ (forall ms conn m msg period,
              msg_spec_ready (default DEFAULT_MESSAGE_SPEC ms)
                             m msg period ->
              run_msg_source rt fuel c ms os conn w
              = (Raised RuntimeError, w))).
Proof.
  split.
  - intros fs os conn t path rep Ht Hp Hr Hs Hf.
    unfold run_file_source.
    fwd getitem_some. fwd getitem_some. fwd getitem_some.
    fails_here file_source_missing.
  - intros os t' n opath Ht' Hn Hp' Hs' Hn0 Hw. split.
    + intros fs conn t path rep (Ht & Hp & Hr & Hs & Hf).
      unfold run_file_source.
      fwd getitem_some. fwd getitem_some. fwd getitem_some.
      fwd file_source_ready.
      fwd getitem_some. fwd getitem_some. fwd head_ready.
      fwd getitem_some. fwd getitem_some.
      fails_here file_sink_unwritable.
    + intros ms conn m msg period (Hm & Hj & Hd).
      unfold run_msg_source.
      fwd getitem_some. rewrite Hj. unfold lift at 1.
      unfold py_bind at 1. unfold py_ret at 1.
      fwd getitem_some.
      unfold py_bind at 1. unfold blocks.message_strobe at 1.
      unfold py_ret at 1. unfold pmt.intern.
      fwd getitem_some. fwd getitem_some. fwd head_ready.
      fwd getitem_some. fwd getitem_some.
      fails_here file_sink_unwritable.
Qed.

End unopenable.

(** ** The message of the strobe *)

Section strobe_message.
Variable rt : runtime.

(** X11.  The message of the message specification is joined without a
    separator before it is interned: given as a list or tuple of strings
    it stands for their concatenation, and the run is the same as with
    that string; when it is nothing that can be joined (an integer, or a
    sequence with an element that is not a string), the run raises before
    anything is built. *)
Theorem message_is_joined fuel c ms os conn w m :
  default DEFAULT_MESSAGE_SPEC ms !! "message" = Some m ->
  (forall e, join_empty m = inl e ->
     run_msg_source rt fuel c ms os conn w = (Raised e, w))
  /\ (forall s, join_empty m = inr s ->
        run_msg_source rt fuel c ms os conn w
        = run_msg_source rt fuel c
            (Some (<["message" := PStr s]> (default DEFAULT_MESSAGE_SPEC ms)))
            os conn w).
Proof.
  intros Hm. split.
  - intros e He. unfold run_msg_source.
    fwd getitem_some. unfold py_bind at 1. now rewrite He.
  - intros s Hs. unfold run_msg_source. cbn [default]. unfold id.
    fwd getitem_some. rewrite Hs.
    symmetry.
    erewrite py_bind_done;
      [ | apply getitem_some, lookup_insert_eq ].
    cbn [join_empty].
    unfold lift at 1. unfold py_bind at 1. unfold py_ret at 1.
    unfold py_bind at 1. unfold getitem at 1.
    rewrite lookup_insert_ne by discriminate.
    symmetry.
    unfold lift at 1. unfold py_bind at 1. unfold py_ret at 1.
    unfold py_bind at 1. unfold getitem at 1.
    reflexivity.
Qed.

End strobe_message.

(** ** Graphs the runtime refuses, and the two ways of wiring *)

Section refusals.
Variable rt : runtime.

Lemma file_wiring_result src c head sink conn p_in p_out w :
  ports_of conn p_in p_out ->
  match conn with
  | PNone =>
      gr.connect rt gr.top_block
        [gr.Blk src; gr.Blk (Component c); gr.Blk head; gr.Blk sink]
  | _ =>
      c0 <- lift (subscript conn 0) ;;
      top <- gr.connect rt gr.top_block
               [gr.Blk src; gr.At (Component c) c0] ;;
      c1 <- lift (subscript conn 1) ;;
      top <- gr.connect rt top [gr.At (Component c) c1; gr.Blk head] ;;
      gr.connect rt top [gr.Blk head; gr.Blk sink]
  end w
  = (if admits rt (src, PInt 0) (Component c, p_in)
        && admits rt (Component c, p_out) (head, PInt 0)
        && admits rt (head, PInt 0) (sink, PInt 0)
     then Done (file_pipeline src c p_in p_out head sink)
     else Raised RuntimeError, w).
Proof.
  intros Hports.
  destruct conn; cbn [ports_of] in Hports; destruct Hports as [H0 H1];
    try (rewrite H0; unfold lift at 1; unfold py_bind at 1;
         unfold py_ret at 1);
    subst;
    unfold gr.connect, gr.connect_from, gr.coerce_endpoint, gr.connect1;
    unfold py_bind, py_ret, raise; cbn [stream_edges msg_edges gr.top_block];
    destruct (admits rt (src, PInt 0) _); cbn [andb]; try reflexivity;
    try (rewrite H1; unfold lift, py_ret);
    destruct (admits rt (Component c, _) (head, PInt 0));
    cbn [andb stream_edges msg_edges]; try reflexivity;
    destruct (admits rt (head, PInt 0) (sink, PInt 0)); reflexivity.
Qed.

(** X12.  On valid arguments, when the runtime refuses one of the
    connections or the finished graph, the run raises; by then the nodes
    have been built, so the output file has been created, or emptied if
    it was there, and that is all that has happened. *)
Theorem refused_graph_leaves_empty_output fuel c os conn w
    t' n opath p_in p_out :
  out_spec_ready rt (default (DEFAULT_OUT_SPEC rt) os) t' n opath ->
  (forall fs t path rep,
     file_spec_ready rt w (default (DEFAULT_FILE_SPEC rt) fs) t path rep ->
     ports_of (default PNone conn) p_in p_out ->
     ~ graph_ready rt (file_pipeline (FileSource t path rep) c p_in p_out
                                     (Head t' n) (FileSink t' opath)) ->
     run_file_source rt fuel c fs os conn w
     = (Raised RuntimeError, created opath w))
  /\ (forall ms m msg period,
        msg_spec_ready (default DEFAULT_MESSAGE_SPEC ms) m msg period ->
        subscript (default PNone conn) 0 = inr p_in ->
        subscript (default PNone conn) 1 = inr p_out ->
        ~ graph_ready rt (msg_pipeline (MessageStrobe msg period) c
                                       p_in p_out
                                       (Head t' n) (FileSink t' opath)) ->
        run_msg_source rt fuel c ms os conn w
        = (Raised RuntimeError, created opath w)).
Proof.
  intros Hos. split.
  - intros fs t path rep Hfs Hports Hng.
    rewrite (file_run_built rt _ _ _ _ _ _ _ _ _ _ _ _ Hfs Hos).
    unfold py_bind at 1.
    rewrite (file_wiring_result _ _ _ _ _ _ _ _ Hports).
    destruct (admits rt (FileSource t path rep, PInt 0) _) eqn:E1;
      [ | reflexivity].
    destruct (admits rt (Component c, p_out) _) eqn:E2; [ | reflexivity].
    destruct (admits rt (Head t' n, PInt 0) _) eqn:E3; [ | reflexivity].
    cbn [andb].
    destruct Hos as (_ & Hn & _).
    fwd getitem_some. unfold gr.run.
    destruct (runnable rt _) eqn:E4; [ | reflexivity].
    destruct Hng. repeat split; cbn [file_pipeline stream_edges msg_edges];
      repeat constructor; assumption.
  - intros ms m msg period Hms H0 H1 Hng.
    rewrite (msg_run_built rt _ _ _ _ _ _ _ _ _ _ _ _ Hms Hos).
    rewrite H0. unfold lift at 1. unfold py_bind at 1. unfold py_ret at 1.
    unfold py_bind at 1. unfold gr.msg_connect at 1.
    destruct (admits_msg rt _ _) eqn:E1; [ | reflexivity].
    unfold py_ret at 1. rewrite H1.
    unfold lift at 1. unfold py_bind at 1. unfold py_ret at 1.
    unfold py_bind at 1.
    unfold gr.connect at 1, gr.connect_from at 1, gr.coerce_endpoint.
    unfold py_bind at 1. unfold gr.connect1 at 1.
    destruct (admits rt (Component c, p_out) _) eqn:E2; [ | reflexivity].
    unfold py_ret at 1. unfold py_ret at 1.
    unfold py_bind at 1.
    unfold gr.connect at 1, gr.connect_from at 1, gr.coerce_endpoint.
    unfold py_bind at 1. unfold gr.connect1 at 1.
    destruct (admits rt (Head t' n, PInt 0) _) eqn:E3; [ | reflexivity].
    unfold py_ret at 1. unfold py_ret at 1.
    destruct Hos as (_ & Hn & _).
    fwd getitem_some. unfold py_bind at 1. unfold gr.start.
    cbn [stream_edges msg_edges gr.top_block app].
    destruct (runnable rt _) eqn:E4; [ | reflexivity].
    destruct Hng. repeat split; cbn [msg_pipeline stream_edges msg_edges];
      repeat constructor; assumption.
Qed.

(** X13.  A file-driven run without a connection descriptor is the run
    with the descriptor (0, 0), in every respect: the one call that
    chains the four nodes makes the same three connections, in the same
    order, as the three calls of the other branch. *)
Theorem no_descriptor_is_0_0 fuel c fs os w :
  run_file_source rt fuel c fs os None w
  = run_file_source rt fuel c fs os (Some (PTuple [PInt 0; PInt 0])) w.
Proof.
  unfold run_file_source.
  do 10 (apply py_bind_ext; intros). apply py_bind_ext_l.
  change (default PNone None) with PNone.
  change (default PNone (Some (PTuple [PInt 0; PInt 0])))
    with (PTuple [PInt 0; PInt 0]).
  cbv beta iota.
  rewrite (file_wiring_result _ c _ _ PNone (PInt 0) (PInt 0));
    [ | split; reflexivity].
  rewrite (file_wiring_result _ c _ _ (PTuple [PInt 0; PInt 0])
             (PInt 0) (PInt 0));
    [ | split; reflexivity].
  reflexivity.
Qed.
End refusals.

(** Runs of X10's theorem: an input path where there is no file, and the
    default output path, the empty one, where none can be created. *)
Lemma unopenable_file_fails_first_witness :
  run_file_source copying_runtime 6 "adder"
    (Some {[ "path" := PStr "/tmp/missing.byte"; "type" := PInt 1;
             "repeat" := PBool true ]})
    (Some (out_sig (PInt 1) 5)) None three_elements
  = (Raised RuntimeError, three_elements)
  /\ run_file_source copying_runtime 6 "adder" (Some (in_sig true))
       None None three_elements
     = (Raised RuntimeError, three_elements)
  /\ run_msg_source copying_runtime 10 "wifi" None None (Some in_0)
       three_elements
     = (Raised RuntimeError, three_elements).
Proof.
  assert (Hout : forall P : Prop,
            (default (DEFAULT_OUT_SPEC copying_runtime) None !! "type"
             = Some (PInt 1) ->
             default (DEFAULT_OUT_SPEC copying_runtime) None !! "n_items"
             = Some (PInt 10000) ->
             default (DEFAULT_OUT_SPEC copying_runtime) None !! "path"
             = Some (PStr "") ->
             supported copying_runtime (PInt 1) = true ->
             0 <= 10000 ->
             writable copying_runtime "" = false -> P) -> P).
  { intros P HP. apply HP; try reflexivity. lia. }
  repeat apply conj.
  - apply (proj1 (unopenable_file_fails_first copying_runtime 6 "adder"
                    three_elements)
             _ _ None (PInt 1) "/tmp/missing.byte" true); reflexivity.
  - apply Hout. intros Ht Hn Hp Hs Hn0 Hw.
    apply (proj1 (proj2 (unopenable_file_fails_first copying_runtime 6
                           "adder" three_elements)
                        None (PInt 1) 10000 "" Ht Hn Hp Hs Hn0 Hw)
             _ None (PInt 1) "/tmp/input.byte" true).
    repeat split; try reflexivity. now exists [7; 8; 9].
  - apply Hout. intros Ht Hn Hp Hs Hn0 Hw.
    apply (proj2 (proj2 (unopenable_file_fails_first copying_runtime 10
                           "wifi" three_elements)
                        None (PInt 1) 10000 "" Ht Hn Hp Hs Hn0 Hw)
             None (Some in_0) (PStr "hello world") "hello world" 300).
    repeat split; reflexivity.
Defined.

(** Runs of X11's theorem: a message in three pieces, and a message that
    is a number. *)
Lemma message_is_joined_witness :
  run_msg_source copying_runtime 10 "wifi"
    (Some {[ "message" := PList [PStr "hello"; PStr " "; PStr "world"];
             "period(ms)" := PInt 300 ]})
    (Some (out_sig (PInt 1) 3)) (Some in_0) three_elements
  = run_msg_source copying_runtime 10 "wifi"
      (Some (<["message" := PStr "hello world"]>
               {[ "message" := PList [PStr "hello"; PStr " "; PStr "world"];
                  "period(ms)" := PInt 300 ]}))
      (Some (out_sig (PInt 1) 3)) (Some in_0) three_elements
  /\ run_msg_source copying_runtime 10 "wifi"
       (Some {[ "message" := PInt 5; "period(ms)" := PInt 300 ]})
       (Some (out_sig (PInt 1) 3)) (Some in_0) three_elements
     = (Raised TypeError, three_elements).
Proof.
  split.
  - destruct (message_is_joined copying_runtime 10 "wifi"
                (Some {[ "message" :=
                           PList [PStr "hello"; PStr " "; PStr "world"];
                         "period(ms)" := PInt 300 ]})
                (Some (out_sig (PInt 1) 3)) (Some in_0) three_elements
                (PList [PStr "hello"; PStr " "; PStr "world"]))
      as [_ Hjoin]; [reflexivity | ].
    apply (Hjoin "hello world"). reflexivity.
  - destruct (message_is_joined copying_runtime 10 "wifi"
                (Some {[ "message" := PInt 5; "period(ms)" := PInt 300 ]})
                (Some (out_sig (PInt 1) 3)) (Some in_0) three_elements
                (PInt 5))
      as [Herr _]; [reflexivity | ].
    apply (Herr TypeError). reflexivity.
Defined.

(** Runs of X12's theorem: a component entered at a stream port and at a
    message port that it does not have. *)
Lemma refused_graph_leaves_empty_output_witness :
  run_file_source strict_runtime 6 "adder" (Some (in_sig true))
    (Some (out_sig (PInt 1) 5)) (Some (PTuple [PInt 3; PInt 0]))
    three_elements
  = (Raised RuntimeError, created "/tmp/output.byte" three_elements)
  /\ run_msg_source strict_runtime 10 "wifi" None
       (Some (out_sig (PInt 1) 3)) (Some (PTuple [PStr "nope"; PInt 0]))
       three_elements
     = (Raised RuntimeError, created "/tmp/output.byte" three_elements).
Proof.
  split.
  - apply (proj1 (refused_graph_leaves_empty_output strict_runtime 6 "adder"
                    (Some (out_sig (PInt 1) 5))
                    (Some (PTuple [PInt 3; PInt 0])) three_elements
                    (PInt 1) 5 "/tmp/output.byte" (PInt 3) (PInt 0)
                    ltac:(repeat split; try reflexivity; lia))
             (Some (in_sig true)) (PInt 1) "/tmp/input.byte" true).
    + repeat split; try reflexivity. now exists [7; 8; 9].
    + split; reflexivity.
    + intros (H & _). apply Forall_inv in H. discriminate H.
  - apply (proj2 (refused_graph_leaves_empty_output strict_runtime 10 "wifi"
                    (Some (out_sig (PInt 1) 3))
                    (Some (PTuple [PStr "nope"; PInt 0])) three_elements
                    (PInt 1) 3 "/tmp/output.byte" (PStr "nope") (PInt 0)
                    ltac:(repeat split; try reflexivity; lia))
             None (PStr "hello world") "hello world" 300).
    + repeat split; reflexivity.
    + reflexivity.
    + reflexivity.
    + intros (_ & H & _). apply Forall_inv in H. discriminate H.
Defined.
